(** * Async migration 0004_replicated_schema: a shallow embedding

    The migration replaces the engine of every ClickHouse table of a fixed
    catalog by its replicated counterpart
    (posthog/async_migrations/migrations/0004_replicated_schema.py).

    Part I embeds the program: Python values and exceptions, the text
    functions the migration calls (f-strings, [in], [strftime], [re.sub]), the
    statements it sends to ClickHouse, the table descriptors, the operation
    plan and the methods of [Migration].  Part II states and proves the
    properties of the plan and of its actions.  Two functions beside the
    migration are embedded and verified as well: [get_table_name] of
    posthog/clickhouse/schema.py and [get_variant_names] of
    posthog/api/web_experiment.py. *)

From stdpp Require Import gmap strings list fin_maps pretty.
From Stdlib Require Import ZArith Lia Ascii.

(* ===================================================================== *)
(** * Part I.  The program                                                *)
(* ===================================================================== *)

(** ** Python text *)

Module PyStr.

(** Line feed, the only character [.] rejects in a pattern compiled without
    flags. *)
Definition LF : ascii := Ascii.ascii_of_nat 10.
Definition nl : string := String LF "".

(** Reverse solidus, the escape character of a replacement template. *)
Definition BACKSLASH : ascii := Ascii.ascii_of_nat 92.

Definition RPAREN : ascii := Ascii.ascii_of_nat 41.

(** [s.startswith(p)] together with the remainder: [Some rest] when
    [s = p + rest]. *)
Fixpoint strip_prefix (p s : string) : option string :=
  match p with
  | EmptyString => Some s
  | String a p' =>
      match s with
      | String b s' => if Ascii.eqb a b then strip_prefix p' s' else None
      | EmptyString => None
      end
  end.

(** [needle in s]. *)
Fixpoint contains (needle s : string) : bool :=
  match strip_prefix needle s with
  | Some _ => true
  | None =>
      match s with
      | String _ s' => contains needle s'
      | EmptyString => false
      end
  end.

(** [c in s] for one character. *)
Fixpoint has_char (c : ascii) (s : string) : bool :=
  match s with
  | String x s' => Ascii.eqb x c || has_char c s'
  | EmptyString => false
  end.

(** The [n] characters [c]. *)
Fixpoint replicate_char (n : nat) (c : ascii) : string :=
  match n with
  | O => EmptyString
  | S k => String c (replicate_char k c)
  end.

(** [%0wd]: decimal digits, zero-padded on the left to [width]. *)
Definition zero_padded (width : nat) (n : nat) : string :=
  let digits := pretty n in
  replicate_char (width - String.length digits) "0"%char +:+ digits.

End PyStr.

(** ** The part of [re] the migration uses *)

Module Re.
Import PyStr.

(** The pattern of [get_new_engine] is a sequence of three kinds of items. *)
Inductive item : Type :=
  | AnyStar                   (* [.*]: greedy, any character but a line feed *)
  | Literal (s : string)      (* literal text, as [MergeTree\(] and [\)] *)
  | NotCharPlus (c : ascii).  (* [[^c]+]: greedy, one or more characters other than c *)

Definition pattern := list item.

(** Backtracking match of [p] at the start of the text: the length of the
    match the engine finds first (a greedy item gives up one character at a
    time), or [None] when the pattern does not match here. *)
Fixpoint match_here (p : pattern) : string -> option nat :=
  match p with
  | [] => fun _ => Some O
  | AnyStar :: p' =>
      fix star (s : string) : option nat :=
        match s with
        | String c s' =>
            if Ascii.eqb c LF then match_here p' s
            else match star s' with
                 | Some n => Some (S n)
                 | None => match_here p' s
                 end
        | EmptyString => match_here p' s
        end
  | Literal l :: p' =>
      fun s =>
        match strip_prefix l s with
        | Some s' => Nat.add (String.length l) <$> match_here p' s'
        | None => None
        end
  | NotCharPlus c :: p' =>
      fix plus (s : string) : option nat :=
        match s with
        | String x s' =>
            if Ascii.eqb x c then None
            else match plus s' with
                 | Some n => Some (S n)
                 | None => S <$> match_here p' s'
                 end
        | EmptyString => None
        end
  end.

(** What a backslash followed by [e] stands for in a replacement template
    (sre_parse.parse_template, for a pattern without groups). *)
Inductive escape : Type :=
  | EscChar (c : ascii)   (* one of the escapes of the ESCAPES table *)
  | EscKeep               (* not a letter or digit: both characters are kept *)
  | EscBad                (* an ASCII letter outside the table: re.error *)
  | EscGroup.             (* [\g<...>] or a digit: a group reference or an octal code *)

Definition is_ascii_letter (c : ascii) : bool :=
  let n := Ascii.nat_of_ascii c in
  ((65 <=? n)%nat && (n <=? 90)%nat) || ((97 <=? n)%nat && (n <=? 122)%nat).

Definition is_digit (c : ascii) : bool :=
  let n := Ascii.nat_of_ascii c in (48 <=? n)%nat && (n <=? 57)%nat.

Definition escape_of (e : ascii) : escape :=
  if Ascii.eqb e "a" then EscChar (Ascii.ascii_of_nat 7)
  else if Ascii.eqb e "b" then EscChar (Ascii.ascii_of_nat 8)
  else if Ascii.eqb e "f" then EscChar (Ascii.ascii_of_nat 12)
  else if Ascii.eqb e "n" then EscChar (Ascii.ascii_of_nat 10)
  else if Ascii.eqb e "r" then EscChar (Ascii.ascii_of_nat 13)
  else if Ascii.eqb e "t" then EscChar (Ascii.ascii_of_nat 9)
  else if Ascii.eqb e "v" then EscChar (Ascii.ascii_of_nat 11)
  else if Ascii.eqb e BACKSLASH then EscChar BACKSLASH
  else if Ascii.eqb e "g" then EscGroup
  else if is_digit e then EscGroup
  else if is_ascii_letter e then EscBad
  else EscKeep.

(** The outcome of [re.sub]. *)
Inductive result : Type :=
  | Text (s : string)
  | Error              (* re.error: bad escape in the replacement *)
  | GroupTemplate      (* the replacement refers to a group or holds an octal
                          code; the engine texts of the migration hold no
                          backslash and this model does not expand these *)
  | NotText.           (* TypeError: the subject is no string *)

Definition result_map (f : string -> string) (r : result) : result :=
  match r with
  | Text s => Text (f s)
  | Error => Error
  | GroupTemplate => GroupTemplate
  | NotText => NotText
  end.

(** The replacement with its escapes expanded. *)
Fixpoint parse_template (repl : string) : result :=
  match repl with
  | EmptyString => Text ""
  | String c rest =>
      if Ascii.eqb c BACKSLASH then
        match rest with
        | EmptyString => Error
        | String e rest' =>
            match escape_of e with
            | EscChar x => result_map (String x) (parse_template rest')
            | EscKeep => result_map (fun t => String c (String e t)) (parse_template rest')
            | EscBad => Error
            | EscGroup => GroupTemplate
            end
        end
      else result_map (String c) (parse_template rest)
  end.

(** The scan of [re.sub] with count 0: [skip] characters of the last match
    are still to be passed over; at every other position the pattern is
    tried, a match is replaced by [repl] and the scan goes on after it, and a
    position without a match keeps its character.  An empty match is replaced
    too and the scan moves on by one character. *)
Fixpoint sub_scan (p : pattern) (repl : string) (skip : nat) (s : string) : string :=
  match s with
  | EmptyString =>
      match skip, match_here p EmptyString with
      | O, Some _ => repl
      | _, _ => EmptyString
      end
  | String c s' =>
      match skip with
      | S k => sub_scan p repl k s'
      | O =>
          match match_here p s with
          | Some (S n) => repl +:+ sub_scan p repl n s'
          | Some O => repl +:+ String c (sub_scan p repl O s')
          | None => String c (sub_scan p repl O s')
          end
      end
  end.

(** [re.sub(p, repl, s)] on a string [s]. *)
Definition sub (p : pattern) (repl s : string) : result :=
  result_map (fun r => sub_scan p r O s) (parse_template repl).

(** [re.sub(p, repl, subject)] on any subject, [None] standing for one that
    is no string: a replacement that holds a backslash is compiled before the
    subject is looked at, so its error comes first. *)
Definition sub_subject (p : pattern) (repl : string) (subject : option string) : result :=
  match subject with
  | Some s => sub p repl s
  | None =>
      match parse_template repl with
      | Text _ => NotText
      | failure => failure
      end
  end.

End Re.

(** ** Python values, exceptions and the run of a method *)

Module Py.

(** The values ClickHouse rows hold and the methods pass around. *)
Inductive value : Type :=
  | VNone
  | VInt (n : Z)
  | VStr (s : string).

Definition row := list value.
Definition rows := list row.

Inductive exn : Type :=
  | AssertionError (msg : string)
  | TypeError
  | IndexError
  | ValueError
  | ReError                         (* re.error *)
  | ServerException (msg : string)  (* raised by the ClickHouse client *)
  | Unmodelled (what : string).     (* no Python exception: the run left the
                                       fragment of the library modelled here *)

Inductive outcome (A : Type) : Type :=
  | Ok (a : A)
  | Raise (e : exn).
Arguments Ok {A} a.
Arguments Raise {A} e.

Definition is_ok {A} (o : outcome A) : bool :=
  match o with Ok _ => true | Raise _ => false end.

(** [f"{v}"]. *)
Definition format_value (v : value) : string :=
  match v with
  | VNone => "None"
  | VInt n => pretty n
  | VStr s => s
  end.

(** [v == 0]. *)
Definition eq_zero (v : value) : bool :=
  match v with
  | VInt n => Z.eqb n 0
  | _ => false
  end.

(** [bool(s)] of a string. *)
Definition truthy (s : string) : bool :=
  match s with EmptyString => false | String _ _ => true end.

(** [datetime]: the fields [strftime] reads. *)
Record datetime : Type := Datetime {
  year : nat; month : nat; day : nat;
  hour : nat; minute : nat; second : nat }.

(** [d.strftime("am0004_%Y%m%d%H%M%S")]: the year in decimal (four digits
    for the years [now()] returns), the other fields on two digits. *)
Definition strftime_am0004 (d : datetime) : string :=
  "am0004_" +:+ pretty (year d)
    +:+ PyStr.zero_padded 2 (month d) +:+ PyStr.zero_padded 2 (day d)
    +:+ PyStr.zero_padded 2 (hour d) +:+ PyStr.zero_padded 2 (minute d)
    +:+ PyStr.zero_padded 2 (second d).

End Py.

(** ** The statements the migration sends through [sync_execute] *)

Module Clickhouse.
Import Py.

Inductive statement : Type :=
  | SelectEngineFull (database name : string)
  | SelectMergesCount (database table : string)
  | SelectActivePartitions (database table : string)
  | SelectNodeCount (cluster : string)
  | AlterAttachPartition (to_table partition from_table : string)
  | AlterDropPartition (from_table partition : string)
  | RenameTable (from_1 to_1 from_2 to_2 : string).

(** The text of each statement and its bound parameters, as the source
    writes them. *)
Definition statement_text (q : statement) : string * list (string * string) :=
  match q with
  | SelectEngineFull database name =>
      ("SELECT engine_full FROM system.tables WHERE database = %(database)s AND name = %(name)s",
       [("database", database); ("name", name)])
  | SelectMergesCount database table =>
      ("SELECT count() FROM system.merges WHERE database = %(database)s AND table = %(table)s",
       [("database", database); ("table", table)])
  | SelectActivePartitions database table =>
      ("SELECT DISTINCT partition FROM system.parts WHERE database = %(database)s AND table = %(table)s AND is_active",
       [("database", database); ("table", table)])
  | SelectNodeCount cluster =>
      ("SELECT count() FROM clusterAllReplicas(%(cluster)s, system, one)",
       [("cluster", cluster)])
  | AlterAttachPartition to_table partition from_table =>
      ("ALTER TABLE " +:+ to_table +:+ " ATTACH PARTITION " +:+ partition
         +:+ " FROM " +:+ from_table, [])
  | AlterDropPartition from_table partition =>
      ("ALTER TABLE " +:+ from_table +:+ " DROP PARTITION " +:+ partition, [])
  | RenameTable from_1 to_1 from_2 to_2 =>
      ("RENAME TABLE " +:+ from_1 +:+ " TO " +:+ to_1 +:+ ", "
         +:+ from_2 +:+ " TO " +:+ to_2, [])
  end.

(** A ClickHouse server: what a statement answers and the state it leaves. *)
Class Backend (DB : Type) : Type :=
  execute : statement -> DB -> outcome rows * DB.

(** The world a method runs in: the server, the clock behind [now()] (its
    successive readings, [ticks] of them taken so far) and the constance
    [config] object.  The [journal] is not state of the program: it records
    the statements sent so far, each with whether the server accepted it, so
    that the order of the calls can be stated. *)
Record world (DB : Type) : Type := World {
  db : DB;
  clock : nat -> datetime;
  ticks : nat;
  config : gmap string bool;
  journal : list (statement * bool) }.
Arguments World {DB} _ _ _ _ _.
Arguments db {DB} _.
Arguments clock {DB} _.
Arguments ticks {DB} _.
Arguments config {DB} _.
Arguments journal {DB} _.

(** A method run: the value returned or the exception raised, and the world
    left behind. *)
Definition Run (DB A : Type) : Type := world DB -> outcome A * world DB.

Definition ret {DB A} (a : A) : Run DB A := fun w => (Ok a, w).

Definition raise {DB A} (e : exn) : Run DB A := fun w => (Raise e, w).

Definition bind {DB A B} (m : Run DB A) (k : A -> Run DB B) : Run DB B :=
  fun w =>
    match m w with
    | (Ok a, w') => k a w'
    | (Raise e, w') => (Raise e, w')
    end.

Declare Scope run_scope.
Delimit Scope run_scope with run.
Notation "x <- m ;; k" := (bind m (fun x => k))
  (at level 100, m at next level, right associativity) : run_scope.
Notation "m ;; k" := (bind m (fun _ => k))
  (at level 100, right associativity) : run_scope.
Local Open Scope run_scope.

(** [sync_execute(q)]: the statement reaches the server and is journalled. *)
Definition sync_execute {DB} `{!Backend DB} (q : statement) : Run DB rows :=
  fun w =>
    let (answer, d) := execute q (db w) in
    (answer, World d (clock w) (ticks w) (config w) (journal w ++ [(q, is_ok answer)])).

(** [now()]: the next reading of the clock. *)
Definition now {DB} : Run DB datetime :=
  fun w => (Ok (clock w (ticks w)),
            World (db w) (clock w) (S (ticks w)) (config w) (journal w)).

(** [setattr(config, name, v)]. *)
Definition setattr_config {DB} (name : string) (v : bool) : Run DB unit :=
  fun w => (Ok tt, World (db w) (clock w) (ticks w) (<[name := v]> (config w)) (journal w)).

(** [l[i]]. *)
Definition item {DB A} (l : list A) (i : nat) : Run DB A :=
  match l !! i with
  | Some x => ret x
  | None => raise IndexError
  end.

(** [(x,) = r]. *)
Definition unpack_1 {DB} (r : row) : Run DB value :=
  match r with
  | [x] => ret x
  | _ => raise ValueError
  end.

(** [for x in l: body(x)]. *)
Fixpoint for_each {DB A} (l : list A) (body : A -> Run DB unit) : Run DB unit :=
  match l with
  | [] => ret tt
  | x :: l' => body x ;; for_each l' body
  end.

(** [[f(x) for x in l]]. *)
Fixpoint comprehension {DB A B} (f : A -> Run DB B) (l : list A) : Run DB (list B) :=
  match l with
  | [] => ret []
  | x :: l' => y <- f x ;; ys <- comprehension f l' ;; ret (y :: ys)
  end.

End Clickhouse.

(** ** The migration *)

Module Migration0004.
Import PyStr Py Clickhouse.
Local Open Scope run_scope.

(** The interface of the engine objects the descriptors hold.  The class
    itself ([MergeTreeEngine], imported from ee.clickhouse.sql.table_engines)
    is not part of the sources; the migration calls these two methods. *)
Class EngineClass (E : Type) : Type := {
  set_zookeeper_path_key : string -> E -> E;
  engine_str : E -> string }.  (* [str(engine)] *)

(** The fields [ShardedTableMigrationData] adds. *)
Record ShardedFields : Type := {
  rename_to : string;
  extra_tables : list (string * string);   (* a dict, in insertion order *)
  materialized_view_name : option string;
  create_materialized_view : string }.

(** [TableMigrationData]; [sharded] holds the subclass's fields, so
    [isinstance(table, ShardedTableMigrationData)] is [sharded] being set. *)
Record TableMigrationData (E : Type) : Type := {
  name : string;
  new_table_engine : E;
  kafka_table_name : option string;
  create_kafka_table : option string;
  sharded : option ShardedFields }.
Arguments name {E} _.
Arguments new_table_engine {E} _.
Arguments kafka_table_name {E} _.
Arguments create_kafka_table {E} _.
Arguments sharded {E} _.

Definition renamed_table_name {E} (table : TableMigrationData E) : string :=
  match sharded table with
  | Some s => rename_to s
  | None => name table
  end.

Definition backup_table_name {E} (table : TableMigrationData E) : string :=
  name table +:+ "_backup_0004_replicated_schema".

Definition tmp_table_name {E} (table : TableMigrationData E) : string :=
  name table +:+ "_tmp_0004_replicated_schema".

(** The closures the plan holds, one constructor per lambda body. *)
Inductive action : Type :=
  | SetConfig (attribute : string) (v : bool)
  | MovePartitions (from_table to_table : string)
  | RenameTables (rename_1 rename_2 : list string) (verify_table_exists : option string).

(** [AsyncMigrationOperationSQL(sql, rollback)] and
    [AsyncMigrationOperation(fn, rollback_fn)]. *)
Inductive operation : Type :=
  | AsyncMigrationOperationSQL (sql : option string) (rollback : option string)
  | AsyncMigrationOperation (fn : action) (rollback_fn : action).

(** [django.conf.settings], the attributes read. *)
Record Settings : Type := {
  CLICKHOUSE_REPLICATION : bool;
  CLICKHOUSE_DATABASE : string;
  CLICKHOUSE_CLUSTER : string }.

(** The engines and statements [tables_to_migrate] imports from
    ee.clickhouse.sql, each the value of the call the source makes. *)
Record SqlDefinitions (E : Type) : Type := {
  EVENTS_DATA_TABLE_ENGINE : E;
  KAFKA_EVENTS_TABLE_SQL : string;
  EVENTS_TABLE_MV_SQL : string;
  WRITABLE_EVENTS_TABLE_SQL : string;
  DISTRIBUTED_EVENTS_TABLE_SQL : string;
  SESSION_RECORDING_EVENTS_DATA_TABLE_ENGINE : E;
  KAFKA_SESSION_RECORDING_EVENTS_TABLE_SQL : string;
  SESSION_RECORDING_EVENTS_TABLE_MV_SQL : string;
  WRITABLE_SESSION_RECORDING_EVENTS_TABLE_SQL : string;
  DISTRIBUTED_SESSION_RECORDING_EVENTS_TABLE_SQL : string;
  DEAD_LETTER_QUEUE_TABLE_ENGINE : E;
  KAFKA_DEAD_LETTER_QUEUE_TABLE_SQL : string;
  GROUPS_TABLE_ENGINE : E;
  KAFKA_GROUPS_TABLE_SQL : string;
  PERSONS_TABLE_ENGINE : E;
  KAFKA_PERSONS_TABLE_SQL : string;
  PERSON_DISTINCT_ID2_TABLE_ENGINE : E;
  KAFKA_PERSON_DISTINCT_ID2_TABLE_SQL : string;
  PLUGIN_LOG_ENTRIES_TABLE_ENGINE : E;
  KAFKA_PLUGIN_LOG_ENTRIES_TABLE_SQL : string;
  COHORTPEOPLE_TABLE_ENGINE : E;
  PERSON_STATIC_COHORT_TABLE_ENGINE : E }.
Arguments EVENTS_DATA_TABLE_ENGINE {E} _.
Arguments KAFKA_EVENTS_TABLE_SQL {E} _.
Arguments EVENTS_TABLE_MV_SQL {E} _.
Arguments WRITABLE_EVENTS_TABLE_SQL {E} _.
Arguments DISTRIBUTED_EVENTS_TABLE_SQL {E} _.
Arguments SESSION_RECORDING_EVENTS_DATA_TABLE_ENGINE {E} _.
Arguments KAFKA_SESSION_RECORDING_EVENTS_TABLE_SQL {E} _.
Arguments SESSION_RECORDING_EVENTS_TABLE_MV_SQL {E} _.
Arguments WRITABLE_SESSION_RECORDING_EVENTS_TABLE_SQL {E} _.
Arguments DISTRIBUTED_SESSION_RECORDING_EVENTS_TABLE_SQL {E} _.
Arguments DEAD_LETTER_QUEUE_TABLE_ENGINE {E} _.
Arguments KAFKA_DEAD_LETTER_QUEUE_TABLE_SQL {E} _.
Arguments GROUPS_TABLE_ENGINE {E} _.
Arguments KAFKA_GROUPS_TABLE_SQL {E} _.
Arguments PERSONS_TABLE_ENGINE {E} _.
Arguments KAFKA_PERSONS_TABLE_SQL {E} _.
Arguments PERSON_DISTINCT_ID2_TABLE_ENGINE {E} _.
Arguments KAFKA_PERSON_DISTINCT_ID2_TABLE_SQL {E} _.
Arguments PLUGIN_LOG_ENTRIES_TABLE_ENGINE {E} _.
Arguments KAFKA_PLUGIN_LOG_ENTRIES_TABLE_SQL {E} _.
Arguments COHORTPEOPLE_TABLE_ENGINE {E} _.
Arguments PERSON_STATIC_COHORT_TABLE_ENGINE {E} _.

(** What a [Migration] instance reads besides the server. *)
Record Migration (E : Type) : Type := {
  settings : Settings;
  definitions : SqlDefinitions E }.
Arguments settings {E} _.
Arguments definitions {E} _.

(** The pattern [r".*MergeTree\([^\)]+\)"]. *)
Definition ENGINE_PATTERN : Re.pattern :=
  [Re.AnyStar; Re.Literal "MergeTree("; Re.NotCharPlus RPAREN; Re.Literal ")"].

Definition COMPUTE_MATERIALIZED_COLUMNS_ENABLED : string :=
  "COMPUTE_MATERIALIZED_COLUMNS_ENABLED".

Section Methods.
Context {DB : Type} `{!Backend DB} {E : Type} `{!EngineClass E}.
Variable self : Migration E.

Definition tables_to_migrate : list (TableMigrationData E) :=
  let d := definitions self in
  [ {| name := "events";
       new_table_engine := EVENTS_DATA_TABLE_ENGINE d;
       kafka_table_name := Some "kafka_events";
       create_kafka_table := Some (KAFKA_EVENTS_TABLE_SQL d);
       sharded := Some {|
         rename_to := "sharded_events";
         extra_tables := [("writable_events", WRITABLE_EVENTS_TABLE_SQL d);
                          ("events", DISTRIBUTED_EVENTS_TABLE_SQL d)];
         materialized_view_name := Some "events_mv";
         create_materialized_view := EVENTS_TABLE_MV_SQL d |} |};
    {| name := "session_recording_events";
       new_table_engine := SESSION_RECORDING_EVENTS_DATA_TABLE_ENGINE d;
       kafka_table_name := Some "kafka_session_recording_events";
       create_kafka_table := Some (KAFKA_SESSION_RECORDING_EVENTS_TABLE_SQL d);
       sharded := Some {|
         rename_to := "sharded_session_recording_events";
         extra_tables :=
           [("writable_session_recording_events", WRITABLE_SESSION_RECORDING_EVENTS_TABLE_SQL d);
            ("session_recording_events", DISTRIBUTED_SESSION_RECORDING_EVENTS_TABLE_SQL d)];
         materialized_view_name := Some "session_recording_events_mv";
         create_materialized_view := SESSION_RECORDING_EVENTS_TABLE_MV_SQL d |} |};
    {| name := "events_dead_letter_queue";
       new_table_engine := DEAD_LETTER_QUEUE_TABLE_ENGINE d;
       kafka_table_name := Some "kafka_events_dead_letter_queue";
       create_kafka_table := Some (KAFKA_DEAD_LETTER_QUEUE_TABLE_SQL d);
       sharded := None |};
    {| name := "groups";
       new_table_engine := GROUPS_TABLE_ENGINE d;
       kafka_table_name := Some "kafka_groups";
       create_kafka_table := Some (KAFKA_GROUPS_TABLE_SQL d);
       sharded := None |};
    {| name := "person";
       new_table_engine := PERSONS_TABLE_ENGINE d;
       kafka_table_name := Some "kafka_person";
       create_kafka_table := Some (KAFKA_PERSONS_TABLE_SQL d);
       sharded := None |};
    {| name := "person_distinct_id2";
       new_table_engine := PERSON_DISTINCT_ID2_TABLE_ENGINE d;
       kafka_table_name := Some "kafka_person_distinct_id2";
       create_kafka_table := Some (KAFKA_PERSON_DISTINCT_ID2_TABLE_SQL d);
       sharded := None |};
    {| name := "plugin_log_entries";
       new_table_engine := PLUGIN_LOG_ENTRIES_TABLE_ENGINE d;
       kafka_table_name := Some "kafka_plugin_log_entries";
       create_kafka_table := Some (KAFKA_PLUGIN_LOG_ENTRIES_TABLE_SQL d);
       sharded := None |};
    {| name := "cohortpeople";
       new_table_engine := COHORTPEOPLE_TABLE_ENGINE d;
       kafka_table_name := None;
       create_kafka_table := None;
       sharded := None |};
    {| name := "person_static_cohort";
       new_table_engine := PERSON_STATIC_COHORT_TABLE_ENGINE d;
       kafka_table_name := None;
       create_kafka_table := None;
       sharded := None |} ].

(** [result[0][0] if len(result) > 0 else None]. *)
Definition get_current_engine (table_name : string) : Run DB value :=
  result <- sync_execute (SelectEngineFull (CLICKHOUSE_DATABASE (settings self)) table_name) ;;
  match result with
  | [] => ret VNone
  | _ :: _ => first <- item result 0 ;; item first 0
  end.

Definition get_number_of_nodes_in_cluster : Run DB value :=
  result <- sync_execute (SelectNodeCount (CLICKHOUSE_CLUSTER (settings self))) ;;
  first <- item result 0 ;; item first 0.

(** ["Distributed" not in cast(str, ...)]: [cast] does nothing at run time,
    and [in] raises TypeError on None and on a number. *)
Definition is_required : Run DB bool :=
  engine <- get_current_engine "events" ;;
  match engine with
  | VStr s => ret (negb (contains "Distributed" s))
  | _ => raise TypeError
  end.

(** [number_of_nodes > 1]. *)
Definition greater_than_one (v : value) : Run DB bool :=
  match v with
  | VInt n => ret (Z.ltb 1 n)
  | _ => raise TypeError
  end.

Definition precheck : Run DB (bool * option string) :=
  if negb (CLICKHOUSE_REPLICATION (settings self)) then
    ret (false, Some "CLICKHOUSE_REPLICATION env var needs to be set for this migration")
  else
    number_of_nodes <- get_number_of_nodes_in_cluster ;;
    too_many <- greater_than_one number_of_nodes ;;
    if too_many then
      ret (false,
           Some ("ClickHouse cluster should only contain one node at the time of this migration, found "
                   +:+ format_value number_of_nodes))
    else ret (true, None).

(** The engine object is updated in place by the source; nothing reads the
    descriptor's engine afterwards, so the updated engine stays local.
    [cast] does nothing at run time: an engine that is None reaches [re.sub]. *)
Definition get_new_engine (table : TableMigrationData E) : Run DB string :=
  current_engine <- get_current_engine (name table) ;;
  t <- now ;;
  let engine := set_zookeeper_path_key (strftime_am0004 t) (new_table_engine table) in
  let subject := match current_engine with VStr s => Some s | _ => None end in
  match Re.sub_subject ENGINE_PATTERN (engine_str engine) subject with
  | Re.Text new_engine => ret new_engine
  | Re.Error => raise ReError
  | Re.GroupTemplate => raise (Unmodelled "group reference in the engine text")
  | Re.NotText => raise TypeError
  end.

(** The [assert] is checked (the interpreter runs without -O).  The
    [logger.info] calls of this method and of [rename_tables] leave no trace
    in the world and are left out. *)
Definition move_partitions (from_table to_table : string) : Run DB unit :=
  let database := CLICKHOUSE_DATABASE (settings self) in
  result <- sync_execute (SelectMergesCount database from_table) ;;
  first <- item result 0 ;;
  running_merges <- item first 0 ;;
  if eq_zero running_merges then
    partitions <- sync_execute (SelectActivePartitions database from_table) ;;
    for_each partitions (fun r =>
      partition <- unpack_1 r ;;
      sync_execute (AlterAttachPartition to_table (format_value partition) from_table) ;;
      sync_execute (AlterDropPartition from_table (format_value partition)) ;;
      ret tt)
  else
    raise (AssertionError
             ("No merges should be running on tables while partitions are being moved. table="
                +:+ from_table)).

Definition rename_tables (rename_1 rename_2 : list string)
    (verify_table_exists : option string) : Run DB (option rows) :=
  missing <-
    match verify_table_exists with
    | Some t =>
        if truthy t then
          engine <- get_current_engine t ;;
          ret (match engine with VNone => true | _ => false end)
        else ret false
    | None => ret false
    end ;;
  if (missing : bool) then ret None
  else
    from_1 <- item rename_1 0 ;;
    to_1 <- item rename_1 1 ;;
    from_2 <- item rename_2 0 ;;
    to_2 <- item rename_2 1 ;;
    result <- sync_execute (RenameTable from_1 to_1 from_2 to_2) ;;
    ret (Some result).

(** Calling a closure of the plan. *)
Definition run_action (a : action) : Run DB unit :=
  match a with
  | SetConfig attribute v => setattr_config attribute v
  | MovePartitions from_table to_table => move_partitions from_table to_table
  | RenameTables rename_1 rename_2 verify_table_exists =>
      rename_tables rename_1 rename_2 verify_table_exists ;; ret tt
  end.

Definition replicated_table_operations (table : TableMigrationData E)
    : Run DB (list operation) :=
  new_engine <- get_new_engine table ;;
  ret ([ AsyncMigrationOperationSQL
           (Some (nl +:+ "            CREATE TABLE " +:+ tmp_table_name table
                    +:+ " AS " +:+ name table +:+ nl
                    +:+ "            ENGINE = " +:+ new_engine +:+ nl
                    +:+ "            "))
           (Some ("DROP TABLE IF EXISTS " +:+ tmp_table_name table)) ]
       ++ match kafka_table_name table with
          | Some kafka =>
              [ AsyncMigrationOperationSQL
                  (Some ("DROP TABLE IF EXISTS " +:+ kafka)) (create_kafka_table table) ]
          | None => []
          end
       ++ [ AsyncMigrationOperation
              (MovePartitions (name table) (tmp_table_name table))
              (MovePartitions (tmp_table_name table) (name table));
            AsyncMigrationOperation
              (RenameTables [name table; backup_table_name table]
                            [tmp_table_name table; renamed_table_name table] None)
              (RenameTables [renamed_table_name table; tmp_table_name table]
                            [backup_table_name table; name table]
                            (Some (backup_table_name table))) ]).

Definition finalize_table_operations (table : TableMigrationData E) : list operation :=
  match sharded table with
  | Some s =>
      map (fun '(table_name, create_table_query) =>
             AsyncMigrationOperationSQL
               (Some create_table_query) (Some ("DROP TABLE IF EXISTS " +:+ table_name)))
          (extra_tables s)
  | None => []
  end
  ++ match sharded table with
     | Some {| materialized_view_name := Some view |} =>
         [ AsyncMigrationOperationSQL (Some ("DROP TABLE IF EXISTS " +:+ view)) None ]
     | _ => []
     end
  ++ match kafka_table_name table with
     | Some kafka =>
         [ AsyncMigrationOperationSQL
             (create_kafka_table table) (Some ("DROP TABLE IF EXISTS " +:+ kafka)) ]
     | None => []
     end
  ++ match sharded table with
     | Some {| materialized_view_name := Some view; create_materialized_view := create |} =>
         [ AsyncMigrationOperationSQL
             (Some create) (Some ("DROP TABLE IF EXISTS " +:+ view)) ]
     | _ => []
     end.

(** The function that [@cached_property] wraps: the body of [operations].
    [flatten] of posthog.utils concatenates the per-table lists. *)
Definition operations_func : Run DB (list operation) :=
  blocks <- comprehension replicated_table_operations tables_to_migrate ;;
  let TABLE_MIGRATION_OPERATIONS := concat blocks in
  let RE_ENABLE_INGESTION_OPERATIONS :=
    concat (map finalize_table_operations tables_to_migrate) in
  ret ([ AsyncMigrationOperationSQL (Some "SYSTEM STOP MERGES") (Some "SYSTEM START MERGES");
         AsyncMigrationOperation
           (SetConfig COMPUTE_MATERIALIZED_COLUMNS_ENABLED false)
           (SetConfig COMPUTE_MATERIALIZED_COLUMNS_ENABLED true) ]
       ++ TABLE_MIGRATION_OPERATIONS
       ++ RE_ENABLE_INGESTION_OPERATIONS
       ++ [ AsyncMigrationOperation
              (SetConfig COMPUTE_MATERIALIZED_COLUMNS_ENABLED false)
              (SetConfig COMPUTE_MATERIALIZED_COLUMNS_ENABLED true);
            AsyncMigrationOperationSQL (Some "SYSTEM START MERGES") (Some "SYSTEM STOP MERGES") ]).

(** [@cached_property def operations]: the attribute [self.operations].  The
    decorator keeps the list in a slot of the instance's [__dict__]; the slot
    is passed in and handed back.  An access that finds the slot empty runs
    the function and stores the list it returns; an access that finds a list
    returns it and runs nothing, so no statement is sent and the clock is not
    read.  When the function raises, nothing is stored. *)
Definition operations (slot : option (list operation))
    : Run DB (list operation * option (list operation)) :=
  match slot with
  | Some plan => ret (plan, Some plan)
  | None => plan <- operations_func ;; ret (plan, Some plan)
  end.

End Methods.

End Migration0004.

(** ** A fake server and a fake engine class, to run the methods on *)

Module Fake.
Import PyStr Py Clickhouse Migration0004.

(** Modelled from the spec: ClickHouse is outside the sources.  The spec's
    testable properties run the partition mover "against a fake catalog with
    a set of partition identifiers"; this is that catalog: each table of the
    one database has its engine text, its set of active partitions and its
    count of running merges. *)
Record table_state : Type := TableState {
  engine_full : string;
  partitions : gset string;
  running_merges : Z }.

Record catalog : Type := Catalog {
  database : string;
  tables : gmap string table_state;
  nodes : Z }.

#[global] Instance table_state_eq_dec : EqDecision table_state.
Proof. solve_decision. Defined.

#[global] Instance catalog_eq_dec : EqDecision catalog.
Proof. solve_decision. Defined.

Definition with_tables (c : catalog) (t : gmap string table_state) : catalog :=
  Catalog (database c) t (nodes c).

Definition with_partitions (t : table_state) (p : gset string) : table_state :=
  TableState (engine_full t) p (running_merges t).

Definition UNKNOWN_TABLE : exn := ServerException "Table does not exist".
Definition TABLE_EXISTS : exn := ServerException "Table already exists".

(** [RENAME TABLE a TO b] on the table map. *)
Definition rename_one (a b : string) (t : gmap string table_state)
    : outcome (gmap string table_state) :=
  match t !! a with
  | None => Raise UNKNOWN_TABLE
  | Some ta =>
      match t !! b with
      | Some _ => Raise TABLE_EXISTS
      | None => Ok (<[b := ta]> (delete a t))
      end
  end.

(** Modelled from the spec: attaching a partition copies it into the target
    table ("hard-link-based"), dropping removes it from the source; a rename
    statement applies both renames or none. *)
Definition fake_execute (q : statement) (c : catalog) : outcome rows * catalog :=
  match q with
  | SelectEngineFull d n =>
      (Ok (if decide (d = database c)
           then match tables c !! n with
                | Some t => [[VStr (engine_full t)]]
                | None => []
                end
           else []), c)
  | SelectMergesCount d n =>
      (Ok [[VInt (if decide (d = database c)
                  then match tables c !! n with
                       | Some t => running_merges t
                       | None => 0
                       end
                  else 0)]], c)
  | SelectActivePartitions d n =>
      (Ok (if decide (d = database c)
           then match tables c !! n with
                | Some t => (fun p => [VStr p]) <$> elements (partitions t)
                | None => []
                end
           else []), c)
  | SelectNodeCount _ => (Ok [[VInt (nodes c)]], c)
  | AlterAttachPartition to_table p from_table =>
      match tables c !! to_table, tables c !! from_table with
      | Some target, Some source =>
          (Ok [],
           if decide (p ∈ partitions source)
           then with_tables c
                  (<[to_table := with_partitions target ({[p]} ∪ partitions target)]> (tables c))
           else c)
      | _, _ => (Raise UNKNOWN_TABLE, c)
      end
  | AlterDropPartition from_table p =>
      match tables c !! from_table with
      | Some source =>
          (Ok [],
           with_tables c
             (<[from_table := with_partitions source (partitions source ∖ {[p]})]> (tables c)))
      | None => (Raise UNKNOWN_TABLE, c)
      end
  | RenameTable a1 b1 a2 b2 =>
      match rename_one a1 b1 (tables c) with
      | Raise e => (Raise e, c)
      | Ok t1 =>
          match rename_one a2 b2 t1 with
          | Raise e => (Raise e, c)
          | Ok t2 => (Ok [], with_tables c t2)
          end
      end
  end.

#[global] Instance fake_backend : Backend catalog := fake_execute.

(** Modelled from the spec: the engine descriptor "includes a uniquifying
    identifier derived from current timestamp", which [get_new_engine] sets
    as the ZooKeeper path key.  The text is the engine's constructor over its
    ZooKeeper path, the key appended to the path once set. *)
Record engine : Type := Engine {
  constructor : string;
  zookeeper_path : string;
  zookeeper_path_key : option string }.

#[global] Instance fake_engine_class : EngineClass engine := {|
  set_zookeeper_path_key key e := Engine (constructor e) (zookeeper_path e) (Some key);
  engine_str e :=
    constructor e +:+ "('" +:+ zookeeper_path e
      +:+ match zookeeper_path_key e with Some key => "_" +:+ key | None => "" end
      +:+ "', '{replica}-{shard}')" |}.

Definition replicated (kind table : string) : engine :=
  Engine ("Replicated" +:+ kind) ("/clickhouse/tables/noshard/posthog." +:+ table) None.

(** Stand-ins for the imported statements: each is the name of its constant. *)
Definition sample_definitions : SqlDefinitions engine := {|
  EVENTS_DATA_TABLE_ENGINE := replicated "ReplacingMergeTree" "events";
  KAFKA_EVENTS_TABLE_SQL := "KAFKA_EVENTS_TABLE_SQL";
  EVENTS_TABLE_MV_SQL := "EVENTS_TABLE_MV_SQL";
  WRITABLE_EVENTS_TABLE_SQL := "WRITABLE_EVENTS_TABLE_SQL";
  DISTRIBUTED_EVENTS_TABLE_SQL := "DISTRIBUTED_EVENTS_TABLE_SQL";
  SESSION_RECORDING_EVENTS_DATA_TABLE_ENGINE :=
    replicated "ReplacingMergeTree" "session_recording_events";
  KAFKA_SESSION_RECORDING_EVENTS_TABLE_SQL := "KAFKA_SESSION_RECORDING_EVENTS_TABLE_SQL";
  SESSION_RECORDING_EVENTS_TABLE_MV_SQL := "SESSION_RECORDING_EVENTS_TABLE_MV_SQL";
  WRITABLE_SESSION_RECORDING_EVENTS_TABLE_SQL := "WRITABLE_SESSION_RECORDING_EVENTS_TABLE_SQL";
  DISTRIBUTED_SESSION_RECORDING_EVENTS_TABLE_SQL :=
    "DISTRIBUTED_SESSION_RECORDING_EVENTS_TABLE_SQL";
  DEAD_LETTER_QUEUE_TABLE_ENGINE := replicated "ReplacingMergeTree" "events_dead_letter_queue";
  KAFKA_DEAD_LETTER_QUEUE_TABLE_SQL := "KAFKA_DEAD_LETTER_QUEUE_TABLE_SQL";
  GROUPS_TABLE_ENGINE := replicated "ReplacingMergeTree" "groups";
  KAFKA_GROUPS_TABLE_SQL := "KAFKA_GROUPS_TABLE_SQL";
  PERSONS_TABLE_ENGINE := replicated "ReplacingMergeTree" "person";
  KAFKA_PERSONS_TABLE_SQL := "KAFKA_PERSONS_TABLE_SQL";
  PERSON_DISTINCT_ID2_TABLE_ENGINE := replicated "ReplacingMergeTree" "person_distinct_id2";
  KAFKA_PERSON_DISTINCT_ID2_TABLE_SQL := "KAFKA_PERSON_DISTINCT_ID2_TABLE_SQL";
  PLUGIN_LOG_ENTRIES_TABLE_ENGINE := replicated "ReplacingMergeTree" "plugin_log_entries";
  KAFKA_PLUGIN_LOG_ENTRIES_TABLE_SQL := "KAFKA_PLUGIN_LOG_ENTRIES_TABLE_SQL";
  COHORTPEOPLE_TABLE_ENGINE := replicated "CollapsingMergeTree" "cohortpeople";
  PERSON_STATIC_COHORT_TABLE_ENGINE := replicated "ReplacingMergeTree" "person_static_cohort" |}.

Definition sample_settings (replication : bool) : Settings := {|
  CLICKHOUSE_REPLICATION := replication;
  CLICKHOUSE_DATABASE := "default";
  CLICKHOUSE_CLUSTER := "posthog" |}.

Definition sample_migration (replication : bool) : Migration engine := {|
  settings := sample_settings replication;
  definitions := sample_definitions |}.

(** A single-node server before the migration: every table of the catalog
    on a plain engine, [events] holding two partitions. *)
Definition plain (engine_text : string) (parts : gset string) : table_state :=
  TableState engine_text parts 0.

Definition sample_tables : gmap string table_state :=
  list_to_map
    [ ("events",
       plain "ReplacingMergeTree(_timestamp) PARTITION BY toYYYYMM(timestamp) ORDER BY (team_id, toDate(timestamp), uuid) SAMPLE BY cityHash64(distinct_id) SETTINGS index_granularity = 8192"
             {[ "202201"; "202202" ]});
      ("session_recording_events",
       plain "ReplacingMergeTree(_timestamp) PARTITION BY toYYYYMMDD(timestamp) ORDER BY (team_id, toHour(timestamp), session_id, timestamp, uuid) SETTINGS index_granularity = 512" ∅);
      ("events_dead_letter_queue",
       plain "ReplacingMergeTree(_timestamp) ORDER BY (id, event_uuid, distinct_id, team_id) SETTINGS index_granularity = 512" ∅);
      ("groups",
       plain "ReplacingMergeTree(_timestamp) ORDER BY (team_id, group_type_index, group_key) SETTINGS index_granularity = 8192" ∅);
      ("person",
       plain "ReplacingMergeTree(_timestamp) ORDER BY (team_id, id) SETTINGS index_granularity = 8192" ∅);
      ("person_distinct_id2",
       plain "ReplacingMergeTree(version) ORDER BY (team_id, distinct_id) SETTINGS index_granularity = 512" ∅);
      ("plugin_log_entries",
       plain "ReplacingMergeTree(_timestamp) PARTITION BY plugin_id ORDER BY (team_id, id) SETTINGS index_granularity = 512" ∅);
      ("cohortpeople",
       plain "CollapsingMergeTree(sign) ORDER BY (team_id, cohort_id, person_id) SETTINGS index_granularity = 8192"
             {[ "all" ]});
      ("person_static_cohort",
       plain "ReplacingMergeTree(_timestamp) ORDER BY (team_id, cohort_id, person_id, id) SETTINGS index_granularity = 8192" ∅) ].

Definition sample_catalog (node_count : Z) : catalog :=
  Catalog "default" sample_tables node_count.

(** A clock that stands still at [d]. *)
Definition frozen_clock (d : datetime) : nat -> datetime := fun _ => d.

Definition first_attempt : datetime := Datetime 2022 1 3 4 5 6.
Definition second_attempt : datetime := Datetime 2022 1 3 4 5 7.

Definition start (c : catalog) (d : datetime) : world catalog :=
  World c (frozen_clock d) O ∅ [].

End Fake.

(** ** The schema lists: the name of the table a query creates *)

(** posthog/clickhouse/schema.py, [build_query] and [get_table_name]. *)

Module Schema.
Import PyStr Py.

(** An entry of the query lists: the text of a statement, or a function of
    no argument that builds it. *)
Inductive query : Type :=
  | Sql (text : string)
  | Builder (build : unit -> string).

(** [query if isinstance(query, str) else query()]. *)
Definition build_query (q : query) : string :=
  match q with
  | Sql text => text
  | Builder build => build tt
  end.

(** The class [[a-z0-9_]]. *)
Definition is_name_char (c : ascii) : bool :=
  let n := Ascii.nat_of_ascii c in
  ((97 <=? n)%nat && (n <=? 122)%nat) || ((48 <=? n)%nat && (n <=? 57)%nat) || (n =? 95)%nat.

Definition ON_CLUSTER : string := " ON CLUSTER".

(** [[a-z0-9_]+ ON CLUSTER] at the start of the text: the characters the
    greedy class took and the length of the match.  The class takes as many
    characters as it can and gives them back one at a time until the literal
    fits. *)
Fixpoint match_name (s : string) : option (string * nat) :=
  match s with
  | String c s' =>
      if is_name_char c then
        match match_name s' with
        | Some (group, n) => Some (String c group, S n)
        | None =>
            match strip_prefix ON_CLUSTER s' with
            | Some _ => Some (String c "", S (String.length ON_CLUSTER))
            | None => None
            end
        end
      else None
  | EmptyString => None
  end.

(** The pattern [r" ([a-z0-9_]+) ON CLUSTER"] at the start of the text: its
    group and the length of the match. *)
Definition match_here (s : string) : option (string * nat) :=
  match s with
  | String c s' =>
      if Ascii.eqb c " " then
        match match_name s' with
        | Some (group, n) => Some (group, S n)
        | None => None
        end
      else None
  | EmptyString => None
  end.

(** [re.findall] for this pattern: the group of every match, the matches
    found from left to right, none overlapping the one before; [skip]
    characters of the last match are still to be passed over. *)
Fixpoint findall (skip : nat) (s : string) : list string :=
  match s with
  | EmptyString => []
  | String _ s' =>
      match skip with
      | S k => findall k s'
      | O =>
          match match_here s with
          | Some (group, n) => group :: findall (Nat.pred n) s'
          | None => findall O s'
          end
      end
  end.

(** [re.findall(r" ([a-z0-9_]+) ON CLUSTER", build_query(query))[0]]. *)
Definition get_table_name (q : query) : outcome string :=
  match findall O (build_query q) with
  | group :: _ => Ok group
  | [] => Raise IndexError
  end.

End Schema.

(** ** The web experiments serializer: the variants of the feature flag *)

(** posthog/api/web_experiment.py,
    [WebExperimentsAPISerializer.get_variant_names]. *)

Module WebExperiment.

(** The values of the validated data: what a JSON body deserializes to.  A
    dict keeps its items in insertion order. *)
Inductive json : Type :=
  | JNull
  | JBool (b : bool)
  | JNumber (n : Z)
  | JString (s : string)
  | JArray (items : list json)
  | JObject (items : list (string * json)).

(** The one exception the method can raise: [.get] on a value that is no
    dict. *)
Inductive outcome (A : Type) : Type :=
  | Ok (a : A)
  | AttributeError.
Arguments Ok {A} a.
Arguments AttributeError {A}.

(** [d.get(key, default)]. *)
Fixpoint dict_get (d : list (string * json)) (key : string) (default : json) : json :=
  match d with
  | [] => default
  | (k, v) :: d' => if String.eqb k key then v else dict_get d' key default
  end.

(** [{"key": variant, "rollout_percentage": transforms.get("rollout_percentage", 0)}]. *)
Definition variant_name (variant : string) (transforms : json) : outcome json :=
  match transforms with
  | JObject t =>
      Ok (JObject [("key", JString variant);
                   ("rollout_percentage", dict_get t "rollout_percentage" (JNumber 0))])
  | _ => AttributeError
  end.

(** The loop over [variants.items()], appending to [variant_names]. *)
Fixpoint variant_names_of (items : list (string * json)) : outcome (list json) :=
  match items with
  | [] => Ok []
  | (variant, transforms) :: items' =>
      match variant_name variant transforms with
      | Ok entry =>
          match variant_names_of items' with
          | Ok entries => Ok (entry :: entries)
          | AttributeError => AttributeError
          end
      | AttributeError => AttributeError
      end
  end.

Definition get_variant_names (validated_data : list (string * json)) : outcome json :=
  match dict_get validated_data "variants" JNull with
  | JObject items =>
      match variant_names_of items with
      | Ok variant_names => Ok (JObject [("variants", JArray variant_names)])
      | AttributeError => AttributeError
      end
  | _ => Ok (JObject [("variants", JArray [])])
  end.

End WebExperiment.

(* ===================================================================== *)
(** * Part II.  Properties                                                *)
(* ===================================================================== *)

(** ** Text lemmas *)

Module PyStrFacts.
Import PyStr.

Lemma append_nil_l (s : string) : "" +:+ s = s.
Proof. reflexivity. Qed.

Lemma append_cons (c : ascii) (a b : string) : String c a +:+ b = String c (a +:+ b).
Proof. reflexivity. Qed.

Lemma append_nil_r (s : string) : s +:+ "" = s.
Proof.
  induction s as [|c s IH]; [reflexivity |].
  now rewrite append_cons, IH.
Qed.

Lemma append_assoc (a b c : string) : (a +:+ b) +:+ c = a +:+ (b +:+ c).
Proof.
  induction a as [|x a IH]; [reflexivity |].
  now rewrite !append_cons, IH.
Qed.

Lemma length_append (a b : string) :
  String.length (a +:+ b) = (String.length a + String.length b)%nat.
Proof.
  induction a as [|x a IH]; [reflexivity |].
  rewrite append_cons. simpl. now rewrite IH.
Qed.

Lemma list_of_append (a b : string) :
  String.list_ascii_of_string (a +:+ b)
  = String.list_ascii_of_string a ++ String.list_ascii_of_string b.
Proof.
  induction a as [|x a IH]; [reflexivity |].
  rewrite append_cons. simpl. now rewrite IH.
Qed.

Lemma list_of_string_inj (a b : string) :
  String.list_ascii_of_string a = String.list_ascii_of_string b -> a = b.
Proof.
  intros H.
  rewrite <- (String.string_of_list_ascii_of_string a),
          <- (String.string_of_list_ascii_of_string b).
  now rewrite H.
Qed.

(** A common suffix cancels. *)
Lemma append_inv_tail (a b suffix : string) : a +:+ suffix = b +:+ suffix -> a = b.
Proof.
  intros H. apply list_of_string_inj.
  apply (f_equal String.list_ascii_of_string) in H.
  rewrite !list_of_append in H.
  now apply app_inv_tail in H.
Qed.

Lemma truthy_append_r (a b : string) : Py.truthy b = true -> Py.truthy (a +:+ b) = true.
Proof. destruct a; [trivial | reflexivity]. Qed.

Lemma strip_prefix_append (p s : string) : strip_prefix p (p +:+ s) = Some s.
Proof.
  induction p as [|c p IH]; [reflexivity |].
  rewrite append_cons. simpl. now rewrite Ascii.eqb_refl.
Qed.

Lemma strip_prefix_Some (p s r : string) : strip_prefix p s = Some r -> s = p +:+ r.
Proof.
  revert s. induction p as [|c p IH]; intros s H; simpl in *.
  - now injection H as ->.
  - destruct s as [|x s]; [discriminate |].
    destruct (Ascii.eqb_spec c x) as [->|]; [| discriminate].
    now rewrite (IH _ H).
Qed.

Lemma has_char_append (c : ascii) (a b : string) :
  has_char c (a +:+ b) = has_char c a || has_char c b.
Proof.
  induction a as [|x a IH]; [reflexivity |].
  rewrite append_cons. simpl. now rewrite IH, orb_assoc.
Qed.

End PyStrFacts.

(** ** Running a method: unfolding steps *)

Module RunFacts.
Import Py Clickhouse.
Local Open Scope run_scope.

(** An equation, or an inequation, between values with decidable equality
    (plans, sets, catalogs), settled by computing the decision. *)
Ltac compute_decision :=
  first [ refine (proj1 (bool_decide_eq_true _) _)
        | refine (proj1 (bool_decide_eq_false _) _) ];
  vm_compute; reflexivity.

Section Steps.
Context {DB : Type} `{!Backend DB}.

Lemma bind_ok {A B} (m : Run DB A) (k : A -> Run DB B) w a w' :
  m w = (Ok a, w') -> bind m k w = k a w'.
Proof. unfold bind. now intros ->. Qed.

Lemma bind_raise {A B} (m : Run DB A) (k : A -> Run DB B) w e w' :
  m w = (Raise e, w') -> bind m k w = (Raise e, w').
Proof. unfold bind. now intros ->. Qed.

Lemma sync_execute_step (q : statement) (w : world DB) answer d :
  execute q (db w) = (answer, d) ->
  sync_execute q w
  = (answer, World d (clock w) (ticks w) (config w) (journal w ++ [(q, is_ok answer)])).
Proof. unfold sync_execute. now intros ->. Qed.

End Steps.

End RunFacts.

(** ** The checks before the run *)

Module CheckFacts.
Import PyStr Py Clickhouse Migration0004 RunFacts.
Local Open Scope run_scope.

Section Checks.
Context {DB : Type} `{!Backend DB} {E : Type} `{!EngineClass E}.
Variable self : Migration E.

Lemma get_number_of_nodes_in_cluster_step (w : world DB) v first rest d :
  execute (SelectNodeCount (CLICKHOUSE_CLUSTER (settings self))) (db w)
    = (Ok ((v :: first) :: rest), d) ->
  fst (get_number_of_nodes_in_cluster self w) = Ok v.
Proof.
  intros Hq. unfold get_number_of_nodes_in_cluster.
  rewrite (bind_ok _ _ _ _ _ (sync_execute_step _ _ _ _ Hq)).
  reflexivity.
Qed.

Lemma get_current_engine_absent (w : world DB) table_name d :
  execute (SelectEngineFull (CLICKHOUSE_DATABASE (settings self)) table_name) (db w)
    = (Ok [], d) ->
  get_current_engine self table_name w
  = (Ok VNone,
     World d (clock w) (ticks w) (config w)
       (journal w
          ++ [(SelectEngineFull (CLICKHOUSE_DATABASE (settings self)) table_name, true)])).
Proof.
  intros Hq. unfold get_current_engine.
  rewrite (bind_ok _ _ _ _ _ (sync_execute_step _ _ _ _ Hq)).
  reflexivity.
Qed.

Lemma get_current_engine_present (w : world DB) table_name v first rest d :
  execute (SelectEngineFull (CLICKHOUSE_DATABASE (settings self)) table_name) (db w)
    = (Ok ((v :: first) :: rest), d) ->
  get_current_engine self table_name w
  = (Ok v,
     World d (clock w) (ticks w) (config w)
       (journal w
          ++ [(SelectEngineFull (CLICKHOUSE_DATABASE (settings self)) table_name, true)])).
Proof.
  intros Hq. unfold get_current_engine.
  rewrite (bind_ok _ _ _ _ _ (sync_execute_step _ _ _ _ Hq)).
  reflexivity.
Qed.

(** C8: with the node count the server reports being [n], [precheck] returns
    a failing verdict exactly when CLICKHOUSE_REPLICATION is off or [n > 1];
    a failing verdict carries a message (for too many nodes, the one that
    ends in the count found) and a passing verdict carries none. *)
Theorem precheck_fails_iff (w : world DB) (n : Z) first rest d :
  execute (SelectNodeCount (CLICKHOUSE_CLUSTER (settings self))) (db w)
    = (Ok ((VInt n :: first) :: rest), d) ->
  exists passed message,
    fst (precheck self w) = Ok (passed, message)
    /\ (passed = false <-> CLICKHOUSE_REPLICATION (settings self) = false \/ (1 < n)%Z)
    /\ (passed = false -> exists text, message = Some text)
    /\ (passed = true -> message = None)
    /\ (CLICKHOUSE_REPLICATION (settings self) = true -> (1 < n)%Z ->
        message = Some ("ClickHouse cluster should only contain one node at the time of this migration, found "
                          +:+ pretty n)).
Proof.
  intros Hq. unfold precheck.
  destruct (CLICKHOUSE_REPLICATION (settings self)) eqn:Hrep; simpl.
  - pose proof (get_number_of_nodes_in_cluster_step w _ _ _ _ Hq) as Hn.
    unfold bind at 1.
    destruct (get_number_of_nodes_in_cluster self w) as [[v|e] w1]; simpl in Hn;
      [| discriminate].
    injection Hn as ->. unfold bind, greater_than_one, ret.
    destruct (Z.ltb_spec 1 n) as [Hlt|Hge]; simpl.
    + eexists _, _. split; [reflexivity |].
      repeat split; eauto; intros; try discriminate.
    + eexists _, _. split; [reflexivity |].
      repeat split; intros; try discriminate; try lia.
  - eexists _, _. split; [reflexivity |].
    repeat split; eauto; intros; discriminate.
Qed.

(** C10: when the server lists no [events] table, [is_required] returns no
    verdict: it raises TypeError. *)
Theorem is_required_raises_without_events (w : world DB) d :
  execute (SelectEngineFull (CLICKHOUSE_DATABASE (settings self)) "events") (db w)
    = (Ok [], d) ->
  fst (is_required self w) = Raise TypeError.
Proof.
  intros Hq. unfold is_required.
  rewrite (bind_ok _ _ _ _ _ (get_current_engine_absent w _ _ Hq)).
  reflexivity.
Qed.

(** With an [events] table on engine [text], [is_required] does return a
    verdict: whether [text] lacks the word Distributed. *)
Lemma is_required_verdict (w : world DB) text first rest d :
  execute (SelectEngineFull (CLICKHOUSE_DATABASE (settings self)) "events") (db w)
    = (Ok ((VStr text :: first) :: rest), d) ->
  fst (is_required self w) = Ok (negb (contains "Distributed" text)).
Proof.
  intros Hq. unfold is_required.
  rewrite (bind_ok _ _ _ _ _ (get_current_engine_present w _ _ _ _ _ Hq)).
  reflexivity.
Qed.

End Checks.

(** Two nodes: the run is refused, with the message that names the count. *)
Lemma precheck_fails_iff_witness :
  exists passed message,
    fst (precheck (Fake.sample_migration true)
           (Fake.start (Fake.sample_catalog 2) Fake.first_attempt))
      = Ok (passed, message)
    /\ (passed = false <-> true = false \/ (1 < 2)%Z)
    /\ (passed = false -> exists text, message = Some text)
    /\ (passed = true -> message = None)
    /\ (true = true -> (1 < 2)%Z ->
        message = Some ("ClickHouse cluster should only contain one node at the time of this migration, found "
                          +:+ pretty 2%Z)).
Proof.
  exact (precheck_fails_iff (Fake.sample_migration true)
           (Fake.start (Fake.sample_catalog 2) Fake.first_attempt)
           2 [] [] (Fake.sample_catalog 2) eq_refl).
Defined.

Example precheck_two_nodes :
  fst (precheck (Fake.sample_migration true)
         (Fake.start (Fake.sample_catalog 2) Fake.first_attempt))
  = Ok (false,
        Some "ClickHouse cluster should only contain one node at the time of this migration, found 2").
Proof. vm_compute. reflexivity. Qed.

Example precheck_one_node :
  fst (precheck (Fake.sample_migration true)
         (Fake.start (Fake.sample_catalog 1) Fake.first_attempt))
  = Ok (true, None).
Proof. vm_compute. reflexivity. Qed.

Example precheck_without_replication :
  fst (precheck (Fake.sample_migration false)
         (Fake.start (Fake.sample_catalog 1) Fake.first_attempt))
  = Ok (false, Some "CLICKHOUSE_REPLICATION env var needs to be set for this migration").
Proof. vm_compute. reflexivity. Qed.

(** A server without an [events] table. *)
Lemma is_required_raises_without_events_witness :
  fst (is_required (Fake.sample_migration true)
         (Fake.start (Fake.Catalog "default" ∅ 1) Fake.first_attempt))
  = Raise TypeError.
Proof.
  exact (is_required_raises_without_events (Fake.sample_migration true)
           (Fake.start (Fake.Catalog "default" ∅ 1) Fake.first_attempt)
           (Fake.Catalog "default" ∅ 1) eq_refl).
Defined.

Example is_required_before_migration :
  fst (is_required (Fake.sample_migration true)
         (Fake.start (Fake.sample_catalog 1) Fake.first_attempt))
  = Ok true.
Proof. vm_compute. reflexivity. Qed.

End CheckFacts.

(** ** The operation plan *)

Module PlanFacts.
Import PyStr Py Clickhouse Migration0004 RunFacts PyStrFacts.
Local Open Scope run_scope.

#[global] Instance action_eq_dec : EqDecision action.
Proof. solve_decision. Defined.

#[global] Instance operation_eq_dec : EqDecision operation.
Proof. solve_decision. Defined.

(** The plan a run returned, or the empty list. *)
Definition returned {A} (o : outcome (list A)) : list A :=
  match o with
  | Ok l => l
  | Raise _ => []
  end.

(** The plan an access of [operations] returned, or the empty list. *)
Definition plan_of {A B} (o : outcome (list A * B)) : list A :=
  match o with
  | Ok (l, _) => l
  | Raise _ => []
  end.

(** The table renames a plan's forward actions perform. *)
Definition forward_renames (plan : list operation) : list (list string * list string) :=
  omap (fun op =>
          match op with
          | AsyncMigrationOperation (RenameTables rename_1 rename_2 _) _ =>
              Some (rename_1, rename_2)
          | _ => None
          end) plan.

Section Plan.
Context {DB : Type} `{!Backend DB} {E : Type} `{!EngineClass E}.
Variable self : Migration E.

(** The phase-1 block of a table is its CREATE statement over the new
    engine text, then the ingestion stop if the table has one, then the move
    and the rename. *)
Lemma replicated_table_operations_inv (table : TableMigrationData E) (w : world DB) ops w' :
  replicated_table_operations self table w = (Ok ops, w') ->
  exists new_engine,
    get_new_engine self table w = (Ok new_engine, w')
    /\ ops =
       [ AsyncMigrationOperationSQL
           (Some (nl +:+ "            CREATE TABLE " +:+ tmp_table_name table
                    +:+ " AS " +:+ name table +:+ nl
                    +:+ "            ENGINE = " +:+ new_engine +:+ nl
                    +:+ "            "))
           (Some ("DROP TABLE IF EXISTS " +:+ tmp_table_name table)) ]
       ++ match kafka_table_name table with
          | Some kafka =>
              [ AsyncMigrationOperationSQL
                  (Some ("DROP TABLE IF EXISTS " +:+ kafka)) (create_kafka_table table) ]
          | None => []
          end
       ++ [ AsyncMigrationOperation
              (MovePartitions (name table) (tmp_table_name table))
              (MovePartitions (tmp_table_name table) (name table));
            AsyncMigrationOperation
              (RenameTables [name table; backup_table_name table]
                            [tmp_table_name table; renamed_table_name table] None)
              (RenameTables [renamed_table_name table; tmp_table_name table]
                            [backup_table_name table; name table]
                            (Some (backup_table_name table))) ].
Proof.
  unfold replicated_table_operations, bind, ret.
  destruct (get_new_engine self table w) as [[new_engine|e] w1]; intros H;
    [| discriminate].
  injection H as <- <-. now exists new_engine.
Qed.

(** A comprehension that returns has run its body on every element, in
    order. *)
Lemma comprehension_inv {A B} (f : A -> Run DB B) (l : list A) (w : world DB) ys w' :
  comprehension f l w = (Ok ys, w') ->
  Forall2 (fun x y => exists w1 w2, f x w1 = (Ok y, w2)) l ys.
Proof.
  revert w ys w'. induction l as [|x l IH]; intros w ys w'; simpl.
  - unfold ret. intros H. injection H as <- _. constructor.
  - unfold bind at 1. destruct (f x w) as [[y|e] w1] eqn:Hf; [| discriminate].
    unfold bind at 1.
    destruct (comprehension f l w1) as [[ys'|e] w2] eqn:Hl; [| discriminate].
    unfold ret. intros H. injection H as <- _.
    constructor; [now exists w, w1 | exact (IH _ _ _ Hl)].
Qed.

(** A plan that the function of [operations] returns: the two opening
    operations, the phase-1 blocks, the phase-2 blocks, the two closing
    operations. *)
Lemma operations_inv (w : world DB) plan w' :
  operations_func self w = (Ok plan, w') ->
  exists blocks,
    comprehension (replicated_table_operations self) (tables_to_migrate self) w
      = (Ok blocks, w')
    /\ plan =
       [ AsyncMigrationOperationSQL (Some "SYSTEM STOP MERGES") (Some "SYSTEM START MERGES");
         AsyncMigrationOperation
           (SetConfig COMPUTE_MATERIALIZED_COLUMNS_ENABLED false)
           (SetConfig COMPUTE_MATERIALIZED_COLUMNS_ENABLED true) ]
       ++ concat blocks
       ++ concat (map finalize_table_operations (tables_to_migrate self))
       ++ [ AsyncMigrationOperation
              (SetConfig COMPUTE_MATERIALIZED_COLUMNS_ENABLED false)
              (SetConfig COMPUTE_MATERIALIZED_COLUMNS_ENABLED true);
            AsyncMigrationOperationSQL (Some "SYSTEM START MERGES") (Some "SYSTEM STOP MERGES") ].
Proof.
  unfold operations_func. unfold bind at 1.
  destruct (comprehension _ _ w) as [[blocks|e] w1] eqn:Hblocks; [| discriminate].
  unfold ret. intros H. injection H as <- <-.
  now exists blocks.
Qed.

(** A plan that the function built in some world. *)
Definition built (plan : list operation) : Prop :=
  exists w0 w0' : world DB, operations_func self w0 = (Ok plan, w0').

(** What the slot of an instance holds: nothing, or the plan that an earlier
    access built and stored. *)
Definition stored (slot : option (list operation)) : Prop :=
  forall plan, slot = Some plan -> built plan.

Lemma stored_None : stored None.
Proof. intros plan H. discriminate H. Qed.

(** The first access: the function runs, and its plan is stored. *)
Lemma operations_first (w : world DB) :
  operations self None w
  = match operations_func self w with
    | (Ok plan, w') => (Ok (plan, Some plan), w')
    | (Raise e, w') => (Raise e, w')
    end.
Proof.
  unfold operations, bind, ret. now destruct (operations_func self w) as [[plan|e] w'].
Qed.

(** A later access: the stored plan, and the world as it was. *)
Lemma operations_again (plan : list operation) (w : world DB) :
  operations self (Some plan) w = (Ok (plan, Some plan), w).
Proof. reflexivity. Qed.

(** Every plan an access returns was built by the function, and is in the
    slot afterwards. *)
Lemma operations_access slot (w : world DB) plan slot' w' :
  stored slot ->
  operations self slot w = (Ok (plan, slot'), w') ->
  built plan /\ slot' = Some plan.
Proof.
  intros Hslot. destruct slot as [p|].
  - rewrite operations_again. intros [= <- <- <-]. split; [now apply Hslot | reflexivity].
  - rewrite operations_first.
    destruct (operations_func self w) as [[p|e] w1] eqn:Hrun; [| discriminate].
    intros [= <- <- <-]. split; [now exists w, w1 | reflexivity].
Qed.

(** C1, amended: a plan that an access of [operations] returns, built then
    or stored before, opens with the stop of the merges (rolled back by their
    start) and the toggle that disables COMPUTE_MATERIALIZED_COLUMNS_ENABLED,
    holds the phase-1 blocks of all tables in catalog order and then the
    phase-2 blocks of all tables in catalog order, and closes with a second
    toggle and the start of the merges (rolled back by their stop).  The
    second toggle is the first one again: its forward action forces the flag
    off, whatever the flag was, and only its rollback sets it to True. *)
Theorem operations_bracket slot (w : world DB) plan slot' w' :
  stored slot ->
  operations self slot w = (Ok (plan, slot'), w') ->
  exists blocks,
    Forall2 (fun table block =>
               exists w1 w2, replicated_table_operations self table w1 = (Ok block, w2))
            (tables_to_migrate self) blocks
    /\ plan =
       [ AsyncMigrationOperationSQL (Some "SYSTEM STOP MERGES") (Some "SYSTEM START MERGES");
         AsyncMigrationOperation
           (SetConfig COMPUTE_MATERIALIZED_COLUMNS_ENABLED false)
           (SetConfig COMPUTE_MATERIALIZED_COLUMNS_ENABLED true) ]
       ++ concat blocks
       ++ concat (map finalize_table_operations (tables_to_migrate self))
       ++ [ AsyncMigrationOperation
              (SetConfig COMPUTE_MATERIALIZED_COLUMNS_ENABLED false)
              (SetConfig COMPUTE_MATERIALIZED_COLUMNS_ENABLED true);
            AsyncMigrationOperationSQL (Some "SYSTEM START MERGES") (Some "SYSTEM STOP MERGES") ]
    /\ (forall before : world DB,
          config (snd (run_action self
                         (SetConfig COMPUTE_MATERIALIZED_COLUMNS_ENABLED false) before))
            !! COMPUTE_MATERIALIZED_COLUMNS_ENABLED = Some false).
Proof.
  intros Hslot Haccess.
  destruct (operations_access _ _ _ _ _ Hslot Haccess) as [(w0 & w0' & Hrun) _].
  destruct (operations_inv _ _ _ Hrun) as (blocks & Hblocks & ->).
  exists blocks. split; [| split].
  - exact (comprehension_inv _ _ _ _ _ Hblocks).
  - reflexivity.
  - intros before. simpl. apply lookup_insert_eq.
Qed.

(** C4, amended: for a table without ingestion table that is not sharded,
    phase 1 is three operations (create the tmp table, move the partitions,
    rename) and phase 2 is none: three operations in all. *)
Theorem plain_table_plan_is_three_operations
    (table : TableMigrationData E) (w : world DB) ops w' :
  kafka_table_name table = None ->
  sharded table = None ->
  replicated_table_operations self table w = (Ok ops, w') ->
  (exists create,
     ops = [ AsyncMigrationOperationSQL
               (Some create) (Some ("DROP TABLE IF EXISTS " +:+ tmp_table_name table));
             AsyncMigrationOperation
               (MovePartitions (name table) (tmp_table_name table))
               (MovePartitions (tmp_table_name table) (name table));
             AsyncMigrationOperation
               (RenameTables [name table; backup_table_name table]
                             [tmp_table_name table; name table] None)
               (RenameTables [name table; tmp_table_name table]
                             [backup_table_name table; name table]
                             (Some (backup_table_name table))) ])
  /\ length ops = 3%nat
  /\ finalize_table_operations table = []
  /\ length (ops ++ finalize_table_operations table) = 3%nat.
Proof.
  intros Hkafka Hsharded Hrun.
  destruct (replicated_table_operations_inv _ _ _ _ Hrun) as (new_engine & _ & ->).
  unfold finalize_table_operations, renamed_table_name.
  rewrite Hkafka, Hsharded. simpl.
  repeat split; eauto.
Qed.

End Plan.

(** The [cohortpeople] descriptor of the catalog. *)
Definition cohortpeople : TableMigrationData Fake.engine :=
  default {| name := ""; new_table_engine := Fake.replicated "" "";
             kafka_table_name := None; create_kafka_table := None; sharded := None |}
          (tables_to_migrate (Fake.sample_migration true) !! 7%nat).

Example cohortpeople_descriptor :
  name cohortpeople = "cohortpeople"
  /\ kafka_table_name cohortpeople = None
  /\ sharded cohortpeople = None.
Proof. repeat split. Qed.

(** C4 as stated fails: the plan of [cohortpeople], which has no ingestion
    table and is not sharded, counts three operations, not four. *)
Lemma cohortpeople_plan_is_not_four_operations :
  let run := replicated_table_operations (Fake.sample_migration true) cohortpeople
               (Fake.start (Fake.sample_catalog 1) Fake.first_attempt) in
  kafka_table_name cohortpeople = None
  /\ sharded cohortpeople = None
  /\ is_ok (fst run) = true
  /\ length (returned (fst run)) = 3%nat
  /\ length (returned (fst run)) <> 4%nat
  /\ length (returned (fst run) ++ finalize_table_operations cohortpeople) <> 4%nat.
Proof. vm_compute. repeat split; discriminate. Qed.

Lemma plain_table_plan_is_three_operations_witness :
  let w := Fake.start (Fake.sample_catalog 1) Fake.first_attempt in
  let run := replicated_table_operations (Fake.sample_migration true) cohortpeople w in
  (exists create,
     returned (fst run)
     = [ AsyncMigrationOperationSQL
           (Some create) (Some "DROP TABLE IF EXISTS cohortpeople_tmp_0004_replicated_schema");
         AsyncMigrationOperation
           (MovePartitions "cohortpeople" "cohortpeople_tmp_0004_replicated_schema")
           (MovePartitions "cohortpeople_tmp_0004_replicated_schema" "cohortpeople");
         AsyncMigrationOperation
           (RenameTables ["cohortpeople"; "cohortpeople_backup_0004_replicated_schema"]
                         ["cohortpeople_tmp_0004_replicated_schema"; "cohortpeople"] None)
           (RenameTables ["cohortpeople"; "cohortpeople_tmp_0004_replicated_schema"]
                         ["cohortpeople_backup_0004_replicated_schema"; "cohortpeople"]
                         (Some "cohortpeople_backup_0004_replicated_schema")) ])
  /\ length (returned (fst run)) = 3%nat
  /\ finalize_table_operations cohortpeople = []
  /\ length (returned (fst run) ++ finalize_table_operations cohortpeople) = 3%nat.
Proof.
  intros w run.
  apply (plain_table_plan_is_three_operations (Fake.sample_migration true)
           cohortpeople w (returned (fst run)) (snd run)).
  - reflexivity.
  - reflexivity.
  - vm_compute. reflexivity.
Defined.

(** On the sample server the plan is built: fifty-three operations. *)
Lemma operations_bracket_witness :
  let self := Fake.sample_migration true in
  let w := Fake.start (Fake.sample_catalog 1) Fake.first_attempt in
  let plan := plan_of (fst (operations self None w)) in
  length plan = 53%nat /\
  exists blocks,
    Forall2 (fun table block =>
               exists w1 w2, replicated_table_operations self table w1 = (Ok block, w2))
            (tables_to_migrate self) blocks
    /\ plan =
       [ AsyncMigrationOperationSQL (Some "SYSTEM STOP MERGES") (Some "SYSTEM START MERGES");
         AsyncMigrationOperation
           (SetConfig COMPUTE_MATERIALIZED_COLUMNS_ENABLED false)
           (SetConfig COMPUTE_MATERIALIZED_COLUMNS_ENABLED true) ]
       ++ concat blocks
       ++ concat (map finalize_table_operations (tables_to_migrate self))
       ++ [ AsyncMigrationOperation
              (SetConfig COMPUTE_MATERIALIZED_COLUMNS_ENABLED false)
              (SetConfig COMPUTE_MATERIALIZED_COLUMNS_ENABLED true);
            AsyncMigrationOperationSQL (Some "SYSTEM START MERGES") (Some "SYSTEM STOP MERGES") ]
    /\ (forall before : world Fake.catalog,
          config (snd (run_action self
                         (SetConfig COMPUTE_MATERIALIZED_COLUMNS_ENABLED false) before))
            !! COMPUTE_MATERIALIZED_COLUMNS_ENABLED = Some false).
Proof.
  intros self w plan. split; [vm_compute; reflexivity |].
  apply (operations_bracket self None w plan (Some plan) (snd (operations self None w))).
  - apply stored_None.
  - vm_compute. reflexivity.
Defined.

(** C1 as stated fails: the forward action of the second toggle, the
    operation just before the last of the fifty-three, does not re-enable the
    flag.  Run with the flag enabled, it leaves the flag disabled. *)
Lemma second_toggle_does_not_re_enable :
  let self := Fake.sample_migration true in
  let w := Fake.start (Fake.sample_catalog 1) Fake.first_attempt in
  let plan := plan_of (fst (operations self None w)) in
  let enabled :=
    World (db w) (clock w) (ticks w) {[ COMPUTE_MATERIALIZED_COLUMNS_ENABLED := true ]} [] in
  length plan = 53%nat
  /\ last plan
     = Some (AsyncMigrationOperationSQL (Some "SYSTEM START MERGES") (Some "SYSTEM STOP MERGES"))
  /\ exists fn rollback_fn,
       plan !! 51%nat = Some (AsyncMigrationOperation fn rollback_fn)
       /\ config enabled !! COMPUTE_MATERIALIZED_COLUMNS_ENABLED = Some true
       /\ fst (run_action self fn enabled) = Ok tt
       /\ config (snd (run_action self fn enabled)) !! COMPUTE_MATERIALIZED_COLUMNS_ENABLED
          = Some false
       /\ config (snd (run_action self fn enabled)) !! COMPUTE_MATERIALIZED_COLUMNS_ENABLED
          <> Some true.
Proof.
  intros self w plan enabled.
  split; [vm_compute; reflexivity |]. split; [vm_compute; reflexivity |].
  exists (SetConfig COMPUTE_MATERIALIZED_COLUMNS_ENABLED false),
         (SetConfig COMPUTE_MATERIALIZED_COLUMNS_ENABLED true).
  split; [vm_compute; reflexivity |].
  split; [apply lookup_singleton_eq |].
  split; [reflexivity |].
  assert (Hoff : config (snd (run_action self
                                (SetConfig COMPUTE_MATERIALIZED_COLUMNS_ENABLED false) enabled))
                   !! COMPUTE_MATERIALIZED_COLUMNS_ENABLED = Some false)
    by (simpl; apply lookup_insert_eq).
  split; [exact Hoff |]. rewrite Hoff. discriminate.
Qed.

End PlanFacts.

(** ** The names of the temporary and backup tables *)

Module NameFacts.
Import PyStr Py Clickhouse Migration0004 RunFacts PyStrFacts PlanFacts.
Local Open Scope run_scope.

Lemma tmp_suffix_is_not_backup_suffix (a b : string) :
  a +:+ "_tmp_0004_replicated_schema" <> b +:+ "_backup_0004_replicated_schema".
Proof.
  intros H. apply (f_equal String.list_ascii_of_string) in H.
  rewrite !list_of_append in H. apply (f_equal (@rev ascii)) in H.
  rewrite !rev_app_distr in H.
  cbv [String.list_ascii_of_string rev app] in H.
  discriminate H.
Qed.

Lemma forward_renames_app (a b : list operation) :
  forward_renames (a ++ b) = forward_renames a ++ forward_renames b.
Proof. unfold forward_renames. apply omap_app. Qed.

Section Names.
Context {DB : Type} `{!Backend DB} {E : Type} `{!EngineClass E}.
Variable self : Migration E.

(** The renames of a table, out of its name alone. *)
Definition renames_of (table : TableMigrationData E) : list string * list string :=
  ([name table; name table +:+ "_backup_0004_replicated_schema"],
   [name table +:+ "_tmp_0004_replicated_schema"; renamed_table_name table]).

Lemma forward_renames_finalize (table : TableMigrationData E) :
  forward_renames (finalize_table_operations table) = [].
Proof.
  unfold finalize_table_operations.
  rewrite !forward_renames_app.
  destruct (sharded table) as [[to extras [view|] create]|], (kafka_table_name table);
    simpl; try reflexivity;
    induction extras as [|[n q] extras IH]; simpl; auto.
Qed.

Lemma forward_renames_phase_2 (l : list (TableMigrationData E)) :
  forward_renames (concat (map finalize_table_operations l)) = [].
Proof.
  induction l as [|t l IH]; simpl; [reflexivity |].
  now rewrite forward_renames_app, forward_renames_finalize, IH.
Qed.

Lemma forward_renames_phase_1 (l : list (TableMigrationData E)) blocks :
  Forall2 (fun table block =>
             exists w1 w2 : world DB,
               replicated_table_operations self table w1 = (Ok block, w2)) l blocks ->
  forward_renames (concat blocks) = map renames_of l.
Proof.
  induction 1 as [|t block l blocks (w1 & w2 & Hrun) _ IH]; simpl; [reflexivity |].
  rewrite forward_renames_app, IH. f_equal.
  destruct (replicated_table_operations_inv _ _ _ _ _ Hrun) as (new_engine & _ & ->).
  destruct (kafka_table_name t); reflexivity.
Qed.

(** C5, amended: the tmp and backup names are unique per table, not per
    run.  Each is the table's name followed by a fixed suffix, so two tables
    share a tmp name (or a backup name) only if they share their name, no tmp
    name is a backup name, and every run that builds a plan renames through
    the same names. *)
Theorem table_names_are_per_table (t1 t2 : TableMigrationData E) :
  tmp_table_name t1 = name t1 +:+ "_tmp_0004_replicated_schema"
  /\ backup_table_name t1 = name t1 +:+ "_backup_0004_replicated_schema"
  /\ (tmp_table_name t1 = tmp_table_name t2 <-> name t1 = name t2)
  /\ (backup_table_name t1 = backup_table_name t2 <-> name t1 = name t2)
  /\ tmp_table_name t1 <> backup_table_name t2
  /\ (forall slot (w : world DB) plan slot' w',
        stored self slot ->
        operations self slot w = (Ok (plan, slot'), w') ->
        forward_renames plan = map renames_of (tables_to_migrate self)).
Proof.
  unfold tmp_table_name, backup_table_name.
  split; [reflexivity |]. split; [reflexivity |].
  split; [| split; [| split]].
  - split; [apply append_inv_tail | now intros ->].
  - split; [apply append_inv_tail | now intros ->].
  - apply tmp_suffix_is_not_backup_suffix.
  - intros slot w plan slot' w' Hslot Haccess.
    destruct (operations_access _ _ _ _ _ _ Hslot Haccess) as [(w0 & w0' & Hrun) _].
    destruct (operations_inv _ _ _ _ Hrun) as (blocks & Hblocks & ->).
    rewrite !forward_renames_app, forward_renames_phase_2.
    rewrite (forward_renames_phase_1 _ _ (comprehension_inv _ _ _ _ _ Hblocks)).
    change (forward_renames [_; _]) with (@nil (list string * list string)).
    now rewrite app_nil_l, !app_nil_r.
Qed.

End Names.

(** C5 as stated fails: a second attempt, one second later on the same
    server, builds another plan, and yet it creates and renames through the
    very names of the first attempt. *)
Lemma retry_reuses_table_names :
  let self := Fake.sample_migration true in
  let first :=
    fst (operations self None (Fake.start (Fake.sample_catalog 1) Fake.first_attempt)) in
  let second :=
    fst (operations self None (Fake.start (Fake.sample_catalog 1) Fake.second_attempt)) in
  Fake.first_attempt <> Fake.second_attempt
  /\ is_ok first = true /\ is_ok second = true
  /\ plan_of first <> plan_of second
  /\ forward_renames (plan_of first) = forward_renames (plan_of second)
  /\ forward_renames (plan_of first) !! 7%nat
     = Some (["cohortpeople"; "cohortpeople_backup_0004_replicated_schema"],
             ["cohortpeople_tmp_0004_replicated_schema"; "cohortpeople"]).
Proof.
  intros self first second.
  split; [discriminate |].
  split; [vm_compute; reflexivity |]. split; [vm_compute; reflexivity |].
  split; [| split].
  - compute_decision.
  - vm_compute. reflexivity.
  - vm_compute. reflexivity.
Qed.

End NameFacts.

(** ** What the plan depends on *)

Module DeterminismFacts.
Import PyStr Py Clickhouse Migration0004 RunFacts PlanFacts.
Local Open Scope run_scope.

Section Determinism.
Context {DB : Type} `{!Backend DB} {E : Type} `{!EngineClass E}.
Variable self : Migration E.

(** Two worlds with the same server state whose clocks read the same from
    now on; the journal, the config object and the number of readings taken
    before may differ. *)
Definition same_readings (w1 w2 : world DB) : Prop :=
  db w1 = db w2
  /\ forall n : nat, clock w1 (ticks w1 + n)%nat = clock w2 (ticks w2 + n)%nat.

(** A method that cannot tell such worlds apart, and leaves them such. *)
Definition agrees {A} (m : Run DB A) : Prop :=
  forall w1 w2 : world DB,
    same_readings w1 w2 ->
    fst (m w1) = fst (m w2) /\ same_readings (snd (m w1)) (snd (m w2)).

Lemma agrees_ret {A} (a : A) : agrees (ret a).
Proof. intros w1 w2 Hs. now split. Qed.

Lemma agrees_raise {A} (e : exn) : agrees (@raise DB A e).
Proof. intros w1 w2 Hs. now split. Qed.

Lemma agrees_bind {A B} (m : Run DB A) (k : A -> Run DB B) :
  agrees m -> (forall a, agrees (k a)) -> agrees (bind m k).
Proof.
  intros Hm Hk w1 w2 Hs. unfold bind.
  destruct (Hm w1 w2 Hs) as [Hfst Hsnd].
  destruct (m w1) as [[a1|e1] w1'], (m w2) as [[a2|e2] w2']; simpl in *;
    try discriminate.
  - injection Hfst as <-. now apply Hk.
  - injection Hfst as <-. now split.
Qed.

Lemma agrees_sync_execute (q : statement) : agrees (sync_execute q).
Proof.
  intros w1 w2 [Hdb Hclock]. unfold sync_execute. rewrite Hdb.
  destruct (execute q (db w2)) as [answer d]. simpl.
  split; [reflexivity |]. now split.
Qed.

Lemma agrees_now : agrees (@now DB).
Proof.
  intros w1 w2 [Hdb Hclock]. unfold now, same_readings. simpl.
  split; [| split; [assumption |]].
  - specialize (Hclock O). rewrite !Nat.add_0_r in Hclock. now rewrite Hclock.
  - intros n. specialize (Hclock (S n)).
    now rewrite <- !Nat.add_succ_comm in Hclock.
Qed.

Lemma agrees_item {A} (l : list A) (i : nat) : agrees (@item DB A l i).
Proof. unfold item. destruct (l !! i); [apply agrees_ret | apply agrees_raise]. Qed.

Lemma agrees_get_current_engine (table_name : string) :
  agrees (get_current_engine self table_name).
Proof.
  unfold get_current_engine.
  apply agrees_bind; [apply agrees_sync_execute |].
  intros [|first rest]; [apply agrees_ret |].
  apply agrees_bind; [apply agrees_item | intros; apply agrees_item].
Qed.

Lemma agrees_get_new_engine (table : TableMigrationData E) :
  agrees (get_new_engine self table).
Proof.
  unfold get_new_engine.
  apply agrees_bind; [apply agrees_get_current_engine |]. intros current_engine.
  apply agrees_bind; [apply agrees_now |]. intros t. cbv zeta.
  destruct (Re.sub_subject _ _ _); [apply agrees_ret | apply agrees_raise ..].
Qed.

Lemma agrees_replicated_table_operations (table : TableMigrationData E) :
  agrees (replicated_table_operations self table).
Proof.
  unfold replicated_table_operations.
  apply agrees_bind; [apply agrees_get_new_engine | intros; apply agrees_ret].
Qed.

Lemma agrees_comprehension {A B} (f : A -> Run DB B) (l : list A) :
  (forall x, agrees (f x)) -> agrees (comprehension f l).
Proof.
  intros Hf. induction l as [|x l IH]; simpl; [apply agrees_ret |].
  apply agrees_bind; [apply Hf |]. intros y.
  apply agrees_bind; [apply IH | intros; apply agrees_ret].
Qed.

Lemma agrees_operations_func : agrees (operations_func self).
Proof.
  unfold operations_func.
  apply agrees_bind; [| intros; apply agrees_ret].
  apply agrees_comprehension, agrees_replicated_table_operations.
Qed.

Lemma agrees_operations slot : agrees (operations self slot).
Proof.
  destruct slot as [plan|]; [apply agrees_ret |].
  unfold operations.
  apply agrees_bind; [apply agrees_operations_func | intros; apply agrees_ret].
Qed.

(** C6, amended: the plan is determined by the descriptor catalog, the
    server state, the readings of the clock and the slot of the instance, not
    by the server state alone.  An access on an instance whose slot holds a
    plan returns that plan and leaves the world as it was, whatever the
    server and the clock say; so the accesses that follow the one that built
    the plan all return the identical list.  Two first accesses, on the same
    server state with clocks that read alike, return the same plan (or raise
    the same exception), whatever else differs between them; and so do two
    calls of [get_new_engine]. *)
Theorem plan_is_determined_by_server_and_clock :
  (forall plan (w : world DB),
     operations self (Some plan) w = (Ok (plan, Some plan), w))
  /\ (forall (w : world DB) plan slot' w',
        operations self None w = (Ok (plan, slot'), w') ->
        forall later : world DB, operations self slot' later = (Ok (plan, slot'), later))
  /\ (forall w1 w2 : world DB,
        same_readings w1 w2 ->
        fst (operations self None w1) = fst (operations self None w2))
  /\ (forall (table : TableMigrationData E) (w1 w2 : world DB),
        same_readings w1 w2 ->
        fst (get_new_engine self table w1) = fst (get_new_engine self table w2)).
Proof.
  split; [| split; [| split]].
  - intros plan w. apply operations_again.
  - intros w plan slot' w' Haccess later.
    destruct (operations_access self None w plan slot' w' (stored_None self) Haccess)
      as [_ ->].
    apply operations_again.
  - intros w1 w2 Hs. exact (proj1 (agrees_operations None w1 w2 Hs)).
  - intros table w1 w2 Hs. exact (proj1 (agrees_get_new_engine table w1 w2 Hs)).
Qed.

End Determinism.

(** A later invocation at the same reading: statements journalled, the flag
    written, readings taken before. *)
Definition later_world : world Fake.catalog :=
  World (Fake.sample_catalog 1) (Fake.frozen_clock Fake.first_attempt) 3
        {[ COMPUTE_MATERIALIZED_COLUMNS_ENABLED := false ]}
        [(SelectNodeCount "posthog", true)].

Lemma plan_is_determined_by_server_and_clock_witness :
  plan_of (fst (operations (Fake.sample_migration true) None
                  (Fake.start (Fake.sample_catalog 1) Fake.first_attempt)))
  = plan_of (fst (operations (Fake.sample_migration true) None later_world)).
Proof.
  refine (f_equal plan_of
            (proj1 (proj2 (proj2 (plan_is_determined_by_server_and_clock
                                    (Fake.sample_migration true))))
               (Fake.start (Fake.sample_catalog 1) Fake.first_attempt) later_world _)).
  split; [reflexivity | intros n; reflexivity].
Defined.

(** C6 as stated fails: the same descriptors over the same server state,
    built by two fresh instances one second apart, give two different plans,
    and two calls of [get_new_engine] one second apart two different engine
    texts; the CREATE statement of every table of the sample server carries
    the reading of the clock. *)
Lemma plan_depends_on_the_clock :
  let self := Fake.sample_migration true in
  let w1 := Fake.start (Fake.sample_catalog 1) Fake.first_attempt in
  let w2 := Fake.start (Fake.sample_catalog 1) Fake.second_attempt in
  db w1 = db w2
  /\ is_ok (fst (operations self None w1)) = true
  /\ is_ok (fst (operations self None w2)) = true
  /\ plan_of (fst (operations self None w1)) <> plan_of (fst (operations self None w2))
  /\ fst (operations self None w1) <> fst (operations self None w2)
  /\ is_ok (fst (get_new_engine self cohortpeople w1)) = true
  /\ fst (get_new_engine self cohortpeople w1) <> fst (get_new_engine self cohortpeople w2).
Proof.
  intros self w1 w2.
  assert (Hdiff : plan_of (fst (operations self None w1))
                  <> plan_of (fst (operations self None w2))).
  { compute_decision. }
  split; [reflexivity |].
  split; [vm_compute; reflexivity |]. split; [vm_compute; reflexivity |].
  split; [exact Hdiff |].
  split; [intros Heq; apply Hdiff; now rewrite Heq |].
  split; [vm_compute; reflexivity |].
  intros Heq. vm_compute in Heq. discriminate Heq.
Qed.

Example create_statements_carry_the_clock :
  let self := Fake.sample_migration true in
  (plan_of (fst (operations self None (Fake.start (Fake.sample_catalog 1) Fake.first_attempt)))
     !! 33%nat,
   plan_of (fst (operations self None (Fake.start (Fake.sample_catalog 1) Fake.second_attempt)))
     !! 33%nat)
  = (Some (AsyncMigrationOperationSQL
             (Some (nl +:+ "            CREATE TABLE person_static_cohort_tmp_0004_replicated_schema AS person_static_cohort"
                      +:+ nl +:+ "            ENGINE = ReplicatedReplacingMergeTree('/clickhouse/tables/noshard/posthog.person_static_cohort_am0004_20220103040506', '{replica}-{shard}') ORDER BY (team_id, cohort_id, person_id, id) SETTINGS index_granularity = 8192"
                      +:+ nl +:+ "            "))
             (Some "DROP TABLE IF EXISTS person_static_cohort_tmp_0004_replicated_schema")),
     Some (AsyncMigrationOperationSQL
             (Some (nl +:+ "            CREATE TABLE person_static_cohort_tmp_0004_replicated_schema AS person_static_cohort"
                      +:+ nl +:+ "            ENGINE = ReplicatedReplacingMergeTree('/clickhouse/tables/noshard/posthog.person_static_cohort_am0004_20220103040507', '{replica}-{shard}') ORDER BY (team_id, cohort_id, person_id, id) SETTINGS index_granularity = 8192"
                      +:+ nl +:+ "            "))
             (Some "DROP TABLE IF EXISTS person_static_cohort_tmp_0004_replicated_schema"))).
Proof. vm_compute. reflexivity. Qed.

End DeterminismFacts.

(** ** The rename and its rollback *)

Module RenameFacts.
Import PyStr Py Clickhouse Migration0004 RunFacts PyStrFacts PlanFacts CheckFacts.
Local Open Scope run_scope.

(** What a closure returns to the executor: nothing, or the exception. *)
Definition discard {A} (o : outcome A) : outcome unit :=
  match o with
  | Ok _ => Ok tt
  | Raise e => Raise e
  end.

Section Rename.
Context {DB : Type} `{!Backend DB} {E : Type} `{!EngineClass E}.
Variable self : Migration E.

Definition forward_rename (table : TableMigrationData E) : action :=
  RenameTables [name table; backup_table_name table]
               [tmp_table_name table; renamed_table_name table] None.

Definition rollback_rename (table : TableMigrationData E) : action :=
  RenameTables [renamed_table_name table; tmp_table_name table]
               [backup_table_name table; name table]
               (Some (backup_table_name table)).

Lemma backup_table_name_truthy (table : TableMigrationData E) :
  truthy (backup_table_name table) = true.
Proof. unfold backup_table_name. now apply truthy_append_r. Qed.

(** The rename is the last operation of a table's phase-1 block. *)
Lemma rename_is_last_of_phase_1 (table : TableMigrationData E) (w : world DB) ops w' :
  replicated_table_operations self table w = (Ok ops, w') ->
  last ops = Some (AsyncMigrationOperation (forward_rename table) (rollback_rename table)).
Proof.
  intros Hrun.
  destruct (replicated_table_operations_inv _ _ _ _ _ Hrun) as (new_engine & _ & ->).
  destruct (kafka_table_name table); reflexivity.
Qed.

(** C3: the phase-1 block of a table ends with the rename, rolled back by
    [rollback_rename].  That rollback first asks the server for the
    backup table.  If the server lists none, the rollback returns without
    raising and has sent nothing but that question: no rename.  If the server
    lists it, the rollback sends one statement more, the double rename that
    undoes the forward one (renamed -> tmp, backup -> name), and returns what
    that statement does. *)
Theorem rename_rollback_checks_backup (table : TableMigrationData E) (w : world DB) answer d :
  let check :=
    SelectEngineFull (CLICKHOUSE_DATABASE (settings self)) (backup_table_name table) in
  let undo :=
    RenameTable (renamed_table_name table) (tmp_table_name table)
                (backup_table_name table) (name table) in
  execute check (db w) = (Ok answer, d) ->
  (forall (built : world DB) ops built',
     replicated_table_operations self table built = (Ok ops, built') ->
     last ops
     = Some (AsyncMigrationOperation (forward_rename table) (rollback_rename table)))
  /\ (answer = [] ->
      run_action self (rollback_rename table) w
      = (Ok tt, World d (clock w) (ticks w) (config w) (journal w ++ [(check, true)])))
  /\ (forall text first rest result d',
        answer = (VStr text :: first) :: rest ->
        execute undo d = (result, d') ->
        run_action self (rollback_rename table) w
        = (discard result,
           World d' (clock w) (ticks w) (config w)
             (journal w ++ [(check, true); (undo, is_ok result)])))
  /\ (forall (before : world DB) result d',
        execute (RenameTable (name table) (backup_table_name table)
                             (tmp_table_name table) (renamed_table_name table))
                (db before) = (result, d') ->
        journal (snd (run_action self (forward_rename table) before))
        = journal before
            ++ [(RenameTable (name table) (backup_table_name table)
                             (tmp_table_name table) (renamed_table_name table),
                 is_ok result)]).
Proof.
  intros check undo Hcheck. split; [| split; [| split]].
  - intros built ops built'. apply rename_is_last_of_phase_1.
  - intros ->. unfold run_action, rollback_rename, rename_tables.
    rewrite backup_table_name_truthy.
    unfold bind at 1. unfold bind at 1. unfold bind at 1.
    rewrite (get_current_engine_absent self w _ _ Hcheck). reflexivity.
  - intros text first rest result d' -> Hundo.
    unfold run_action, rollback_rename, rename_tables.
    rewrite backup_table_name_truthy.
    unfold bind at 1. unfold bind at 1. unfold bind at 1.
    rewrite (get_current_engine_present self w _ _ _ _ _ Hcheck).
    unfold ret, item, bind. simpl.
    unfold sync_execute. simpl. fold undo. rewrite Hundo.
    destruct result; simpl; now rewrite <- app_assoc.
  - intros before result d' Hrename.
    unfold run_action, forward_rename, rename_tables, ret, item, bind. simpl.
    unfold sync_execute. rewrite Hrename. now destruct result.
Qed.

End Rename.

(** On the sample server no backup table exists yet: the rollback of the
    [cohortpeople] rename asks, and renames nothing. *)
Lemma rename_rollback_checks_backup_witness :
  let self := Fake.sample_migration true in
  let w := Fake.start (Fake.sample_catalog 1) Fake.first_attempt in
  let check := SelectEngineFull "default" "cohortpeople_backup_0004_replicated_schema" in
  run_action self (rollback_rename cohortpeople) w
  = (Ok tt, World (Fake.sample_catalog 1) (clock w) (ticks w) (config w) [(check, true)]).
Proof.
  intros self w check.
  exact (proj1 (proj2 (rename_rollback_checks_backup self cohortpeople w []
                         (Fake.sample_catalog 1) eq_refl)) eq_refl).
Defined.

(** After the forward rename the rollback restores the table map. *)
Example rename_then_rollback :
  let self := Fake.sample_migration true in
  let c := <["cohortpeople_tmp_0004_replicated_schema" :=
               Fake.plain "ReplicatedCollapsingMergeTree('/zk', 'r') ORDER BY x" ∅]>
             Fake.sample_tables in
  let w := Fake.start (Fake.Catalog "default" c 1) Fake.first_attempt in
  let w1 := snd (run_action self (forward_rename cohortpeople) w) in
  let w2 := snd (run_action self (rollback_rename cohortpeople) w1) in
  dom (Fake.tables (db w1))
    = dom Fake.sample_tables ∪ {["cohortpeople_backup_0004_replicated_schema"]}
  /\ Fake.tables (db w2) = c
  /\ journal w2
     = [ (RenameTable "cohortpeople" "cohortpeople_backup_0004_replicated_schema"
                      "cohortpeople_tmp_0004_replicated_schema" "cohortpeople", true);
         (SelectEngineFull "default" "cohortpeople_backup_0004_replicated_schema", true);
         (RenameTable "cohortpeople" "cohortpeople_tmp_0004_replicated_schema"
                      "cohortpeople_backup_0004_replicated_schema" "cohortpeople", true) ].
Proof.
  intros self c w w1 w2. split; [| split].
  - compute_decision.
  - compute_decision.
  - vm_compute. reflexivity.
Qed.

End RenameFacts.

(** ** Moving the partitions *)

Module MoveFacts.
Import PyStr Py Clickhouse Migration0004 RunFacts.
Local Open Scope run_scope.

(** The statements of a loop that moved the partitions [ps], all accepted. *)
Definition moved (from_table to_table : string) (ps : list value)
    : list (statement * bool) :=
  flat_map (fun p => [(AlterAttachPartition to_table (format_value p) from_table, true);
                      (AlterDropPartition from_table (format_value p), true)]) ps.

Section Move.
Context {DB : Type} `{!Backend DB} {E : Type} `{!EngineClass E}.
Variable self : Migration E.

(** The body of the loop of [move_partitions]. *)
Definition move_one (from_table to_table : string) (r : row) : Run DB unit :=
  partition <- unpack_1 r ;;
  sync_execute (AlterAttachPartition to_table (format_value partition) from_table) ;;
  sync_execute (AlterDropPartition from_table (format_value partition)) ;;
  ret tt.

Lemma move_one_step (from_table to_table : string) (x : value) (w : world DB) :
  let attach := AlterAttachPartition to_table (format_value x) from_table in
  let drop := AlterDropPartition from_table (format_value x) in
  move_one from_table to_table [x] w
  = match execute attach (db w) with
    | (Ok _, d1) =>
        match execute drop d1 with
        | (Ok _, d2) =>
            (Ok tt, World d2 (clock w) (ticks w) (config w)
                      (journal w ++ [(attach, true); (drop, true)]))
        | (Raise e, d2) =>
            (Raise e, World d2 (clock w) (ticks w) (config w)
                        (journal w ++ [(attach, true); (drop, false)]))
        end
    | (Raise e, d1) =>
        (Raise e, World d1 (clock w) (ticks w) (config w) (journal w ++ [(attach, false)]))
    end.
Proof.
  intros attach drop. subst attach drop.
  unfold move_one, bind, ret, unpack_1, sync_execute. simpl.
  destruct (execute (AlterAttachPartition _ _ _) (db w)) as [[r1|e1] d1]; simpl;
    [| reflexivity].
  destruct (execute (AlterDropPartition _ _) d1) as [[r2|e2] d2]; simpl;
    now rewrite <- app_assoc.
Qed.

Lemma move_one_not_a_1_tuple (from_table to_table : string) (r : row) (w : world DB) :
  length r <> 1%nat ->
  move_one from_table to_table r w = (Raise ValueError, w).
Proof. destruct r as [|x [|y r]]; simpl; intros H; [reflexivity | lia | reflexivity]. Qed.

(** What the loop over the enumerated rows does, statement by statement.
    [loop d rows trace o d'] reads: started on the server state [d] over the
    rows [rows], the loop sends exactly the statements [trace] (each with
    whether the server accepted it), ends as [o] and leaves the server in
    [d'].  Row after row, in the order enumerated, the partition of the row
    is attached into [to_table]; only if the server accepted that attach is
    the same partition dropped from [from_table]; and only if the server
    accepted the drop does the loop go on to the next row.  A refusal is
    raised as the server raised it, and a row that is no 1-tuple raises
    ValueError before anything is sent for it. *)
Inductive loop (from_table to_table : string)
    : DB -> rows -> list (statement * bool) -> outcome unit -> DB -> Prop :=
  | loop_done d :
      loop from_table to_table d [] [] (Ok tt) d
  | loop_no_1_tuple d r rest :
      length r <> 1%nat ->
      loop from_table to_table d (r :: rest) [] (Raise ValueError) d
  | loop_attach_refused d p rest e d1 :
      execute (AlterAttachPartition to_table (format_value p) from_table) d = (Raise e, d1) ->
      loop from_table to_table d ([p] :: rest)
        [(AlterAttachPartition to_table (format_value p) from_table, false)]
        (Raise e) d1
  | loop_drop_refused d p rest r1 d1 e d2 :
      execute (AlterAttachPartition to_table (format_value p) from_table) d = (Ok r1, d1) ->
      execute (AlterDropPartition from_table (format_value p)) d1 = (Raise e, d2) ->
      loop from_table to_table d ([p] :: rest)
        [(AlterAttachPartition to_table (format_value p) from_table, true);
         (AlterDropPartition from_table (format_value p), false)]
        (Raise e) d2
  | loop_next d p rest r1 d1 r2 d2 trace o d' :
      execute (AlterAttachPartition to_table (format_value p) from_table) d = (Ok r1, d1) ->
      execute (AlterDropPartition from_table (format_value p)) d1 = (Ok r2, d2) ->
      loop from_table to_table d2 rest trace o d' ->
      loop from_table to_table d ([p] :: rest)
        ((AlterAttachPartition to_table (format_value p) from_table, true)
           :: (AlterDropPartition from_table (format_value p), true) :: trace)
        o d'.

(** In the statements of a loop a drop comes directly after the accepted
    attach of the same partition. *)
Lemma loop_drop_follows_attach (from_table to_table : string) d partitions trace o d' :
  loop from_table to_table d partitions trace o d' ->
  forall (i : nat) t p ok,
    trace !! i = Some (AlterDropPartition t p, ok) ->
    exists j, i = S j
              /\ trace !! j = Some (AlterAttachPartition to_table p from_table, true).
Proof.
  induction 1 as [d|d r rest Hr|d q rest e d1 Ha|d q rest r1 d1 e d2 Ha Hd
                  |d q rest r1 d1 r2 d2 trace o d' Ha Hd Hrest IH];
    intros i t p ok Hi.
  - discriminate.
  - discriminate.
  - destruct i as [|[|i]]; discriminate.
  - destruct i as [|[|[|i]]]; try discriminate.
    injection Hi as <- <- <-. now exists O.
  - destruct i as [|[|i]]; [discriminate | |].
    + injection Hi as <- <- <-. now exists O.
    + destruct (IH i t p ok Hi) as (j & -> & Hj). now exists (S (S j)).
Qed.

(** A loop that returns has moved every row, and every row was a 1-tuple. *)
Lemma loop_returns (from_table to_table : string) d partitions trace d' :
  loop from_table to_table d partitions trace (Ok tt) d' ->
  exists ps, partitions = map (fun p => [p]) ps
             /\ trace = moved from_table to_table ps.
Proof.
  remember (Ok tt) as o eqn:Ho.
  induction 1 as [d|d r rest Hr|d q rest e d1 Ha|d q rest r1 d1 e d2 Ha Hd
                  |d q rest r1 d1 r2 d2 trace o d' Ha Hd Hrest IH];
    try discriminate.
  - now exists [].
  - destruct (IH Ho) as (ps & -> & ->). now exists (q :: ps).
Qed.

(** The loop of [move_partitions] is such a loop. *)
Lemma for_each_move_one (from_table to_table : string) (partitions : rows) :
  forall w : world DB,
    let run := for_each partitions (move_one from_table to_table) w in
    exists trace,
      journal (snd run) = journal w ++ trace
      /\ loop from_table to_table (db w) partitions trace (fst run) (db (snd run)).
Proof.
  induction partitions as [|r partitions IH]; intros w; simpl.
  - exists []. rewrite app_nil_r. split; [reflexivity | constructor].
  - unfold bind.
    destruct (decide (length r = 1%nat)) as [Hr|Hr].
    + destruct r as [|x [|y r]]; [discriminate | | discriminate].
      rewrite move_one_step.
      destruct (execute (AlterAttachPartition to_table (format_value x) from_table) (db w))
        as [[r1|e1] d1] eqn:Ha.
      * destruct (execute (AlterDropPartition from_table (format_value x)) d1)
          as [[r2|e2] d2] eqn:Hd.
        -- match goal with |- context [for_each partitions _ ?w2] =>
             destruct (IH w2) as (trace & Hj & Hloop) end.
           simpl in Hj, Hloop.
           exists ((AlterAttachPartition to_table (format_value x) from_table, true)
                     :: (AlterDropPartition from_table (format_value x), true) :: trace).
           split.
           ++ rewrite Hj, <- !app_assoc. reflexivity.
           ++ exact (loop_next _ _ _ _ _ _ _ _ _ _ _ _ Ha Hd Hloop).
        -- eexists [_; _]. split; [reflexivity |].
           exact (loop_drop_refused _ _ _ _ _ _ _ _ _ Ha Hd).
      * eexists [_]. split; [reflexivity |].
        exact (loop_attach_refused _ _ _ _ _ _ _ Ha).
    + rewrite (move_one_not_a_1_tuple _ _ _ _ Hr).
      exists []. rewrite app_nil_r. split; [reflexivity |].
      now apply loop_no_1_tuple.
Qed.

(** [move_partitions], statement by statement. *)
Lemma move_partitions_unfold (from_table to_table : string) (w : world DB) :
  move_partitions self from_table to_table w
  = let database := CLICKHOUSE_DATABASE (settings self) in
    let count := SelectMergesCount database from_table in
    let enumerate := SelectActivePartitions database from_table in
    let (answer, d) := execute count (db w) in
    let asked :=
      World d (clock w) (ticks w) (config w) (journal w ++ [(count, is_ok answer)]) in
    match answer with
    | Ok ((v :: _) :: _) =>
        if eq_zero v then
          let (listed, d1) := execute enumerate d in
          let enumerated :=
            World d1 (clock w) (ticks w) (config w)
                  (journal w ++ [(count, true); (enumerate, is_ok listed)]) in
          match listed with
          | Ok partitions => for_each partitions (move_one from_table to_table) enumerated
          | Raise e => (Raise e, enumerated)
          end
        else
          (Raise (AssertionError
                    ("No merges should be running on tables while partitions are being moved. table="
                       +:+ from_table)), asked)
    | Ok _ => (Raise IndexError, asked)
    | Raise e => (Raise e, asked)
    end.
Proof.
  unfold move_partitions, bind, sync_execute. cbv zeta.
  destruct (execute (SelectMergesCount _ _) (db w)) as [[[|[|v first] rest]|e] d];
    cbn; try reflexivity.
  destruct (eq_zero v); [| reflexivity].
  cbn. destruct (execute (SelectActivePartitions _ _) d) as [[partitions|e] d1];
    cbn; rewrite <- app_assoc; reflexivity.
Qed.

(** C2: [move_partitions] first asks for the count of merges running on
    [from_table].  A count other than zero is fatal: AssertionError, and the
    count is the only statement sent.  On a count of zero the next statement
    enumerates the active partitions of [from_table]; if the server refuses,
    that refusal is raised and nothing else is sent.  Otherwise everything
    sent after the enumeration is the [loop] over the rows enumerated: for
    each row in order the attach of its partition into [to_table] and then,
    only if the server accepted the attach, the drop of the same partition
    from [from_table], the run ending at the first refusal with the server's
    error; so no drop goes out unless the attach just before it, of the same
    partition, was accepted.  A run that returns has attached and dropped
    every enumerated partition, in the order enumerated. *)
Theorem move_partitions_steps (from_table to_table : string) (w : world DB) :
  let database := CLICKHOUSE_DATABASE (settings self) in
  let count := SelectMergesCount database from_table in
  let enumerate := SelectActivePartitions database from_table in
  let answer := fst (execute count (db w)) in
  let asked :=
    World (snd (execute count (db w))) (clock w) (ticks w) (config w)
          (journal w ++ [(count, is_ok answer)]) in
  let listed := fst (execute enumerate (db asked)) in
  let enumerated :=
    World (snd (execute enumerate (db asked))) (clock w) (ticks w) (config w)
          (journal w ++ [(count, true); (enumerate, is_ok listed)]) in
  let run := move_partitions self from_table to_table w in
  (exists tail, journal (snd run) = journal w ++ (count, is_ok answer) :: tail)
  /\ (forall v first rest,
        answer = Ok ((v :: first) :: rest) -> eq_zero v = false ->
        run = (Raise (AssertionError
                        ("No merges should be running on tables while partitions are being moved. table="
                           +:+ from_table)),
               asked))
  /\ (forall v first rest e,
        answer = Ok ((v :: first) :: rest) -> eq_zero v = true ->
        listed = Raise e ->
        run = (Raise e, enumerated))
  /\ (forall v first rest partitions,
        answer = Ok ((v :: first) :: rest) -> eq_zero v = true ->
        listed = Ok partitions ->
        exists trace,
          journal (snd run)
            = journal w ++ (count, true) :: (enumerate, true) :: trace
          /\ loop from_table to_table (db enumerated) partitions trace
                  (fst run) (db (snd run))
          /\ (forall (i : nat) t p ok,
                trace !! i = Some (AlterDropPartition t p, ok) ->
                exists j,
                  i = S j
                  /\ trace !! j
                     = Some (AlterAttachPartition to_table p from_table, true)))
  /\ (fst run = Ok tt ->
      exists ps,
        listed = Ok (map (fun p => [p]) ps)
        /\ journal (snd run)
           = journal w ++ (count, true) :: (enumerate, true)
               :: moved from_table to_table ps).
Proof.
  cbv zeta. rewrite move_partitions_unfold. cbv zeta.
  destruct (execute (SelectMergesCount _ _) (db w)) as [answer d]. cbn [fst snd db].
  destruct answer as [[|[|v first] rest]|e];
    try (split; [exists []; reflexivity |];
         split; [intros ? ? ? [=] |]; split; [intros ? ? ? ? [=] |];
         split; [intros ? ? ? ? [=] | discriminate]).
  destruct (eq_zero v) eqn:Hv.
  - destruct (execute (SelectActivePartitions _ _) d) as [listed d1]. cbn [fst snd].
    destruct listed as [partitions|e].
    + match goal with |- context [for_each partitions _ ?w2] =>
        destruct (for_each_move_one from_table to_table partitions w2)
          as (trace & Hj & Hloop) end.
      cbn [journal db] in Hj, Hloop. rewrite Hj, <- !app_assoc. cbn [app is_ok].
      split; [eexists; reflexivity |].
      split; [intros ? ? ? [= <- _ _] Hz; congruence |].
      split; [intros ? ? ? ? _ _ [=] |].
      split.
      * intros ? ? ? ? _ _ [= <-]. exists trace.
        split; [reflexivity |].
        split; [exact Hloop | exact (loop_drop_follows_attach _ _ _ _ _ _ _ Hloop)].
      * intros Hfst.
        match type of Hloop with
        | loop _ _ _ _ _ ?o _ =>
            assert (Ho : o = Ok tt) by exact Hfst; rewrite Ho in Hloop
        end.
        destruct (loop_returns _ _ _ _ _ _ Hloop) as (ps & -> & ->). now exists ps.
    + cbn [snd fst journal is_ok].
      split; [eexists; reflexivity |].
      split; [intros ? ? ? [= <- _ _] Hz; congruence |].
      split; [intros ? ? ? ? _ _ [= <-]; reflexivity |].
      split; [intros ? ? ? ? _ _ [=] | discriminate].
  - cbn [snd fst journal is_ok].
    split; [exists []; reflexivity |].
    split; [intros ? ? ? _ _; reflexivity |].
    split; [intros ? ? ? ? [= <- _ _] Hz; congruence |].
    split; [intros ? ? ? ? [= <- _ _] Hz; congruence | discriminate].
Qed.

End Move.

End MoveFacts.

(** ** Moving partitions on the fake catalog *)

Module RoundTripFacts.
Import PyStr Py Clickhouse Migration0004 RunFacts MoveFacts Fake.
Local Open Scope run_scope.

Section RoundTrip.
Context {E : Type} `{!EngineClass E}.
Variable self : Migration E.

(** The loop of [move_partitions] over partitions that [A] holds: they end
    up in [B] and leave [A]. *)
Lemma for_each_move_one_fake (A B : string) (l : list string) :
  A <> B -> NoDup l ->
  forall (w : world catalog) ta tb,
    tables (db w) !! A = Some ta ->
    tables (db w) !! B = Some tb ->
    (forall p, p ∈ l -> p ∈ partitions ta) ->
    exists w',
      for_each ((fun p => [VStr p]) <$> l) (move_one A B) w = (Ok tt, w')
      /\ database (db w') = database (db w)
      /\ tables (db w') !! A
         = Some (with_partitions ta (partitions ta ∖ list_to_set l))
      /\ tables (db w') !! B
         = Some (with_partitions tb (partitions tb ∪ list_to_set l)).
Proof.
  intros Hne Hnodup. induction Hnodup as [|p l Hp Hnodup IH]; intros w ta tb HA HB Hin.
  - exists w. simpl. repeat split; [rewrite HA | rewrite HB]; f_equal;
      destruct ta, tb; unfold with_partitions; simpl; f_equal; set_solver.
  - simpl. unfold bind. rewrite move_one_step. simpl format_value.
    unfold execute, fake_backend, fake_execute at 1.
    rewrite HB, HA.
    destruct (decide (p ∈ partitions ta)) as [_|Hnot];
      [| exfalso; apply Hnot, Hin; left].
    unfold execute, fake_execute. cbn [tables with_tables].
    rewrite lookup_insert_ne by congruence. rewrite HA.
    match goal with |- context [for_each _ _ ?w1] =>
      destruct (IH w1 (with_partitions ta (partitions ta ∖ {[p]}))
                      (with_partitions tb ({[p]} ∪ partitions tb)))
        as (w' & Hrun & Hdb & HA' & HB') end.
    + cbn [db tables with_tables]. apply lookup_insert_eq.
    + cbn [db tables with_tables].
      rewrite lookup_insert_ne by congruence. apply lookup_insert_eq.
    + intros q Hq. cbn [partitions with_partitions].
      apply elem_of_difference. split; [apply Hin; now right |].
      intros ->%elem_of_singleton. contradiction.
    + exists w'. split; [exact Hrun |]. split; [exact Hdb |].
      rewrite HA', HB'. cbn [partitions with_partitions engine_full running_merges].
      unfold with_partitions. cbn [engine_full running_merges].
      split; f_equal; f_equal; set_solver.
Qed.

(** [move_partitions] between two tables of the catalog free of merges. *)
Lemma move_partitions_fake (A B : string) (w : world catalog) ta tb :
  CLICKHOUSE_DATABASE (settings self) = database (db w) ->
  A <> B ->
  tables (db w) !! A = Some ta ->
  tables (db w) !! B = Some tb ->
  running_merges ta = 0%Z ->
  exists w',
    move_partitions self A B w = (Ok tt, w')
    /\ database (db w') = database (db w)
    /\ tables (db w') !! A = Some (with_partitions ta ∅)
    /\ tables (db w') !! B
       = Some (with_partitions tb (partitions tb ∪ partitions ta)).
Proof.
  intros Hdb Hne HA HB Hmerges.
  rewrite move_partitions_unfold. cbv zeta.
  unfold execute, fake_backend, fake_execute.
  rewrite Hdb, !decide_True by reflexivity. rewrite HA, Hmerges. cbn [eq_zero Z.eqb].
  cbn iota.
  match goal with |- context [for_each _ _ ?w1] =>
    destruct (for_each_move_one_fake A B (elements (partitions ta)) Hne
                (NoDup_elements _) w1 ta tb) as (w' & Hrun & Hdb' & HA' & HB') end;
    [exact HA | exact HB | intros p; apply elem_of_elements |].
  exists w'. split; [exact Hrun |]. split; [exact Hdb' |].
  rewrite HA', HB', list_to_set_elements_L.
  split; f_equal; f_equal; set_solver.
Qed.

(** There and back: [A] ends with its partitions and those [B] held. *)
Lemma move_there_and_back_union (A B : string) (w : world catalog) ta tb :
  CLICKHOUSE_DATABASE (settings self) = database (db w) ->
  A <> B ->
  tables (db w) !! A = Some ta ->
  tables (db w) !! B = Some tb ->
  running_merges ta = 0%Z ->
  running_merges tb = 0%Z ->
  let there := move_partitions self A B w in
  let back := move_partitions self B A (snd there) in
  fst there = Ok tt
  /\ fst back = Ok tt
  /\ tables (db (snd back)) !! A
     = Some (with_partitions ta (partitions ta ∪ partitions tb))
  /\ tables (db (snd back)) !! B = Some (with_partitions tb ∅).
Proof.
  intros Hdb Hne HA HB HmA HmB there back.
  destruct (move_partitions_fake A B w ta tb Hdb Hne HA HB HmA)
    as (w1 & Hthere & Hdb1 & HA1 & HB1).
  subst back there. rewrite Hthere. cbn [fst snd].
  destruct (move_partitions_fake B A w1 _ _ (eq_trans Hdb (eq_sym Hdb1))
              (not_eq_sym Hne) HB1 HA1 HmB)
    as (w2 & Hback & Hdb2 & HB2 & HA2).
  rewrite Hback. cbn [fst snd].
  split; [reflexivity |]. split; [reflexivity |].
  rewrite HA2, HB2. cbn [partitions with_partitions].
  unfold with_partitions. cbn [engine_full running_merges].
  split; f_equal; f_equal; set_solver.
Qed.

(** C7, amended: on a catalog where the distinct tables [A] and [B] exist
    with no running merges and [B] holds no partition that [A] lacks (the
    freshly created tmp table holds none), moving [A] to [B] and then [B] to
    [A] succeeds both times and leaves [A] with exactly the active partitions
    it had. *)
Theorem move_there_and_back (A B : string) (w : world catalog) ta tb :
  CLICKHOUSE_DATABASE (settings self) = database (db w) ->
  A <> B ->
  tables (db w) !! A = Some ta ->
  tables (db w) !! B = Some tb ->
  running_merges ta = 0%Z ->
  running_merges tb = 0%Z ->
  partitions tb ⊆ partitions ta ->
  let there := move_partitions self A B w in
  let back := move_partitions self B A (snd there) in
  fst there = Ok tt
  /\ fst back = Ok tt
  /\ partitions <$> tables (db (snd back)) !! A = Some (partitions ta).
Proof.
  intros Hdb Hne HA HB HmA HmB Hsub there back. subst back there.
  destruct (move_there_and_back_union A B w ta tb Hdb Hne HA HB HmA HmB)
    as (Hthere & Hback & HA' & _).
  cbv zeta in Hthere, Hback, HA'.
  split; [exact Hthere |]. split; [exact Hback |].
  rewrite HA'. cbn [fmap option_fmap option_map partitions with_partitions].
  f_equal. set_solver.
Qed.

End RoundTrip.

(** Two tables with a partition each. *)
Definition two_tables : catalog :=
  Catalog "default"
    (list_to_map [ ("A", plain "MergeTree(x) ORDER BY y" {[ "p1" ]});
                   ("B", plain "MergeTree(x) ORDER BY y" {[ "p2" ]}) ]) 1.

(** C7 as stated fails: both tables exist, no merge runs, and after moving
    [A] to [B] and [B] back to [A] the partition [p2] that [B] held at the
    start is in [A] as well. *)
Lemma move_there_and_back_gathers :
  let self := sample_migration true in
  let w := start two_tables first_attempt in
  let there := move_partitions self "A" "B" w in
  let back := move_partitions self "B" "A" (snd there) in
  partitions <$> tables (db w) !! "A" = Some ({[ "p1" ]} : gset string)
  /\ partitions <$> tables (db w) !! "B" = Some ({[ "p2" ]} : gset string)
  /\ running_merges <$> tables (db w) !! "A" = Some 0%Z
  /\ running_merges <$> tables (db w) !! "B" = Some 0%Z
  /\ fst there = Ok tt
  /\ fst back = Ok tt
  /\ partitions <$> tables (db (snd back)) !! "A" = Some ({[ "p1"; "p2" ]} : gset string)
  /\ partitions <$> tables (db (snd back)) !! "A"
     <> partitions <$> tables (db w) !! "A".
Proof.
  intros self w there back.
  split; [compute_decision |].
  split; [compute_decision |].
  split; [vm_compute; reflexivity |]. split; [vm_compute; reflexivity |].
  split; [vm_compute; reflexivity |]. split; [vm_compute; reflexivity |].
  split; [compute_decision |].
  compute_decision.
Qed.

(** The move of [events] into an empty table and back, on the sample
    server. *)
Definition with_empty_tmp : catalog :=
  Catalog "default"
    (<["events_tmp_0004_replicated_schema" := plain "ReplicatedReplacingMergeTree('/zk', 'r')" ∅]>
       sample_tables) 1.

Lemma move_there_and_back_witness :
  let self := sample_migration true in
  let w := start with_empty_tmp first_attempt in
  let there := move_partitions self "events" "events_tmp_0004_replicated_schema" w in
  let back := move_partitions self "events_tmp_0004_replicated_schema" "events" (snd there) in
  fst there = Ok tt
  /\ fst back = Ok tt
  /\ partitions <$> tables (db (snd back)) !! "events"
     = Some ({[ "202201"; "202202" ]} : gset string).
Proof.
  intros self w.
  refine (move_there_and_back self "events" "events_tmp_0004_replicated_schema" w
            (plain "ReplacingMergeTree(_timestamp) PARTITION BY toYYYYMM(timestamp) ORDER BY (team_id, toDate(timestamp), uuid) SAMPLE BY cityHash64(distinct_id) SETTINGS index_granularity = 8192"
                   {[ "202201"; "202202" ]})
            (plain "ReplicatedReplacingMergeTree('/zk', 'r')" ∅)
            eq_refl _ _ _ eq_refl eq_refl _).
  - discriminate.
  - vm_compute. reflexivity.
  - vm_compute. reflexivity.
  - cbn [partitions plain]. set_solver.
Defined.

(** The statements of that move, and a move refused because a merge runs. *)
Example move_events_journal :
  journal (snd (move_partitions (sample_migration true)
                  "events" "events_tmp_0004_replicated_schema"
                  (start with_empty_tmp first_attempt)))
  = [ (SelectMergesCount "default" "events", true);
      (SelectActivePartitions "default" "events", true);
      (AlterAttachPartition "events_tmp_0004_replicated_schema" "202201" "events", true);
      (AlterDropPartition "events" "202201", true);
      (AlterAttachPartition "events_tmp_0004_replicated_schema" "202202" "events", true);
      (AlterDropPartition "events" "202202", true) ].
Proof. vm_compute. reflexivity. Qed.

Definition merging : catalog :=
  Catalog "default"
    (list_to_map [ ("A", TableState "MergeTree(x) ORDER BY y" {[ "p1" ]} 2);
                   ("B", plain "MergeTree(x) ORDER BY y" ∅) ]) 1.

Example move_refused_while_merging :
  let run := move_partitions (sample_migration true) "A" "B" (start merging first_attempt) in
  fst run
  = Raise (AssertionError
             "No merges should be running on tables while partitions are being moved. table=A")
  /\ journal (snd run) = [(SelectMergesCount "default" "A", true)]
  /\ bool_decide (db (snd run) = merging) = true.
Proof. vm_compute. repeat split. Qed.

End RoundTripFacts.

(** ** The substitution of the engine *)

Module EngineFacts.
Import PyStr Py Clickhouse Migration0004 RunFacts PyStrFacts CheckFacts.
Local Open Scope run_scope.

(** A MergeTree(...) constructor starts the text: [MergeTree(], then
    anything, possibly nothing, up to a closing parenthesis. *)
Definition starts_constructor (s : string) : bool :=
  match strip_prefix "MergeTree(" s with
  | Some after => has_char RPAREN after
  | None => false
  end.

(** The positions of the text, counted from [i], where a constructor starts. *)
Fixpoint constructor_positions_from (i : nat) (s : string) : list nat :=
  (if starts_constructor s then [i] else [])
  ++ match s with
     | String _ s' => constructor_positions_from (S i) s'
     | EmptyString => []
     end.

Definition constructor_positions (s : string) : list nat :=
  constructor_positions_from O s.

(** No constructor starts anywhere in the text. *)
Fixpoint constructor_free (s : string) : bool :=
  negb (starts_constructor s)
  && match s with
     | String _ s' => constructor_free s'
     | EmptyString => true
     end.

(** The pattern after its [.*]. *)
Definition CONSTRUCTOR : Re.pattern :=
  [Re.Literal "MergeTree("; Re.NotCharPlus RPAREN; Re.Literal ")"].

(** *** The matcher, one step at a time *)

Lemma match_star_cons (p : Re.pattern) (c : ascii) (s : string) :
  Re.match_here (Re.AnyStar :: p) (String c s)
  = if Ascii.eqb c LF then Re.match_here p (String c s)
    else match Re.match_here (Re.AnyStar :: p) s with
         | Some n => Some (S n)
         | None => Re.match_here p (String c s)
         end.
Proof. reflexivity. Qed.

Lemma match_star_nil (p : Re.pattern) :
  Re.match_here (Re.AnyStar :: p) "" = Re.match_here p "".
Proof. reflexivity. Qed.

Lemma match_plus_cons (p : Re.pattern) (c x : ascii) (s : string) :
  Re.match_here (Re.NotCharPlus c :: p) (String x s)
  = if Ascii.eqb x c then None
    else match Re.match_here (Re.NotCharPlus c :: p) s with
         | Some n => Some (S n)
         | None => S <$> Re.match_here p s
         end.
Proof. reflexivity. Qed.

Lemma match_plus_nil (p : Re.pattern) (c : ascii) :
  Re.match_here (Re.NotCharPlus c :: p) "" = None.
Proof. reflexivity. Qed.

Lemma match_literal (p : Re.pattern) (l s : string) :
  Re.match_here (Re.Literal l :: p) s
  = match strip_prefix l s with
    | Some s' => Nat.add (String.length l) <$> Re.match_here p s'
    | None => None
    end.
Proof. reflexivity. Qed.

(** [[^c]+c] over arguments free of [c] takes them all, up to the [c]. *)
Lemma match_arguments (c : ascii) (args rest : string) :
  args <> "" -> has_char c args = false ->
  Re.match_here [Re.NotCharPlus c; Re.Literal (String c "")] (args +:+ String c rest)
  = Some (S (String.length args)).
Proof.
  induction args as [|x args IH]; intros Hne Hfree; [congruence |].
  rewrite append_cons, match_plus_cons. simpl in Hfree.
  apply orb_false_elim in Hfree as [Hx Hfree]. rewrite Hx.
  destruct args as [|y args].
  - rewrite append_nil_l, match_plus_cons, Ascii.eqb_refl.
    rewrite match_literal. simpl. now rewrite Ascii.eqb_refl.
  - rewrite IH by (congruence || assumption). reflexivity.
Qed.

(** [[^c]+c] matches only a text that holds a [c]. *)
Lemma match_arguments_has_char (c : ascii) (s : string) n :
  Re.match_here [Re.NotCharPlus c; Re.Literal (String c "")] s = Some n ->
  has_char c s = true.
Proof.
  revert n. induction s as [|x s IH]; intros n; [discriminate |].
  rewrite match_plus_cons. cbn [has_char].
  destruct (Ascii.eqb x c); [discriminate |]. cbn [orb].
  destruct (Re.match_here [Re.NotCharPlus c; Re.Literal (String c "")] s)
    as [m|] eqn:Hs; [intros _; now apply (IH m) |].
  rewrite match_literal. cbn [strip_prefix].
  destruct s as [|y s]; [discriminate |].
  destruct (Ascii.eqb_spec c y) as [->|]; [| discriminate].
  intros _. cbn [has_char]. now rewrite Ascii.eqb_refl.
Qed.

Lemma match_constructor (args rest : string) :
  args <> "" -> has_char RPAREN args = false ->
  Re.match_here CONSTRUCTOR ("MergeTree(" +:+ args +:+ ")" +:+ rest)
  = Some (String.length ("MergeTree(" +:+ args +:+ ")")).
Proof.
  intros Hne Hfree. unfold CONSTRUCTOR.
  rewrite match_literal, strip_prefix_append.
  change (")" +:+ rest) with (String RPAREN rest).
  change ")" with (String RPAREN "") at 1.
  rewrite (match_arguments RPAREN args rest Hne Hfree).
  rewrite !length_append. simpl. f_equal. lia.
Qed.

(** Where the pattern's constructor matches, a constructor starts. *)
Lemma match_constructor_starts (s : string) n :
  Re.match_here CONSTRUCTOR s = Some n -> starts_constructor s = true.
Proof.
  unfold CONSTRUCTOR, starts_constructor. rewrite match_literal.
  destruct (strip_prefix "MergeTree(" s) as [after|]; [| discriminate].
  destruct (Re.match_here _ after) as [m|] eqn:Hafter; [| discriminate].
  intros _. exact (match_arguments_has_char RPAREN after m Hafter).
Qed.

Lemma constructor_free_cons (c : ascii) (s : string) :
  constructor_free (String c s) = true ->
  starts_constructor (String c s) = false /\ constructor_free s = true.
Proof.
  simpl. intros [H1 H2]%andb_true_iff. split; [| exact H2].
  now apply negb_true_iff.
Qed.

(** In a text free of constructors the whole pattern matches nowhere. *)
Lemma match_pattern_constructor_free (s : string) :
  constructor_free s = true -> Re.match_here ENGINE_PATTERN s = None.
Proof.
  unfold ENGINE_PATTERN. fold CONSTRUCTOR.
  assert (Hhere : forall t, starts_constructor t = false ->
                            Re.match_here CONSTRUCTOR t = None).
  { intros t Ht. destruct (Re.match_here CONSTRUCTOR t) as [n|] eqn:Hm; [| reflexivity].
    apply match_constructor_starts in Hm. congruence. }
  induction s as [|c s IH]; intros Hfree.
  - rewrite match_star_nil. apply Hhere. reflexivity.
  - apply constructor_free_cons in Hfree as [Hc Hs].
    rewrite match_star_cons, (IH Hs), (Hhere _ Hc). now destruct (Ascii.eqb c LF).
Qed.

(** On one line, before a constructor that no other follows, [.*] gives
    back all it took beyond the text in front of the constructor. *)
Lemma match_pattern_last_constructor (pre args rest : string) :
  has_char LF pre = false ->
  args <> "" -> has_char RPAREN args = false ->
  constructor_free ("ergeTree(" +:+ args +:+ ")" +:+ rest) = true ->
  Re.match_here ENGINE_PATTERN (pre +:+ "MergeTree(" +:+ args +:+ ")" +:+ rest)
  = Some (String.length (pre +:+ "MergeTree(" +:+ args +:+ ")")).
Proof.
  intros Hline Hne Hfree Hlast. induction pre as [|c pre IH].
  - rewrite !append_nil_l.
    change ("MergeTree(" +:+ args +:+ ")" +:+ rest)
      with (String "M" ("ergeTree(" +:+ args +:+ ")" +:+ rest)).
    unfold ENGINE_PATTERN. fold CONSTRUCTOR. rewrite match_star_cons.
    change (Re.AnyStar :: CONSTRUCTOR) with ENGINE_PATTERN.
    rewrite (match_pattern_constructor_free _ Hlast).
    change (Ascii.eqb "M" LF) with false. cbv iota.
    change (String "M" ("ergeTree(" +:+ args +:+ ")" +:+ rest))
      with ("MergeTree(" +:+ args +:+ ")" +:+ rest).
    apply match_constructor; assumption.
  - simpl in Hline. apply orb_false_elim in Hline as [Hc Hline].
    rewrite !(append_cons c pre). unfold ENGINE_PATTERN. fold CONSTRUCTOR.
    rewrite match_star_cons, Hc.
    change (Re.AnyStar :: CONSTRUCTOR) with ENGINE_PATTERN.
    now rewrite (IH Hline).
Qed.

(** *** The scan *)

Lemma sub_scan_skip (p : Re.pattern) (repl a b : string) :
  Re.sub_scan p repl (String.length a) (a +:+ b) = Re.sub_scan p repl O b.
Proof.
  induction a as [|c a IH]; [reflexivity |].
  rewrite append_cons. simpl. destruct b; exact IH.
Qed.

Lemma constructor_free_suffix (a b : string) :
  constructor_free (a +:+ b) = true -> constructor_free b = true.
Proof.
  induction a as [|c a IH]; [trivial |].
  rewrite append_cons. intros H. apply constructor_free_cons in H as [_ H]. auto.
Qed.

Lemma sub_scan_cons (p : Re.pattern) (repl : string) (c : ascii) (s : string) :
  Re.sub_scan p repl O (String c s)
  = match Re.match_here p (String c s) with
    | Some (S n) => repl +:+ Re.sub_scan p repl n s
    | Some O => repl +:+ String c (Re.sub_scan p repl O s)
    | None => String c (Re.sub_scan p repl O s)
    end.
Proof. reflexivity. Qed.

Lemma sub_scan_constructor_free (repl s : string) :
  constructor_free s = true -> Re.sub_scan ENGINE_PATTERN repl O s = s.
Proof.
  induction s as [|c s IH]; intros Hfree; [reflexivity |].
  rewrite sub_scan_cons, (match_pattern_constructor_free _ Hfree).
  apply constructor_free_cons in Hfree as [_ Hs]. now rewrite (IH Hs).
Qed.

Lemma parse_template_literal (repl : string) :
  has_char BACKSLASH repl = false -> Re.parse_template repl = Re.Text repl.
Proof.
  induction repl as [|c repl IH]; [reflexivity |].
  simpl. intros [Hc Hrepl]%orb_false_elim. now rewrite Hc, (IH Hrepl).
Qed.

(** [re.sub] over a text with one constructor, the last on the first line. *)
Lemma sub_last_constructor (repl pre args rest : string) :
  has_char BACKSLASH repl = false ->
  has_char LF pre = false ->
  args <> "" -> has_char RPAREN args = false ->
  constructor_free ("ergeTree(" +:+ args +:+ ")" +:+ rest) = true ->
  Re.sub ENGINE_PATTERN repl (pre +:+ "MergeTree(" +:+ args +:+ ")" +:+ rest)
  = Re.Text (repl +:+ rest).
Proof.
  intros Hrepl Hline Hne Hfree Hlast. unfold Re.sub.
  rewrite (parse_template_literal _ Hrepl). simpl Re.result_map. f_equal.
  pose proof (match_pattern_last_constructor pre args rest Hline Hne Hfree Hlast) as Hm.
  assert (Hrest : constructor_free rest = true).
  { apply (constructor_free_suffix ("ergeTree(" +:+ args +:+ ")")).
    now rewrite !append_assoc. }
  replace (pre +:+ "MergeTree(" +:+ args +:+ ")" +:+ rest)
    with ((pre +:+ "MergeTree(" +:+ args +:+ ")") +:+ rest) in *
    by now rewrite !append_assoc.
  destruct (pre +:+ "MergeTree(" +:+ args +:+ ")") as [|c matched] eqn:Hmatched.
  - apply (f_equal String.length) in Hmatched.
    rewrite !length_append in Hmatched. simpl in Hmatched. lia.
  - rewrite append_cons in *. rewrite sub_scan_cons, Hm. cbn [String.length].
    now rewrite sub_scan_skip, (sub_scan_constructor_free _ _ Hrest).
Qed.

(** *** Exactly one constructor *)

Lemma constructor_positions_from_ge (s : string) :
  forall i j, j ∈ constructor_positions_from i s -> (i <= j)%nat.
Proof.
  induction s as [|c s IH]; intros i j; simpl.
  - intros []%elem_of_nil.
  - intros [H|H]%elem_of_app.
    + destruct (starts_constructor _); [| now apply elem_of_nil in H].
      apply list_elem_of_singleton in H as ->. lia.
    + apply IH in H. lia.
Qed.

Lemma constructor_positions_from_nil (s : string) :
  forall i, constructor_positions_from i s = [] -> constructor_free s = true.
Proof.
  induction s as [|c s IH]; intros i; simpl; [reflexivity |].
  destruct (starts_constructor (String c s)); [discriminate |].
  simpl. apply IH.
Qed.

(** If the only constructor of [pre ++ s] starts where [s] does, none
    starts later in [s]. *)
Lemma only_constructor_is_last (pre : string) (c : ascii) (s : string) :
  forall i,
    constructor_positions_from i (pre +:+ String c s) = [(i + String.length pre)%nat] ->
    constructor_free s = true.
Proof.
  induction pre as [|x pre IH]; intros i.
  - rewrite append_nil_l. simpl.
    destruct (starts_constructor (String c s)); simpl.
    + intros [= _ H]. exact (constructor_positions_from_nil _ _ H).
    + intros H.
      assert (Hin : (i + 0)%nat ∈ constructor_positions_from (S i) s)
        by (rewrite H; left).
      apply constructor_positions_from_ge in Hin. lia.
  - rewrite append_cons. simpl.
    destruct (starts_constructor _); simpl.
    + intros [= Hi _]. lia.
    + rewrite <- Nat.add_succ_comm. apply IH.
Qed.

Section Engine.
Context {DB : Type} `{!Backend DB} {E : Type} `{!EngineClass E}.
Variable self : Migration E.

(** The engine whose text [get_new_engine] substitutes in world [w]. *)
Definition keyed_engine (table : TableMigrationData E) (w : world DB) : E :=
  set_zookeeper_path_key (strftime_am0004 (clock w (ticks w))) (new_table_engine table).

Lemma get_new_engine_step (table : TableMigrationData E) (w : world DB) text first rest d :
  execute (SelectEngineFull (CLICKHOUSE_DATABASE (settings self)) (name table)) (db w)
    = (Ok ((VStr text :: first) :: rest), d) ->
  fst (get_new_engine self table w)
  = match Re.sub ENGINE_PATTERN (engine_str (keyed_engine table w)) text with
    | Re.Text new_engine => Ok new_engine
    | Re.Error => Raise ReError
    | Re.GroupTemplate => Raise (Unmodelled "group reference in the engine text")
    | Re.NotText => Raise TypeError
    end.
Proof.
  intros Hq. unfold get_new_engine.
  rewrite (bind_ok _ _ _ _ _ (get_current_engine_present self w _ _ _ _ _ Hq)).
  unfold bind, now, keyed_engine, Re.sub_subject. cbn [clock ticks].
  now destruct (Re.sub _ _ _).
Qed.

(** C9, amended: when the current engine text holds exactly one
    MergeTree(...) constructor, whose argument list is not empty and holds no
    closing parenthesis (no nested call: the constructor ends at the first
    closing parenthesis after its opening one), with nothing but text of the
    same line in front of it, and the new engine's text holds no backslash,
    [get_new_engine] returns the new engine's text followed, unchanged, by
    everything that trailed the constructor. *)
Theorem get_new_engine_keeps_trailing_clauses
    (table : TableMigrationData E) (w : world DB) (pre args trailing : string)
    first rest d :
  let current := pre +:+ "MergeTree(" +:+ args +:+ ")" +:+ trailing in
  execute (SelectEngineFull (CLICKHOUSE_DATABASE (settings self)) (name table)) (db w)
    = (Ok ((VStr current :: first) :: rest), d) ->
  constructor_positions current = [String.length pre] ->
  args <> "" ->
  has_char RPAREN args = false ->
  has_char LF pre = false ->
  has_char BACKSLASH (engine_str (keyed_engine table w)) = false ->
  fst (get_new_engine self table w)
  = Ok (engine_str (keyed_engine table w) +:+ trailing).
Proof.
  intros current Hq Hone Hne Hargs Hline Hrepl.
  rewrite (get_new_engine_step _ _ _ _ _ _ Hq). subst current.
  rewrite sub_last_constructor; try assumption; [reflexivity |].
  apply (only_constructor_is_last pre "M" _ O). exact Hone.
Qed.

End Engine.

(** The [events] descriptor of the catalog. *)
Definition events : TableMigrationData Fake.engine :=
  default PlanFacts.cohortpeople (tables_to_migrate (Fake.sample_migration true) !! O).

Lemma get_new_engine_keeps_trailing_clauses_witness :
  fst (get_new_engine (Fake.sample_migration true) events
         (Fake.start (Fake.sample_catalog 1) Fake.first_attempt))
  = Ok ("ReplicatedReplacingMergeTree('/clickhouse/tables/noshard/posthog.events_am0004_20220103040506', '{replica}-{shard}')"
          +:+ " PARTITION BY toYYYYMM(timestamp) ORDER BY (team_id, toDate(timestamp), uuid) SAMPLE BY cityHash64(distinct_id) SETTINGS index_granularity = 8192").
Proof.
  refine (get_new_engine_keeps_trailing_clauses (Fake.sample_migration true) events
            (Fake.start (Fake.sample_catalog 1) Fake.first_attempt)
            "Replacing" "_timestamp"
            " PARTITION BY toYYYYMM(timestamp) ORDER BY (team_id, toDate(timestamp), uuid) SAMPLE BY cityHash64(distinct_id) SETTINGS index_granularity = 8192"
            [] [] (Fake.sample_catalog 1) _ _ _ _ _ _).
  - vm_compute. reflexivity.
  - vm_compute. reflexivity.
  - discriminate.
  - vm_compute. reflexivity.
  - vm_compute. reflexivity.
  - vm_compute. reflexivity.
Defined.

(** A server whose [cohortpeople] table is on the engine [text]. *)
Definition cohortpeople_on (text : string) : world Fake.catalog :=
  Fake.start (Fake.Catalog "default" {[ "cohortpeople" := Fake.plain text ∅ ]} 1)
             Fake.first_attempt.

(** C9 as stated fails, on three counts.  [MergeTree() ORDER BY ...] holds
    exactly one MergeTree(...) constructor, but the pattern asks for at least
    one character between the parentheses: nothing is substituted and the
    text comes back as it was, the new engine's text nowhere in it.  When
    a line stands in front of the constructor's line, [.] matching no line
    feed, that line is kept in front of the new engine's text.  And when an
    argument of the constructor is itself a call, the pattern ends at the
    first closing parenthesis: the one that closed the constructor is left
    behind, in front of the trailing clauses. *)
Lemma constructor_is_not_always_replaced :
  let self := Fake.sample_migration true in
  let empty := "MergeTree() ORDER BY (team_id, cohort_id, person_id)" in
  let two_lines := "x" +:+ nl +:+ "MergeTree(sign) ORDER BY y" in
  let nested := "ReplacingMergeTree(toDate(x)) ORDER BY y" in
  let new_engine w := engine_str (keyed_engine PlanFacts.cohortpeople w) in
  (constructor_positions empty = [O]
   /\ has_char BACKSLASH (new_engine (cohortpeople_on empty)) = false
   /\ fst (get_new_engine self PlanFacts.cohortpeople (cohortpeople_on empty)) = Ok empty
   /\ fst (get_new_engine self PlanFacts.cohortpeople (cohortpeople_on empty))
      <> Ok (new_engine (cohortpeople_on empty)
               +:+ " ORDER BY (team_id, cohort_id, person_id)"))
  /\ (constructor_positions two_lines = [2%nat]
      /\ fst (get_new_engine self PlanFacts.cohortpeople (cohortpeople_on two_lines))
         = Ok ("x" +:+ nl +:+ new_engine (cohortpeople_on two_lines) +:+ " ORDER BY y")
      /\ fst (get_new_engine self PlanFacts.cohortpeople (cohortpeople_on two_lines))
         <> Ok (new_engine (cohortpeople_on two_lines) +:+ " ORDER BY y"))
  /\ (constructor_positions nested = [9%nat]
      /\ fst (get_new_engine self PlanFacts.cohortpeople (cohortpeople_on nested))
         = Ok (new_engine (cohortpeople_on nested) +:+ ") ORDER BY y")
      /\ fst (get_new_engine self PlanFacts.cohortpeople (cohortpeople_on nested))
         <> Ok (new_engine (cohortpeople_on nested) +:+ " ORDER BY y")).
Proof.
  intros self empty two_lines nested new_engine.
  assert (Hempty : fst (get_new_engine self PlanFacts.cohortpeople (cohortpeople_on empty))
                   = Ok empty) by (vm_compute; reflexivity).
  assert (Hlines : fst (get_new_engine self PlanFacts.cohortpeople (cohortpeople_on two_lines))
                   = Ok ("x" +:+ nl +:+ new_engine (cohortpeople_on two_lines)
                           +:+ " ORDER BY y")) by (vm_compute; reflexivity).
  assert (Hnested : fst (get_new_engine self PlanFacts.cohortpeople (cohortpeople_on nested))
                    = Ok (new_engine (cohortpeople_on nested) +:+ ") ORDER BY y"))
    by (vm_compute; reflexivity).
  split; [split; [| split; [| split]] | split; [split; [| split] | split; [| split]]].
  - vm_compute. reflexivity.
  - vm_compute. reflexivity.
  - exact Hempty.
  - rewrite Hempty. intros H. vm_compute in H. discriminate H.
  - vm_compute. reflexivity.
  - exact Hlines.
  - rewrite Hlines. intros H. vm_compute in H. discriminate H.
  - vm_compute. reflexivity.
  - exact Hnested.
  - rewrite Hnested. intros H. vm_compute in H. discriminate H.
Qed.

(** A backslash in the new engine's text is an escape of the replacement
    template: two of them come out as one. *)
Example backslash_in_engine_text_is_an_escape :
  let text := String BACKSLASH (String BACKSLASH "MergeTree()") in
  Re.sub ENGINE_PATTERN text "MergeTree(sign) ORDER BY y"
  = Re.Text (String BACKSLASH "MergeTree()" +:+ " ORDER BY y").
Proof. vm_compute. reflexivity. Qed.

End EngineFacts.

(** ** The required-ness check, once more *)

Module RequiredFacts.
Import PyStr Py Clickhouse Migration0004 RunFacts CheckFacts DeterminismFacts.
Local Open Scope run_scope.

Section Required.
Context {DB : Type} `{!Backend DB} {E : Type} `{!EngineClass E}.
Variable self : Migration E.

Lemma agrees_is_required : agrees (is_required self).
Proof.
  unfold is_required.
  apply agrees_bind; [apply agrees_get_current_engine |].
  intros [| |s]; [apply agrees_raise .. | apply agrees_ret].
Qed.

(** [is_required] sends one statement and touches nothing else. *)
Lemma is_required_world (w : world DB) :
  let q := SelectEngineFull (CLICKHOUSE_DATABASE (settings self)) "events" in
  snd (is_required self w)
  = World (snd (execute q (db w))) (clock w) (ticks w) (config w)
          (journal w ++ [(q, is_ok (fst (execute q (db w))))]).
Proof.
  intros q. subst q. unfold is_required, get_current_engine, bind, sync_execute.
  destruct (execute _ (db w)) as [[[|[|v first] rest]|e] d]; cbn; try reflexivity.
  destruct v; reflexivity.
Qed.

(** On a server that the engine query leaves as it was, a second
    [is_required] right after the first gives the same verdict, or raises
    the same exception. *)
Theorem is_required_twice (w : world DB) :
  snd (execute (SelectEngineFull (CLICKHOUSE_DATABASE (settings self)) "events") (db w))
    = db w ->
  fst (is_required self (snd (is_required self w))) = fst (is_required self w).
Proof.
  intros Hsame. symmetry.
  apply (agrees_is_required w (snd (is_required self w))).
  rewrite is_required_world. cbv zeta. split; [now rewrite Hsame | reflexivity].
Qed.

End Required.

Lemma is_required_twice_witness :
  let self := Fake.sample_migration true in
  let w := Fake.start (Fake.sample_catalog 1) Fake.first_attempt in
  fst (is_required self (snd (is_required self w))) = fst (is_required self w).
Proof.
  intros self w. exact (is_required_twice self w eq_refl).
Defined.

(** After the migration: [events] is the Distributed facade, and the check
    says the migration is not required. *)
Definition migrated : Fake.catalog :=
  Fake.Catalog "default"
    {[ "events" := Fake.plain "Distributed('posthog', 'default', 'sharded_events', sipHash64(distinct_id))" ∅ ]}
    1.

Lemma is_required_verdict_witness :
  fst (is_required (Fake.sample_migration true) (Fake.start migrated Fake.first_attempt))
  = Ok (negb (contains "Distributed"
                "Distributed('posthog', 'default', 'sharded_events', sipHash64(distinct_id))")).
Proof.
  exact (is_required_verdict (Fake.sample_migration true)
           (Fake.start migrated Fake.first_attempt) _ [] [] migrated eq_refl).
Defined.

Example is_required_after_migration :
  fst (is_required (Fake.sample_migration true) (Fake.start migrated Fake.first_attempt))
  = Ok false.
Proof. vm_compute. reflexivity. Qed.

End RequiredFacts.

(** ** Phase 2 of a sharded table *)

Module FinalizeFacts.
Import PyStr Py Clickhouse Migration0004.

(** For a sharded table with a materialized view and an ingestion table,
    phase 2 creates the extra tables in the order of the dict, drops the
    view (the one operation without rollback), recreates the ingestion table
    and then recreates the view; each of the others is rolled back by
    dropping what it created. *)
Theorem finalize_sharded_table {E : Type} (table : TableMigrationData E) s view kafka :
  sharded table = Some s ->
  materialized_view_name s = Some view ->
  kafka_table_name table = Some kafka ->
  finalize_table_operations table
  = map (fun extra =>
           AsyncMigrationOperationSQL
             (Some (snd extra)) (Some ("DROP TABLE IF EXISTS " +:+ fst extra)))
        (extra_tables s)
    ++ [ AsyncMigrationOperationSQL (Some ("DROP TABLE IF EXISTS " +:+ view)) None;
         AsyncMigrationOperationSQL
           (create_kafka_table table) (Some ("DROP TABLE IF EXISTS " +:+ kafka));
         AsyncMigrationOperationSQL
           (Some (create_materialized_view s)) (Some ("DROP TABLE IF EXISTS " +:+ view)) ].
Proof.
  intros Hs Hview Hkafka. unfold finalize_table_operations.
  rewrite Hs, Hkafka. destruct s as [to extras v create]. simpl in Hview. subst v.
  simpl. f_equal. apply map_ext. now intros [n q].
Qed.

Lemma finalize_sharded_table_witness :
  finalize_table_operations EngineFacts.events
  = [ AsyncMigrationOperationSQL
        (Some "WRITABLE_EVENTS_TABLE_SQL") (Some "DROP TABLE IF EXISTS writable_events");
      AsyncMigrationOperationSQL
        (Some "DISTRIBUTED_EVENTS_TABLE_SQL") (Some "DROP TABLE IF EXISTS events");
      AsyncMigrationOperationSQL (Some "DROP TABLE IF EXISTS events_mv") None;
      AsyncMigrationOperationSQL
        (Some "KAFKA_EVENTS_TABLE_SQL") (Some "DROP TABLE IF EXISTS kafka_events");
      AsyncMigrationOperationSQL
        (Some "EVENTS_TABLE_MV_SQL") (Some "DROP TABLE IF EXISTS events_mv") ].
Proof.
  exact (finalize_sharded_table EngineFacts.events _ "events_mv" "kafka_events"
           eq_refl eq_refl eq_refl).
Defined.

End FinalizeFacts.

(** ** The substitution of the engine: texts the pattern does not fit *)

Module EngineEdgeFacts.
Import PyStr Py Clickhouse Migration0004 RunFacts PyStrFacts CheckFacts EngineFacts.
Local Open Scope run_scope.

Section EngineEdge.
Context {DB : Type} `{!Backend DB} {E : Type} `{!EngineClass E}.
Variable self : Migration E.

(** When the current engine text holds no MergeTree(...) constructor at all
    (a Distributed table, or an engine written without parentheses),
    [get_new_engine] raises nothing and returns the current text as it is:
    the new engine is nowhere in the result. *)
Theorem get_new_engine_without_constructor
    (table : TableMigrationData E) (w : world DB) (text : string) first rest d :
  execute (SelectEngineFull (CLICKHOUSE_DATABASE (settings self)) (name table)) (db w)
    = (Ok ((VStr text :: first) :: rest), d) ->
  constructor_free text = true ->
  has_char BACKSLASH (engine_str (keyed_engine table w)) = false ->
  fst (get_new_engine self table w) = Ok text.
Proof.
  intros Hq Hfree Hrepl.
  rewrite (get_new_engine_step _ _ _ _ _ _ _ Hq). unfold Re.sub.
  rewrite (parse_template_literal _ Hrepl). simpl Re.result_map.
  now rewrite (sub_scan_constructor_free _ _ Hfree).
Qed.

(** When several constructors stand on the first line, the greedy [.*]
    runs up to the last of them.  If the arguments of that last constructor
    are not empty and hold no closing parenthesis, and the new engine's text
    holds no backslash, everything in front of the last constructor, earlier
    constructors included, is replaced together with it by one copy of the
    new engine's text, and what trails its closing parenthesis is kept. *)
Theorem get_new_engine_replaces_up_to_last_constructor
    (table : TableMigrationData E) (w : world DB) (pre args trailing : string)
    first rest d :
  let current := pre +:+ "MergeTree(" +:+ args +:+ ")" +:+ trailing in
  execute (SelectEngineFull (CLICKHOUSE_DATABASE (settings self)) (name table)) (db w)
    = (Ok ((VStr current :: first) :: rest), d) ->
  has_char LF pre = false ->
  args <> "" ->
  has_char RPAREN args = false ->
  constructor_free ("ergeTree(" +:+ args +:+ ")" +:+ trailing) = true ->
  has_char BACKSLASH (engine_str (keyed_engine table w)) = false ->
  fst (get_new_engine self table w)
  = Ok (engine_str (keyed_engine table w) +:+ trailing).
Proof.
  intros current Hq Hline Hne Hargs Hlast Hrepl.
  rewrite (get_new_engine_step _ _ _ _ _ _ _ Hq). subst current.
  now rewrite sub_last_constructor.
Qed.

(** When the server lists no such table, [get_new_engine] has no text to
    substitute in: it raises, after the engine query and one reading of the
    clock, and nothing else has happened. *)
Theorem get_new_engine_of_missing_table (table : TableMigrationData E) (w : world DB) d :
  let q := SelectEngineFull (CLICKHOUSE_DATABASE (settings self)) (name table) in
  execute q (db w) = (Ok [], d) ->
  exists e,
    get_new_engine self table w
    = (Raise e, World d (clock w) (S (ticks w)) (config w) (journal w ++ [(q, true)]))
    /\ (has_char BACKSLASH (engine_str (keyed_engine table w)) = false -> e = TypeError).
Proof.
  intros q Hq. unfold get_new_engine.
  rewrite (bind_ok _ _ _ _ _ (get_current_engine_absent self w _ _ Hq)).
  unfold bind, now, Re.sub_subject. cbn [clock ticks db config journal].
  fold (keyed_engine table w).
  destruct (Re.parse_template (engine_str (keyed_engine table w))) as [t| | |] eqn:Hparse.
  - exists TypeError. split; reflexivity.
  - exists ReError. split; [reflexivity |].
    intros Hrepl. rewrite (parse_template_literal _ Hrepl) in Hparse. discriminate.
  - eexists. split; [reflexivity |].
    intros Hrepl. rewrite (parse_template_literal _ Hrepl) in Hparse. discriminate.
  - exists TypeError. split; reflexivity.
Qed.

End EngineEdge.

(** A table that already is a Distributed facade, and a text with two
    constructors on its line. *)
Lemma get_new_engine_without_constructor_witness :
  let text := "Distributed('posthog', 'default', 'sharded_events', sipHash64(distinct_id))" in
  fst (get_new_engine (Fake.sample_migration true) PlanFacts.cohortpeople (cohortpeople_on text))
  = Ok text.
Proof.
  intros text.
  refine (get_new_engine_without_constructor (Fake.sample_migration true)
            PlanFacts.cohortpeople (cohortpeople_on text) text [] [] _ _ _ _);
    vm_compute; reflexivity.
Defined.

Lemma get_new_engine_replaces_up_to_last_constructor_witness :
  let w := cohortpeople_on "MergeTree(a) /* was */ CollapsingMergeTree(sign) ORDER BY y" in
  fst (get_new_engine (Fake.sample_migration true) PlanFacts.cohortpeople w)
  = Ok (engine_str (keyed_engine PlanFacts.cohortpeople w) +:+ " ORDER BY y").
Proof.
  intros w.
  refine (get_new_engine_replaces_up_to_last_constructor (Fake.sample_migration true)
            PlanFacts.cohortpeople w "MergeTree(a) /* was */ Collapsing" "sign" " ORDER BY y"
            [] [] _ _ _ _ _ _ _).
  - vm_compute. reflexivity.
  - vm_compute. reflexivity.
  - discriminate.
  - vm_compute. reflexivity.
  - vm_compute. reflexivity.
  - vm_compute. reflexivity.
Defined.

Lemma get_new_engine_of_missing_table_witness :
  let self := Fake.sample_migration true in
  let w := cohortpeople_on "MergeTree(sign) ORDER BY y" in
  exists e,
    get_new_engine self EngineFacts.events w
    = (Raise e, World (db w) (clock w) (S (ticks w)) (config w)
                  (journal w ++ [(SelectEngineFull "default" "events", true)]))
    /\ (has_char BACKSLASH (engine_str (keyed_engine EngineFacts.events w)) = false ->
        e = TypeError).
Proof.
  intros self w.
  exact (get_new_engine_of_missing_table self EngineFacts.events w (db w) eq_refl).
Defined.

End EngineEdgeFacts.

(** ** What building the plan asks of the server *)

Module PlanQueryFacts.
Import PyStr Py Clickhouse Migration0004 RunFacts PyStrFacts CheckFacts PlanFacts.
Local Open Scope run_scope.

Section PlanQuery.
Context {DB : Type} `{!Backend DB} {E : Type} `{!EngineClass E}.
Variable self : Migration E.




Lemma comprehension_cons {A B} (f : A -> Run DB B) (x : A) (l : list A) (w : world DB) :
  comprehension f (x :: l) w
  = match f x w with
    | (Ok y, w1) =>
        match comprehension f l w1 with
        | (Ok ys, w2) => (Ok (y :: ys), w2)
        | (Raise e, w2) => (Raise e, w2)
        end
    | (Raise e, w1) => (Raise e, w1)
    end.
Proof.
  simpl. unfold bind, ret. destruct (f x w) as [[y|e] w1]; [| reflexivity].
  now destruct (comprehension f l w1) as [[ys|e] w2].
Qed.



End PlanQuery.

End PlanQueryFacts.

(** ** The shape of a plan: rollbacks *)

Module PlanShapeFacts.
Import PyStr Py Clickhouse Migration0004 RunFacts PyStrFacts CheckFacts PlanFacts.
Local Open Scope run_scope.

(** The rollback closure undoes the forward closure: the move goes the
    other way, the rename runs backwards behind a check for the backup table,
    the flag is set to the opposite value. *)
Definition mirrored (op : operation) : Prop :=
  match op with
  | AsyncMigrationOperationSQL _ _ => True
  | AsyncMigrationOperation (SetConfig attribute v) rollback_fn =>
      rollback_fn = SetConfig attribute (negb v)
  | AsyncMigrationOperation (MovePartitions from_table to_table) rollback_fn =>
      rollback_fn = MovePartitions to_table from_table
  | AsyncMigrationOperation (RenameTables [from_1; to_1] [from_2; to_2] None) rollback_fn =>
      rollback_fn = RenameTables [to_2; from_2] [to_1; from_1] (Some to_1)
  | AsyncMigrationOperation (RenameTables _ _ _) _ => False
  end.

Section PlanShape.
Context {DB : Type} `{!Backend DB} {E : Type} `{!EngineClass E}.
Variable self : Migration E.

(** The phase-1 block of a table whose new engine text is [new_engine]. *)
Definition phase_1 (table : TableMigrationData E) (new_engine : string) : list operation :=
  [ AsyncMigrationOperationSQL
      (Some (nl +:+ "            CREATE TABLE " +:+ tmp_table_name table
               +:+ " AS " +:+ name table +:+ nl
               +:+ "            ENGINE = " +:+ new_engine +:+ nl
               +:+ "            "))
      (Some ("DROP TABLE IF EXISTS " +:+ tmp_table_name table)) ]
  ++ match kafka_table_name table with
     | Some kafka =>
         [ AsyncMigrationOperationSQL
             (Some ("DROP TABLE IF EXISTS " +:+ kafka)) (create_kafka_table table) ]
     | None => []
     end
  ++ [ AsyncMigrationOperation
         (MovePartitions (name table) (tmp_table_name table))
         (MovePartitions (tmp_table_name table) (name table));
       AsyncMigrationOperation
         (RenameTables [name table; backup_table_name table]
                       [tmp_table_name table; renamed_table_name table] None)
         (RenameTables [renamed_table_name table; tmp_table_name table]
                       [backup_table_name table; name table]
                       (Some (backup_table_name table))) ].

Lemma phase_1_blocks (l : list (TableMigrationData E)) blocks :
  Forall2 (fun table block =>
             exists w1 w2 : world DB,
               replicated_table_operations self table w1 = (Ok block, w2)) l blocks ->
  exists engines, length engines = length l /\ blocks = zip_with phase_1 l engines.
Proof.
  induction 1 as [|t block l blocks (w1 & w2 & Hrun) _ (engines & Hlen & ->)].
  - now exists [].
  - destruct (replicated_table_operations_inv _ _ _ _ _ Hrun) as (new_engine & _ & ->).
    exists (new_engine :: engines). simpl. now rewrite Hlen.
Qed.

Lemma mirrored_phase_1 (table : TableMigrationData E) (new_engine : string) :
  Forall mirrored (phase_1 table new_engine).
Proof.
  unfold phase_1. destruct (kafka_table_name table); repeat constructor.
Qed.

Lemma mirrored_finalize (table : TableMigrationData E) :
  Forall mirrored (finalize_table_operations table).
Proof.
  apply Forall_forall. intros op Hop. unfold finalize_table_operations in Hop.
  rewrite !elem_of_app in Hop.
  destruct Hop as [Hop|[Hop|[Hop|Hop]]].
  - destruct (sharded table) as [s|]; [| now apply elem_of_nil in Hop].
    apply list_elem_of_fmap in Hop as ([n q] & -> & _). exact I.
  - destruct (sharded table) as [[to extras [view|] create]|];
      try now apply elem_of_nil in Hop.
    apply list_elem_of_singleton in Hop as ->. exact I.
  - destruct (kafka_table_name table); [| now apply elem_of_nil in Hop].
    apply list_elem_of_singleton in Hop as ->. exact I.
  - destruct (sharded table) as [[to extras [view|] create]|];
      try now apply elem_of_nil in Hop.
    apply list_elem_of_singleton in Hop as ->. exact I.
Qed.

(** In every plan that an access of [operations] returns, built then or
    stored before, the rollback closure of each closure operation is its
    mirror image: a move of partitions is rolled
    back by the move in the other direction, a rename [a -> b, c -> d] by
    the rename [d -> c, b -> a] guarded by the existence of [b] (the backup
    table), a setting of the flag by the setting of the opposite value. *)
Theorem plan_rollbacks_mirror slot (w : world DB) plan slot' w' :
  stored self slot ->
  operations self slot w = (Ok (plan, slot'), w') -> Forall mirrored plan.
Proof.
  intros Hslot Haccess.
  destruct (operations_access _ _ _ _ _ _ Hslot Haccess) as [(w0 & w0' & Hrun) _].
  destruct (operations_inv _ _ _ _ Hrun) as (blocks & Hblocks & ->).
  destruct (phase_1_blocks _ _ (comprehension_inv _ _ _ _ _ Hblocks))
    as (engines & _ & ->).
  apply Forall_app_2; [repeat constructor |].
  apply Forall_app_2; [| apply Forall_app_2; [| repeat constructor]].
  - apply Forall_concat, Forall_forall. intros block Hblock.
    apply elem_of_lookup_zip_with in Hblock as (i & t & e & -> & _ & _).
    apply mirrored_phase_1.
  - apply Forall_concat, Forall_fmap, Forall_forall. intros t _.
    apply mirrored_finalize.
Qed.

(** The only operations of a plan that an access of [operations] returns,
    built then or stored before, that cannot be rolled back are the drops of
    the two materialized views, the 39th and the 44th of the fifty-three
    operations; each is followed, two operations later and after the
    ingestion table is back, by the statement that creates the view again. *)
Theorem plan_irreversible_operations slot (w : world DB) plan slot' w' :
  stored self slot ->
  operations self slot w = (Ok (plan, slot'), w') ->
  length plan = 53%nat
  /\ forall (i : nat) sql,
       plan !! i = Some (AsyncMigrationOperationSQL sql None) ->
       (i = 38%nat
        /\ sql = Some "DROP TABLE IF EXISTS events_mv"
        /\ plan !! 40%nat
           = Some (AsyncMigrationOperationSQL
                     (Some (EVENTS_TABLE_MV_SQL (definitions self)))
                     (Some "DROP TABLE IF EXISTS events_mv")))
       \/ (i = 43%nat
           /\ sql = Some "DROP TABLE IF EXISTS session_recording_events_mv"
           /\ plan !! 45%nat
              = Some (AsyncMigrationOperationSQL
                        (Some (SESSION_RECORDING_EVENTS_TABLE_MV_SQL (definitions self)))
                        (Some "DROP TABLE IF EXISTS session_recording_events_mv"))).
Proof.
  intros Hslot Haccess.
  destruct (operations_access _ _ _ _ _ _ Hslot Haccess) as [(w0 & w0' & Hrun) _].
  clear Hslot Haccess.
  destruct (operations_inv _ _ _ _ Hrun) as (blocks & Hblocks & ->).
  destruct (phase_1_blocks _ _ (comprehension_inv _ _ _ _ _ Hblocks))
    as (engines & Hlen & ->).
  unfold tables_to_migrate in *. cbv zeta in *.
  do 10 (destruct engines as [|? engines]; try discriminate Hlen).
  cbn [zip_with concat map app phase_1 finalize_table_operations kafka_table_name
       sharded extra_tables materialized_view_name create_materialized_view
       create_kafka_table].
  split; [reflexivity |].
  intros i sql Hi.
  do 53 (destruct i as [|i]; [first [discriminate Hi | injection Hi as <-; auto] |]).
  discriminate Hi.
Qed.

End PlanShape.

Lemma plan_rollbacks_mirror_witness :
  Forall mirrored
    (plan_of (fst (operations (Fake.sample_migration true) None
                     (Fake.start (Fake.sample_catalog 1) Fake.first_attempt)))).
Proof.
  refine (plan_rollbacks_mirror (Fake.sample_migration true) None
            (Fake.start (Fake.sample_catalog 1) Fake.first_attempt) _
            (Some (plan_of (fst (operations (Fake.sample_migration true) None
                                   (Fake.start (Fake.sample_catalog 1) Fake.first_attempt)))))
            (snd (operations (Fake.sample_migration true) None
                    (Fake.start (Fake.sample_catalog 1) Fake.first_attempt))) _ _).
  - apply stored_None.
  - vm_compute. reflexivity.
Defined.

Lemma plan_irreversible_operations_witness :
  let plan :=
    plan_of (fst (operations (Fake.sample_migration true) None
                    (Fake.start (Fake.sample_catalog 1) Fake.first_attempt))) in
  length plan = 53%nat
  /\ forall (i : nat) sql,
       plan !! i = Some (AsyncMigrationOperationSQL sql None) ->
       (i = 38%nat
        /\ sql = Some "DROP TABLE IF EXISTS events_mv"
        /\ plan !! 40%nat
           = Some (AsyncMigrationOperationSQL
                     (Some "EVENTS_TABLE_MV_SQL") (Some "DROP TABLE IF EXISTS events_mv")))
       \/ (i = 43%nat
           /\ sql = Some "DROP TABLE IF EXISTS session_recording_events_mv"
           /\ plan !! 45%nat
              = Some (AsyncMigrationOperationSQL
                        (Some "SESSION_RECORDING_EVENTS_TABLE_MV_SQL")
                        (Some "DROP TABLE IF EXISTS session_recording_events_mv"))).
Proof.
  intros plan.
  refine (plan_irreversible_operations (Fake.sample_migration true) None
            (Fake.start (Fake.sample_catalog 1) Fake.first_attempt) plan (Some plan)
            (snd (operations (Fake.sample_migration true) None
                    (Fake.start (Fake.sample_catalog 1) Fake.first_attempt))) _ _).
  - apply stored_None.
  - vm_compute. reflexivity.
Defined.

End PlanShapeFacts.

(** ** Moving partitions on the fake catalog: what is left alone *)

Module FakeMoveFacts.
Import PyStr Py Clickhouse Migration0004 RunFacts MoveFacts Fake.
Local Open Scope run_scope.

(** [c'] differs from [c] at most in the partitions of [A] and of [B]: the
    same database, the same nodes, the same tables on the same engines with
    the same merges, and every table other than [A] and [B] exactly as it
    was. *)
Definition only_partitions_of (A B : string) (c c' : catalog) : Prop :=
  database c' = database c
  /\ nodes c' = nodes c
  /\ forall C,
       (C <> A -> C <> B -> tables c' !! C = tables c !! C)
       /\ engine_full <$> tables c' !! C = engine_full <$> tables c !! C
       /\ running_merges <$> tables c' !! C = running_merges <$> tables c !! C.

Lemma only_partitions_of_refl (A B : string) (c : catalog) : only_partitions_of A B c c.
Proof. repeat split. Qed.

Lemma only_partitions_of_trans (A B : string) (c1 c2 c3 : catalog) :
  only_partitions_of A B c1 c2 -> only_partitions_of A B c2 c3 ->
  only_partitions_of A B c1 c3.
Proof.
  intros (Hd1 & Hn1 & H1) (Hd2 & Hn2 & H2).
  split; [congruence |]. split; [congruence |].
  intros C. destruct (H1 C) as (Ha1 & Hb1 & Hc1), (H2 C) as (Ha2 & Hb2 & Hc2).
  split; [| split]; [intros HA HB; rewrite Ha2, Ha1 by assumption | |]; congruence.
Qed.


(** Replacing the partitions of one of the two tables. *)
Lemma only_partitions_of_insert (A B T : string) (c : catalog) t p :
  T = A \/ T = B ->
  tables c !! T = Some t ->
  only_partitions_of A B c (with_tables c (<[T := with_partitions t p]> (tables c))).
Proof.
  intros HT Ht. split; [reflexivity |]. split; [reflexivity |].
  intros C. cbn [tables with_tables].
  destruct (decide (C = T)) as [->|Hne].
  - rewrite lookup_insert_eq, Ht. split; [| split; reflexivity].
    intros HA HB. destruct HT; congruence.
  - rewrite lookup_insert_ne by congruence. repeat split.
Qed.

Lemma attach_only_partitions (A B : string) (p : string) (c : catalog) :
  only_partitions_of A B c (snd (fake_execute (AlterAttachPartition B p A) c)).
Proof.
  unfold fake_execute.
  destruct (tables c !! B) as [target|] eqn:HB; [| apply only_partitions_of_refl].
  destruct (tables c !! A) as [source|]; [| apply only_partitions_of_refl].
  cbn [snd]. destruct (decide _); [| apply only_partitions_of_refl].
  apply only_partitions_of_insert; auto.
Qed.

Lemma drop_only_partitions (A B : string) (p : string) (c : catalog) :
  only_partitions_of A B c (snd (fake_execute (AlterDropPartition A p) c)).
Proof.
  unfold fake_execute.
  destruct (tables c !! A) as [source|] eqn:HA; [| apply only_partitions_of_refl].
  cbn [snd]. apply only_partitions_of_insert; auto.
Qed.

Section FakeMove.
Context {E : Type} `{!EngineClass E}.
Variable self : Migration E.

Lemma move_one_frame (A B : string) (r : row) (w : world catalog) :
  let w' := snd (move_one A B r w) in
  only_partitions_of A B (db w) (db w')
  /\ clock w' = clock w /\ ticks w' = ticks w /\ config w' = config w.
Proof.
  cbv zeta. destruct (decide (length r = 1%nat)) as [Hr|Hr].
  - destruct r as [|x [|y r]]; [discriminate | | discriminate].
    rewrite move_one_step. cbv zeta.
    pose proof (attach_only_partitions A B (format_value x) (db w)) as Hattach.
    unfold execute, fake_backend.
    destruct (fake_execute (AlterAttachPartition _ _ _) (db w)) as [[r1|e1] d1];
      cbn [snd] in Hattach;
      [| cbn [snd db clock ticks config]; split; [exact Hattach | now repeat split]].
    pose proof (drop_only_partitions A B (format_value x) d1) as Hdrop.
    destruct (fake_execute (AlterDropPartition _ _) d1) as [[r2|e2] d2];
      cbn [snd] in Hdrop; cbn [snd db clock ticks config];
      (split; [exact (only_partitions_of_trans _ _ _ _ _ Hattach Hdrop) | now repeat split]).
  - rewrite (move_one_not_a_1_tuple _ _ _ _ Hr). cbn [snd].
    split; [apply only_partitions_of_refl | now repeat split].
Qed.

Lemma for_each_move_one_frame (A B : string) (l : rows) :
  forall w : world catalog,
    let w' := snd (for_each l (move_one A B) w) in
    only_partitions_of A B (db w) (db w')
    /\ clock w' = clock w /\ ticks w' = ticks w /\ config w' = config w.
Proof.
  induction l as [|r l IH]; intros w; cbv zeta.
  - split; [apply only_partitions_of_refl | now repeat split].
  - simpl. unfold bind.
    destruct (move_one_frame A B r w) as (H1 & Hc1 & Ht1 & Hg1). cbv zeta in *.
    destruct (move_one A B r w) as [[[]|e] w1]; cbn [snd] in *.
    + destruct (IH w1) as (H2 & Hc2 & Ht2 & Hg2). cbv zeta in *.
      split; [exact (only_partitions_of_trans _ _ _ _ _ H1 H2) |].
      repeat split; congruence.
    + split; [exact H1 | now repeat split].
Qed.

Lemma move_partitions_changes (A B : string) (w : world catalog) :
  let w' := snd (move_partitions self A B w) in
  only_partitions_of A B (db w) (db w')
  /\ clock w' = clock w /\ ticks w' = ticks w /\ config w' = config w.
Proof.
  cbv zeta. rewrite move_partitions_unfold. cbv zeta.
  unfold execute, fake_backend. cbn [fake_execute].
  match goal with |- context [eq_zero ?v] => destruct (eq_zero v) end;
    [| cbn [snd db clock ticks config];
       split; [apply only_partitions_of_refl | now repeat split]].
  match goal with |- context [for_each ?l _ ?w1] =>
    destruct (for_each_move_one_frame A B l w1) as (H1 & Hc & Ht & Hg) end.
  cbv zeta in *. cbn [db clock ticks config] in *.
  split; [exact H1 | now repeat split].
Qed.

(** Whatever the catalog and whatever the outcome, [move_partitions] leaves
    everything but the partitions of its two tables as it was: it creates and
    drops no table, changes no engine, and touches no third table; nor does
    it read the clock or change the configuration. *)
Theorem move_partitions_frame (A B : string) (w : world catalog) :
  let w' := snd (move_partitions self A B w) in
  only_partitions_of A B (db w) (db w')
  /\ dom (tables (db w')) = dom (tables (db w))
  /\ clock w' = clock w /\ ticks w' = ticks w /\ config w' = config w.
Proof.
  cbv zeta. destruct (move_partitions_changes A B w) as (Hframe & Hrest).
  cbv zeta in Hframe, Hrest.
  split; [exact Hframe |]. split; [| exact Hrest].
  destruct Hframe as (_ & _ & Hall).
  apply set_eq. intros C. rewrite !elem_of_dom.
  destruct (Hall C) as (_ & Hengine & _).
  destruct (tables (db (snd (move_partitions self A B w))) !! C),
           (tables (db w) !! C); simpl in Hengine; try discriminate;
    split; intros [? ?]; eauto; discriminate.
Qed.

(** Moving into a table that does not exist loses nothing: with partitions
    to move, the first attach is refused and [move_partitions] raises with
    the catalog as it was; with none, there is nothing to attach and it
    returns, the missing table unnoticed. *)
Theorem move_partitions_to_missing_table (A B : string) (w : world catalog) ta :
  CLICKHOUSE_DATABASE (settings self) = database (db w) ->
  tables (db w) !! A = Some ta ->
  running_merges ta = 0%Z ->
  tables (db w) !! B = None ->
  let run := move_partitions self A B w in
  db (snd run) = db w
  /\ (partitions ta = ∅ -> fst run = Ok tt)
  /\ (partitions ta <> ∅ -> fst run = Raise UNKNOWN_TABLE).
Proof.
  intros Hdb HA Hmerges HB. cbv zeta.
  rewrite move_partitions_unfold. cbv zeta.
  unfold execute, fake_backend, fake_execute.
  rewrite Hdb, !decide_True by reflexivity. rewrite HA, Hmerges.
  cbn [eq_zero Z.eqb]. cbn iota.
  destruct (elements (partitions ta)) as [|p l] eqn:Hl.
  - apply elements_empty_inv in Hl. apply leibniz_equiv in Hl.
    simpl. repeat split. intros Hne. contradiction.
  - simpl. unfold bind. rewrite move_one_step. cbv zeta.
    unfold execute, fake_backend, fake_execute. cbn [db]. rewrite HB.
    cbn [fst snd db]. repeat split.
    intros Hempty. rewrite Hempty, elements_empty in Hl. discriminate.
Qed.

(** The loop from a table onto itself: each partition is attached to the
    table that already holds it and then dropped from it. *)
Lemma for_each_move_one_same (A : string) (l : list string) :
  forall (w : world catalog) ta,
    tables (db w) !! A = Some ta ->
    exists w',
      for_each ((fun p => [VStr p]) <$> l) (move_one A A) w = (Ok tt, w')
      /\ tables (db w') !! A
         = Some (with_partitions ta (partitions ta ∖ list_to_set l)).
Proof.
  induction l as [|p l IH]; intros w ta HA.
  - exists w. simpl. split; [reflexivity |]. rewrite HA. f_equal.
    destruct ta; unfold with_partitions; simpl; f_equal; set_solver.
  - simpl. unfold bind. rewrite move_one_step. simpl format_value.
    unfold execute, fake_backend, fake_execute at 1.
    rewrite HA.
    destruct (decide (p ∈ partitions ta)) as [Hin|Hnot].
    + unfold execute, fake_execute. cbn [tables with_tables].
      rewrite lookup_insert_eq.
      match goal with |- context [for_each _ _ ?w1] =>
        destruct (IH w1 (with_partitions ta (partitions ta ∖ {[p]})))
          as (w' & Hrun & HA') end.
      * cbn [db tables with_tables]. rewrite lookup_insert_eq. f_equal.
        unfold with_partitions. cbn [engine_full running_merges partitions].
        f_equal. set_solver.
      * exists w'. split; [exact Hrun |]. rewrite HA'.
        unfold with_partitions. cbn [engine_full running_merges partitions].
        f_equal. f_equal. set_solver.
    + unfold execute, fake_execute. rewrite HA.
      match goal with |- context [for_each _ _ ?w1] =>
        destruct (IH w1 (with_partitions ta (partitions ta ∖ {[p]})))
          as (w' & Hrun & HA') end.
      * cbn [db tables with_tables]. apply lookup_insert_eq.
      * exists w'. split; [exact Hrun |]. rewrite HA'.
        unfold with_partitions. cbn [engine_full running_merges partitions].
        f_equal. f_equal. set_solver.
Qed.

(** Nothing keeps [move_partitions] from being given one table twice:
    moving a table of the catalog onto itself succeeds and leaves it without
    a single partition. *)
Theorem move_partitions_onto_itself (A : string) (w : world catalog) ta :
  CLICKHOUSE_DATABASE (settings self) = database (db w) ->
  tables (db w) !! A = Some ta ->
  running_merges ta = 0%Z ->
  let run := move_partitions self A A w in
  fst run = Ok tt
  /\ tables (db (snd run)) !! A = Some (with_partitions ta ∅).
Proof.
  intros Hdb HA Hmerges. cbv zeta.
  assert (Hrun : exists w',
             move_partitions self A A w = (Ok tt, w')
             /\ tables (db w') !! A = Some (with_partitions ta ∅)).
  { rewrite move_partitions_unfold. cbv zeta.
    unfold execute, fake_backend, fake_execute.
    rewrite Hdb, !decide_True by reflexivity. rewrite HA, Hmerges.
    cbn [eq_zero Z.eqb]. cbn iota.
    match goal with |- context [for_each _ _ ?w1] =>
      destruct (for_each_move_one_same A (elements (partitions ta)) w1 ta HA)
        as (w' & Hrun & HA') end.
    exists w'. split; [exact Hrun |].
    rewrite HA', list_to_set_elements_L. f_equal. f_equal. set_solver. }
  destruct Hrun as (w' & -> & HA'). split; [reflexivity | exact HA'].
Qed.

End FakeMove.

Lemma move_partitions_to_missing_table_witness :
  let w := start RoundTripFacts.two_tables first_attempt in
  let run := move_partitions (sample_migration true) "A" "C" w in
  db (snd run) = db w
  /\ (partitions (plain "MergeTree(x) ORDER BY y" {[ "p1" ]}) = ∅ -> fst run = Ok tt)
  /\ (partitions (plain "MergeTree(x) ORDER BY y" {[ "p1" ]}) <> ∅ ->
      fst run = Raise UNKNOWN_TABLE).
Proof.
  intros w.
  refine (move_partitions_to_missing_table (sample_migration true) "A" "C" w
            (plain "MergeTree(x) ORDER BY y" {[ "p1" ]}) eq_refl _ eq_refl _).
  - vm_compute. reflexivity.
  - vm_compute. reflexivity.
Defined.

Lemma move_partitions_onto_itself_witness :
  let run := move_partitions (sample_migration true) "A" "A"
               (start RoundTripFacts.two_tables first_attempt) in
  fst run = Ok tt
  /\ tables (db (snd run)) !! "A"
     = Some (with_partitions (plain "MergeTree(x) ORDER BY y" {[ "p1" ]}) ∅).
Proof.
  refine (move_partitions_onto_itself (sample_migration true) "A"
            (start RoundTripFacts.two_tables first_attempt)
            (plain "MergeTree(x) ORDER BY y" {[ "p1" ]}) eq_refl _ eq_refl).
  vm_compute. reflexivity.
Defined.

End FakeMoveFacts.

(** ** The rename and its rollback on the fake catalog *)

Module FakeRenameFacts.
Import PyStr Py Clickhouse Migration0004 RunFacts PyStrFacts CheckFacts RenameFacts Fake.
Local Open Scope run_scope.



Section FakeRename.
Context {E : Type} `{!EngineClass E}.
Variable self : Migration E.



End FakeRename.



End FakeRenameFacts.

(** ** The closures of a table's phase 1, run and rolled back *)

Module PhaseOneFacts.
Import PyStr Py Clickhouse Migration0004 RunFacts PyStrFacts RenameFacts Fake.
Import RoundTripFacts FakeMoveFacts FakeRenameFacts.
Local Open Scope run_scope.

Section PhaseOne.
Context {E : Type} `{!EngineClass E}.
Variable self : Migration E.


End PhaseOne.


End PhaseOneFacts.

(** ** Building the plan on the fake catalog *)

Module FakePlanFacts.
Import PyStr Py Clickhouse Migration0004 RunFacts PyStrFacts CheckFacts PlanFacts Fake.
Local Open Scope run_scope.

Lemma sub_subject_None (p : Re.pattern) (repl : string) (s : string) :
  Re.sub_subject p repl None <> Re.Text s.
Proof. unfold Re.sub_subject. now destruct (Re.parse_template repl). Qed.

Lemma sub_subject_literal (p : Re.pattern) (repl text : string) :
  has_char BACKSLASH repl = false ->
  exists s, Re.sub_subject p repl (Some text) = Re.Text s.
Proof.
  intros Hrepl. unfold Re.sub_subject, Re.sub.
  rewrite (EngineFacts.parse_template_literal _ Hrepl). now eexists.
Qed.

Section FakePlan.
Context {E : Type} `{!EngineClass E}.
Variable self : Migration E.

(** The server lists the table, in the database of the settings. *)
Definition listed (c : catalog) (table_name : string) : Prop :=
  CLICKHOUSE_DATABASE (settings self) = database c /\ is_Some (tables c !! table_name).

(** The engine text substituted for [table] at a reading [t] of the clock
    holds no backslash. *)
Definition plain_engine_text (table : TableMigrationData E) (t : datetime) : Prop :=
  has_char BACKSLASH
    (engine_str (set_zookeeper_path_key (strftime_am0004 t) (new_table_engine table)))
  = false.

Lemma get_new_engine_fake (table : TableMigrationData E) (w : world catalog) :
  let run := get_new_engine self table w in
  db (snd run) = db w
  /\ clock (snd run) = clock w
  /\ (is_ok (fst run) = true -> ticks (snd run) = S (ticks w))
  /\ (is_ok (fst run) = true -> listed (db w) (name table))
  /\ (listed (db w) (name table) -> plain_engine_text table (clock w (ticks w)) ->
      is_ok (fst run) = true).
Proof.
  cbv zeta. unfold get_new_engine, get_current_engine, bind, sync_execute, listed,
    plain_engine_text.
  unfold execute, fake_backend, fake_execute.
  destruct (decide (CLICKHOUSE_DATABASE (settings self) = database (db w))) as [Hdb|Hdb];
    [destruct (tables (db w) !! name table) as [t|] eqn:Ht |];
    cbn [fst snd is_ok ret raise item lookup list_lookup now db clock ticks config journal].
  - match goal with |- context [Re.sub_subject ?p ?repl ?subject] =>
      pose proof (sub_subject_literal p repl (engine_full t)) as Hliteral;
      destruct (Re.sub_subject p repl subject) as [s| | |] eqn:Hsub end;
      cbn [fst snd is_ok db clock ticks];
      (split; [reflexivity |]); (split; [reflexivity |]);
      (split; [first [discriminate | intros _; reflexivity] |]);
      (split; [first [discriminate | intros _; split; [exact Hdb | eauto]] |]);
      intros _ Hplain;
      first [reflexivity | destruct (Hliteral Hplain) as [s' Hs']; discriminate Hs'].
  - match goal with |- context [Re.sub_subject ?p ?repl None] =>
      pose proof (sub_subject_None p repl) as Hnone;
      destruct (Re.sub_subject p repl None) as [s| | |] end;
      try (now destruct (Hnone s));
      cbn [fst snd is_ok db clock ticks];
      (split; [reflexivity |]); (split; [reflexivity |]);
      (split; [discriminate |]); (split; [discriminate |]);
      intros [_ [? [=]]].
  - match goal with |- context [Re.sub_subject ?p ?repl None] =>
      pose proof (sub_subject_None p repl) as Hnone;
      destruct (Re.sub_subject p repl None) as [s| | |] end;
      try (now destruct (Hnone s));
      cbn [fst snd is_ok db clock ticks];
      (split; [reflexivity |]); (split; [reflexivity |]);
      (split; [discriminate |]); (split; [discriminate |]);
      intros [Heq _]; contradiction.
Qed.

Lemma replicated_table_operations_fake (table : TableMigrationData E) (w : world catalog) :
  let run := replicated_table_operations self table w in
  db (snd run) = db w
  /\ clock (snd run) = clock w
  /\ (is_ok (fst run) = true -> ticks (snd run) = S (ticks w))
  /\ (is_ok (fst run) = true -> listed (db w) (name table))
  /\ (listed (db w) (name table) -> plain_engine_text table (clock w (ticks w)) ->
      is_ok (fst run) = true).
Proof.
  cbv zeta. pose proof (get_new_engine_fake table w) as H. cbv zeta in H.
  unfold replicated_table_operations, bind, ret.
  now destruct (get_new_engine self table w) as [[new_engine|e] w1].
Qed.

(** The comprehension over tables [l], on the fake catalog. *)
Lemma comprehension_fake (l : list (TableMigrationData E)) :
  forall w : world catalog,
    let run := comprehension (replicated_table_operations self) l w in
    db (snd run) = db w
    /\ (is_ok (fst run) = true -> Forall (fun t => listed (db w) (name t)) l)
    /\ (Forall (fun t => listed (db w) (name t)) l ->
        (forall (i : nat) t, l !! i = Some t -> plain_engine_text t (clock w (ticks w + i)%nat)) ->
        is_ok (fst run) = true).
Proof.
  induction l as [|table l IH]; intros w; cbv zeta.
  - simpl. repeat split. constructor.
  - rewrite PlanQueryFacts.comprehension_cons.
    destruct (replicated_table_operations_fake table w) as (Hdb & Hclock & Hticks & Hok & Hrun).
    cbv zeta in *.
    destruct (replicated_table_operations self table w) as [[block|e] w1];
      cbn [fst snd is_ok] in *.
    + destruct (IH w1) as (Hdb1 & Hok1 & Hrun1). cbv zeta in *.
      rewrite Hdb, Hclock, (Hticks eq_refl) in *.
      destruct (comprehension _ l w1) as [[blocks|e] w2]; cbn [fst snd is_ok] in *.
      * split; [exact Hdb1 |]. split; [| reflexivity].
        intros _. constructor; auto.
      * split; [exact Hdb1 |]. split; [discriminate |].
        intros Hall Hplain. apply Forall_cons in Hall as [_ Hall].
        apply Hrun1; [exact Hall |].
        intros i t Hi. replace (S (ticks w) + i)%nat with (ticks w + S i)%nat by lia.
        now apply Hplain.
    + split; [exact Hdb |]. split; [discriminate |].
      intros Hall Hplain. apply Forall_cons in Hall as [Hhead _].
      apply Hrun; [exact Hhead |].
      specialize (Hplain O table eq_refl). now rewrite Nat.add_0_r in Hplain.
Qed.

(** On the fake catalog an access of [operations] changes nothing on the
    server.  The first access of an instance, the one that finds the slot
    empty, returns a plan only if the server lists every one of the nine
    tables in the database of the settings: a single missing table, and it
    raises; conversely, with all nine listed and engine texts free of
    backslashes at the nine readings of the clock, the plan is built.  An
    access that finds a plan in the slot returns it whatever the server
    lists, as when tables have been renamed away since the plan was built. *)
Theorem operations_needs_every_table (w : world catalog) :
  let run := operations self None w in
  let all_listed :=
    CLICKHOUSE_DATABASE (settings self) = database (db w)
    /\ forall table_name,
         table_name ∈ [ "events"; "session_recording_events"; "events_dead_letter_queue";
                        "groups"; "person"; "person_distinct_id2"; "plugin_log_entries";
                        "cohortpeople"; "person_static_cohort" ] ->
         is_Some (tables (db w) !! table_name) in
  (forall slot, db (snd (operations self slot w)) = db w)
  /\ (is_ok (fst run) = true -> all_listed)
  /\ (all_listed ->
      (forall (i : nat) t,
         tables_to_migrate self !! i = Some t ->
         plain_engine_text t (clock w (ticks w + i)%nat)) ->
      is_ok (fst run) = true)
  /\ (forall plan, operations self (Some plan) w = (Ok (plan, Some plan), w)).
Proof.
  cbv zeta.
  destruct (comprehension_fake (tables_to_migrate self) w) as (Hdb & Hok & Hrun).
  cbv zeta in *.
  assert (Hall : Forall (fun t => listed (db w) (name t)) (tables_to_migrate self)
                 <-> CLICKHOUSE_DATABASE (settings self) = database (db w)
                     /\ forall table_name,
                          table_name ∈ map name (tables_to_migrate self) ->
                          is_Some (tables (db w) !! table_name)).
  { rewrite Forall_forall. unfold listed. split.
    - intros H. split.
      + apply (H _ (list_elem_of_here _ _)).
      + intros n (t & -> & Ht)%list_elem_of_fmap. now apply H.
    - intros [Hd H] t Ht. split; [exact Hd |]. apply H, list_elem_of_fmap. now exists t. }
  change (map name (tables_to_migrate self))
    with [ "events"; "session_recording_events"; "events_dead_letter_queue";
           "groups"; "person"; "person_distinct_id2"; "plugin_log_entries";
           "cohortpeople"; "person_static_cohort" ] in Hall.
  assert (Hfirst : db (snd (operations self None w)) = db w
                   /\ (is_ok (fst (operations self None w)) = true ->
                       Forall (fun t => listed (db w) (name t)) (tables_to_migrate self))
                   /\ (is_ok (fst (operations self None w)) = false ->
                       is_ok (fst (comprehension (replicated_table_operations self)
                                     (tables_to_migrate self) w)) = false)).
  { rewrite operations_first. unfold operations_func, bind, ret.
    destruct (comprehension _ _ w) as [[blocks|e] w1]; cbn [fst snd is_ok] in *.
    - split; [exact Hdb |]. split; [intros _; now apply Hok | discriminate].
    - split; [exact Hdb |]. split; [discriminate | reflexivity]. }
  destruct Hfirst as (Hdb1 & Hok1 & Hfail1).
  split; [| split; [| split]].
  - intros [plan|]; [reflexivity | exact Hdb1].
  - intros Hbuilt. now apply Hall, Hok1.
  - intros Hlisted Hplain.
    destruct (is_ok (fst (operations self None w))) eqn:Hrun1; [reflexivity |].
    rewrite <- (Hfail1 eq_refl). apply Hrun; [now apply Hall | exact Hplain].
  - intros plan. reflexivity.
Qed.

End FakePlan.

(** A server that lacks the last table of the catalog: a first access
    builds no plan; an instance that built its plan before still returns
    it. *)
Definition without_static_cohort : catalog :=
  Catalog "default" (delete "person_static_cohort" sample_tables) 1.

Example operations_with_a_table_missing :
  let self := sample_migration true in
  let built := operations self None (start (sample_catalog 1) first_attempt) in
  let run := operations self None (start without_static_cohort first_attempt) in
  let again :=
    operations self (Some (plan_of (fst built))) (start without_static_cohort first_attempt) in
  fst run = Raise TypeError
  /\ length (journal (snd run)) = 9%nat
  /\ length (plan_of (fst again)) = 53%nat
  /\ journal (snd again) = [].
Proof. vm_compute. repeat split. Qed.

End FakePlanFacts.

(** ** The ZooKeeper path key *)

Module ClockKeyFacts.
Import PyStr Py Clickhouse Migration0004 RunFacts PyStrFacts.

(** A reading of [now()]: a date of the years 1000 to 9999 and a time of
    day. *)
Definition reading (d : datetime) : Prop :=
  (1000 <= Z.of_nat (year d) <= 9999)%Z
  /\ (1 <= month d <= 12)%nat /\ (1 <= day d <= 31)%nat
  /\ (hour d < 24)%nat /\ (minute d < 60)%nat /\ (second d < 60)%nat.

Lemma forallb_seq (P : nat -> bool) (a n : nat) :
  forallb P (seq a n) = true -> forall k, (a <= k < a + n)%nat -> P k = true.
Proof.
  intros H k Hk. rewrite forallb_forall in H. apply H, in_seq. exact Hk.
Qed.

Lemma append_inj_length (a a' b b' : string) :
  String.length a = String.length a' -> a +:+ b = a' +:+ b' -> a = a' /\ b = b'.
Proof.
  revert a'. induction a as [|c a IH]; intros [|c' a'] Hlen; try discriminate.
  - now rewrite !append_nil_l.
  - rewrite !append_cons. intros [= -> H]. injection Hlen as Hlen.
    destruct (IH a' Hlen H) as [-> ->]. now split.
Qed.

(** The year of a reading prints on four digits. *)
Lemma year_length (y : nat) :
  (1000 <= Z.of_nat y <= 9999)%Z -> String.length (pretty y) = 4%nat.
Proof.
  intros Hy.
  assert (H : forallb (fun y => Nat.eqb (String.length (pretty y)) 4)
                (seq (10 * 100) (90 * 100)) = true)
    by (vm_compute; reflexivity).
  apply Nat.eqb_eq. apply (forallb_seq _ _ _ H). lia.
Qed.

(** A number below 100 prints on two digits, zero-padded, and the two
    digits tell the number. *)
Definition two_digits (s : string) : nat :=
  match s with
  | String a (String b EmptyString) =>
      (Ascii.nat_of_ascii a - 48) * 10 + (Ascii.nat_of_ascii b - 48)
  | _ => O
  end.

Lemma zero_padded_two_digits (n : nat) :
  (n < 100)%nat ->
  String.length (zero_padded 2 n) = 2%nat /\ two_digits (zero_padded 2 n) = n.
Proof.
  intros Hn.
  assert (H : forallb (fun n => Nat.eqb (String.length (zero_padded 2 n)) 2
                                && Nat.eqb (two_digits (zero_padded 2 n)) n)
                (seq 0 100) = true)
    by (vm_compute; reflexivity).
  assert (Hk : (0 <= n < 0 + 100)%nat) by lia.
  apply (forallb_seq _ _ _ H) in Hk. apply andb_true_iff in Hk as [H1 H2].
  split; now apply Nat.eqb_eq.
Qed.

Lemma zero_padded_inj (n m : nat) :
  (n < 100)%nat -> (m < 100)%nat -> zero_padded 2 n = zero_padded 2 m -> n = m.
Proof.
  intros Hn Hm H.
  destruct (zero_padded_two_digits n Hn) as [_ <-].
  destruct (zero_padded_two_digits m Hm) as [_ <-].
  now rewrite H.
Qed.

(** The key that [get_new_engine] sets tells the reading of the clock to
    the second, and no finer: two readings get the same key exactly when they
    are the same second of the same day.  The key is 21 characters long. *)
Theorem zookeeper_path_key_per_second (d1 d2 : datetime) :
  reading d1 -> reading d2 ->
  (strftime_am0004 d1 = strftime_am0004 d2 <-> d1 = d2)
  /\ String.length (strftime_am0004 d1) = 21%nat.
Proof.
  intros (Hy1 & Hm1 & Hd1 & Hh1 & Hi1 & Hs1) (Hy2 & Hm2 & Hd2 & Hh2 & Hi2 & Hs2).
  destruct d1 as [y1 m1 d1 h1 i1 s1], d2 as [y2 m2 d2 h2 i2 s2].
  cbn [year month day hour minute second] in *.
  unfold strftime_am0004. cbn [year month day hour minute second].
  pose proof (year_length y1 Hy1) as Ly1. pose proof (year_length y2 Hy2) as Ly2.
  destruct (zero_padded_two_digits m1) as [Lm1 _]; [lia |].
  destruct (zero_padded_two_digits m2) as [Lm2 _]; [lia |].
  destruct (zero_padded_two_digits d1) as [Ld1 _]; [lia |].
  destruct (zero_padded_two_digits d2) as [Ld2 _]; [lia |].
  destruct (zero_padded_two_digits h1) as [Lh1 _]; [lia |].
  destruct (zero_padded_two_digits h2) as [Lh2 _]; [lia |].
  destruct (zero_padded_two_digits i1) as [Li1 _]; [lia |].
  destruct (zero_padded_two_digits i2) as [Li2 _]; [lia |].
  destruct (zero_padded_two_digits s1) as [Ls1 _]; [lia |].
  split.
  - split; [| now intros [= -> -> -> -> -> ->]].
    intros H.
    apply append_inj_length in H as [_ H]; [| reflexivity].
    apply append_inj_length in H as [Hy H]; [| congruence].
    apply append_inj_length in H as [Hm H]; [| congruence].
    apply append_inj_length in H as [Hd H]; [| congruence].
    apply append_inj_length in H as [Hh H]; [| congruence].
    apply append_inj_length in H as [Hi Hs]; [| congruence].
    apply (inj pretty) in Hy.
    apply zero_padded_inj in Hm, Hd, Hh, Hi, Hs; try lia.
    congruence.
  - rewrite !length_append, Ly1, Lm1, Ld1, Lh1, Li1, Ls1. reflexivity.
Qed.

Lemma zookeeper_path_key_per_second_witness :
  (strftime_am0004 Fake.first_attempt = strftime_am0004 Fake.second_attempt
   <-> Fake.first_attempt = Fake.second_attempt)
  /\ String.length (strftime_am0004 Fake.first_attempt) = 21%nat.
Proof.
  apply zookeeper_path_key_per_second; unfold reading; cbn; lia.
Defined.

End ClockKeyFacts.

(** ** The precheck, when no count comes back *)

Module PrecheckFacts.
Import PyStr Py Clickhouse Migration0004 RunFacts CheckFacts.
Local Open Scope run_scope.

Section Precheck.
Context {DB : Type} `{!Backend DB} {E : Type} `{!EngineClass E}.
Variable self : Migration E.

(** With CLICKHOUSE_REPLICATION off, [precheck] fails the migration without
    a word to the server: the world is untouched.  With it on, [precheck]
    sends the node count query and nothing else, and it gives a verdict only
    if the answer starts with a number: a refusal of the server is raised
    as it is, an answer without rows or with an empty first row raises
    IndexError, and a first column that is no number raises TypeError. *)
Theorem precheck_without_a_count (w : world DB) :
  let q := SelectNodeCount (CLICKHOUSE_CLUSTER (settings self)) in
  let run := precheck self w in
  (CLICKHOUSE_REPLICATION (settings self) = false ->
   run = (Ok (false, Some "CLICKHOUSE_REPLICATION env var needs to be set for this migration"),
          w))
  /\ (CLICKHOUSE_REPLICATION (settings self) = true ->
      snd run
      = World (snd (execute q (db w))) (clock w) (ticks w) (config w)
              (journal w ++ [(q, is_ok (fst (execute q (db w))))])
      /\ match fst (execute q (db w)) with
         | Raise e => fst run = Raise e
         | Ok [] | Ok ([] :: _) => fst run = Raise IndexError
         | Ok ((VInt n :: _) :: _) => is_ok (fst run) = true
         | Ok ((_ :: _) :: _) => fst run = Raise TypeError
         end).
Proof.
  cbv zeta. unfold precheck. split; intros ->; cbn [negb]; [reflexivity |].
  unfold get_number_of_nodes_in_cluster, bind, sync_execute.
  destruct (execute _ (db w)) as [[[|[|v first] rest]|e] d];
    cbn [fst snd is_ok item lookup list_lookup ret raise]; try (split; reflexivity).
  destruct v as [|n|s]; cbn; try (split; reflexivity).
  destruct (1 <? n)%Z; split; reflexivity.
Qed.

End Precheck.

(** The sample server with replication switched off in the settings. *)
Lemma precheck_without_a_count_witness :
  let w := Fake.start (Fake.sample_catalog 1) Fake.first_attempt in
  precheck (Fake.sample_migration false) w
  = (Ok (false, Some "CLICKHOUSE_REPLICATION env var needs to be set for this migration"), w).
Proof.
  intros w. exact (proj1 (precheck_without_a_count (Fake.sample_migration false) w) eq_refl).
Defined.

End PrecheckFacts.

(** ** The name of the table a query creates *)

Module SchemaFacts.
Import PyStr Py PyStrFacts Schema.

(** No space of the text is followed by a character of the class. *)
Fixpoint no_name_after_space (s : string) : bool :=
  match s with
  | String c s' =>
      negb (Ascii.eqb c " "
            && match s' with String d _ => is_name_char d | EmptyString => false end)
      && no_name_after_space s'
  | EmptyString => true
  end.

Fixpoint all_name_chars (s : string) : bool :=
  match s with
  | String c s' => is_name_char c && all_name_chars s'
  | EmptyString => true
  end.

Lemma contains_cons (needle : string) (c : ascii) (s : string) :
  contains needle s = true -> contains needle (String c s) = true.
Proof. intros H. cbn [contains]. rewrite H. now destruct (strip_prefix _ _). Qed.

Lemma contains_prefix (needle s rest : string) :
  strip_prefix needle s = Some rest -> contains needle s = true.
Proof. intros H. destruct s; cbn [contains]; now rewrite H. Qed.

Lemma contains_infix (needle a b : string) :
  contains needle (a +:+ needle +:+ b) = true.
Proof.
  induction a as [|x a IH].
  - rewrite append_nil_l. apply (contains_prefix _ _ b), strip_prefix_append.
  - rewrite append_cons. now apply contains_cons.
Qed.

Lemma contains_inv (needle s : string) :
  contains needle s = true -> exists a b, s = a +:+ needle +:+ b.
Proof.
  induction s as [|c s IH]; cbn [contains].
  - destruct (strip_prefix needle "") as [r|] eqn:Hp; [| discriminate].
    intros _. apply strip_prefix_Some in Hp. exists "", r. now rewrite append_nil_l.
  - destruct (strip_prefix needle (String c s)) as [r|] eqn:Hp.
    + intros _. apply strip_prefix_Some in Hp. exists "", r. now rewrite append_nil_l.
    + intros (a & b & ->)%IH. exists (String c a), b. now rewrite append_cons.
Qed.

(** What [match_name] finds is a run of the class, not empty, followed in
    the text by [ON_CLUSTER]. *)
Lemma match_name_sound (s : string) :
  forall group n,
    match_name s = Some (group, n) ->
    group <> "" /\ all_name_chars group = true
    /\ exists rest, s = group +:+ ON_CLUSTER +:+ rest.
Proof.
  induction s as [|c s IH]; intros group n; [discriminate |].
  cbn [match_name]. destruct (is_name_char c) eqn:Hc; [| discriminate].
  destruct (match_name s) as [[g m]|].
  - intros [= <- <-]. destruct (IH g m eq_refl) as (_ & Hall & rest & ->).
    split; [discriminate |]. split; [cbn; now rewrite Hc |].
    exists rest. now rewrite append_cons.
  - destruct (strip_prefix ON_CLUSTER s) as [rest|] eqn:Hs; [| discriminate].
    intros [= <- <-]. apply strip_prefix_Some in Hs as ->.
    split; [discriminate |]. split; [cbn; now rewrite Hc |].
    exists rest. now rewrite append_cons, append_nil_l.
Qed.

Lemma match_here_sound (s : string) group n :
  match_here s = Some (group, n) ->
  group <> "" /\ all_name_chars group = true
  /\ exists rest, s = " " +:+ group +:+ ON_CLUSTER +:+ rest.
Proof.
  destruct s as [|c s]; [discriminate |]. cbn [match_here].
  destruct (Ascii.eqb_spec c " ") as [->|]; [| discriminate].
  destruct (match_name s) as [[g m]|] eqn:Hm; [| discriminate].
  intros [= <- <-]. destruct (match_name_sound s g m Hm) as (Hne & Hall & rest & ->).
  split; [exact Hne |]. split; [exact Hall |]. now exists rest.
Qed.

Lemma findall_sound (s : string) :
  forall skip group others,
    findall skip s = group :: others ->
    group <> "" /\ all_name_chars group = true
    /\ contains (" " +:+ group +:+ ON_CLUSTER) s = true.
Proof.
  induction s as [|c s IH]; intros skip group others; [discriminate |].
  cbn [findall]. destruct skip as [|k].
  - destruct (match_here (String c s)) as [[g n]|] eqn:Hm.
    + intros [= <- _]. destruct (match_here_sound _ _ _ Hm) as (Hne & Hall & rest & Hs).
      split; [exact Hne |]. split; [exact Hall |].
      apply (contains_prefix _ _ rest). rewrite Hs, <- !append_assoc.
      apply strip_prefix_append.
    + intros H. destruct (IH _ _ _ H) as (Hne & Hall & Hin).
      split; [exact Hne |]. split; [exact Hall |]. now apply contains_cons.
  - intros H. destruct (IH _ _ _ H) as (Hne & Hall & Hin).
    split; [exact Hne |]. split; [exact Hall |]. now apply contains_cons.
Qed.

(** The run of the class in front of [ON_CLUSTER] is matched whole. *)
Lemma match_name_run (name rest : string) :
  name <> "" -> all_name_chars name = true ->
  match_name (name +:+ ON_CLUSTER +:+ rest)
  = Some (name, (String.length name + String.length ON_CLUSTER)%nat).
Proof.
  induction name as [|c name IH]; intros Hne Hall; [congruence |].
  cbn [all_name_chars] in Hall. apply andb_true_iff in Hall as [Hc Hall].
  rewrite append_cons. cbn [match_name]. rewrite Hc.
  destruct name as [|d name].
  - rewrite append_nil_l. unfold ON_CLUSTER at 1. rewrite append_cons.
    cbn [match_name]. change (is_name_char " ") with false. cbv iota.
    change (String " " ("ON CLUSTER" +:+ rest)) with (ON_CLUSTER +:+ rest).
    now rewrite strip_prefix_append.
  - rewrite IH by (congruence || assumption). reflexivity.
Qed.

(** In front of the name nothing matches. *)
Lemma findall_quiet_prefix (pre rest : string) :
  no_name_after_space pre = true ->
  findall O (pre +:+ String " " rest) = findall O (String " " rest).
Proof.
  induction pre as [|c pre IH]; intros Hquiet; [now rewrite append_nil_l |].
  cbn [no_name_after_space] in Hquiet. apply andb_true_iff in Hquiet as [Hc Hquiet].
  rewrite append_cons. cbn [findall match_here].
  destruct (Ascii.eqb c " ") eqn:Hspace; [| now apply IH].
  cbn [andb negb] in Hc.
  assert (Hnone : match_name (pre +:+ String " " rest) = None).
  { destruct pre as [|d pre].
    - rewrite append_nil_l. reflexivity.
    - rewrite append_cons. cbn [match_name].
      apply negb_true_iff in Hc. now rewrite Hc. }
  rewrite Hnone. now apply IH.
Qed.

(** For a statement that reads, after words in capitals, [name ON CLUSTER]
    with [name] written in small letters, digits and underscores,
    [get_table_name] returns [name]: nothing in front of it fits the
    pattern, no space there being followed by a character of the class. *)
Theorem get_table_name_of_create (q : query) (pre name rest : string) :
  build_query q = pre +:+ " " +:+ name +:+ ON_CLUSTER +:+ rest ->
  no_name_after_space pre = true ->
  name <> "" ->
  all_name_chars name = true ->
  get_table_name q = Ok name.
Proof.
  intros Hq Hquiet Hne Hall. unfold get_table_name. rewrite Hq.
  change (" " +:+ name +:+ ON_CLUSTER +:+ rest)
    with (String " " (name +:+ ON_CLUSTER +:+ rest)).
  rewrite (findall_quiet_prefix pre _ Hquiet).
  cbn [findall match_here]. change (Ascii.eqb " " " ") with true. cbv iota.
  now rewrite (match_name_run name rest Hne Hall).
Qed.

(** What [get_table_name] returns is never empty, is written in the
    characters of the class only, and stands in the statement between a
    space and [ON CLUSTER]; a statement that nowhere reads [ON CLUSTER]
    has no name: IndexError. *)
Theorem get_table_name_sound (q : query) :
  (forall name,
     get_table_name q = Ok name ->
     name <> "" /\ all_name_chars name = true
     /\ contains (" " +:+ name +:+ ON_CLUSTER) (build_query q) = true)
  /\ (contains ON_CLUSTER (build_query q) = false ->
      get_table_name q = Raise IndexError).
Proof.
  unfold get_table_name. split.
  - intros name. destruct (findall O (build_query q)) as [|g l] eqn:Hf; [discriminate |].
    intros [= <-]. exact (findall_sound _ _ _ _ Hf).
  - intros Hnone. destruct (findall O (build_query q)) as [|g l] eqn:Hf; [reflexivity |].
    destruct (findall_sound _ _ _ _ Hf) as (_ & _ & Hin).
    apply contains_inv in Hin as (a & b & Hs). rewrite Hs in Hnone.
    replace (a +:+ (" " +:+ g +:+ ON_CLUSTER) +:+ b)
      with ((a +:+ " " +:+ g) +:+ ON_CLUSTER +:+ b) in Hnone
      by now rewrite !append_assoc.
    now rewrite contains_infix in Hnone.
Qed.

(** The statement that creates the [events] table, as text and as a
    builder. *)
Definition CREATE_EVENTS : string :=
  nl +:+ "CREATE TABLE IF NOT EXISTS sharded_events ON CLUSTER 'posthog'" +:+ nl
     +:+ "(uuid UUID, event VARCHAR) ENGINE = ReplacingMergeTree(_timestamp)".

Lemma get_table_name_of_create_witness :
  get_table_name (Builder (fun _ => CREATE_EVENTS)) = Ok "sharded_events".
Proof.
  refine (get_table_name_of_create (Builder (fun _ => CREATE_EVENTS))
            (nl +:+ "CREATE TABLE IF NOT EXISTS") "sharded_events"
            (" 'posthog'" +:+ nl
               +:+ "(uuid UUID, event VARCHAR) ENGINE = ReplacingMergeTree(_timestamp)")
            _ _ _ _).
  - vm_compute. reflexivity.
  - vm_compute. reflexivity.
  - discriminate.
  - vm_compute. reflexivity.
Defined.

(** A name with a capital letter is not found, and neither is the name of a
    statement for a single server. *)
Example get_table_name_misses :
  get_table_name (Sql "CREATE TABLE Events ON CLUSTER 'posthog' (uuid UUID)")
  = Raise IndexError
  /\ get_table_name (Sql "CREATE TABLE events (uuid UUID)") = Raise IndexError
  /\ get_table_name (Sql "CREATE TABLE my_Events ON CLUSTER 'posthog' (uuid UUID)")
     = Raise IndexError.
Proof. vm_compute. repeat split. Qed.

(** Two matches, the second starting where the first ends. *)
Example findall_two_matches :
  findall O " a ON CLUSTER b ON CLUSTER" = ["a"; "b"]
  /\ findall O " a ON CLUSTERx ON CLUSTER" = ["a"].
Proof. vm_compute. split; reflexivity. Qed.

End SchemaFacts.

(** ** The variants of a web experiment *)

Module WebExperimentFacts.
Import WebExperiment.

Definition is_dict (v : json) : bool :=
  match v with JObject _ => true | _ => false end.

(** The variants of the validated data when they are a dict, none
    otherwise. *)
Definition variants_of (validated_data : list (string * json)) : list (string * json) :=
  match dict_get validated_data "variants" JNull with
  | JObject items => items
  | _ => []
  end.

(** The key of an entry of the result. *)
Definition key_of (entry : json) : json :=
  match entry with
  | JObject fields => dict_get fields "key" JNull
  | _ => JNull
  end.

Definition rollout_of (entry : json) : json :=
  match entry with
  | JObject fields => dict_get fields "rollout_percentage" JNull
  | _ => JNull
  end.

Lemma variant_names_of_ok (items : list (string * json)) :
  forallb (fun item => is_dict (snd item)) items = true ->
  exists entries,
    variant_names_of items = Ok entries
    /\ map key_of entries = map (fun item => JString (fst item)) items
    /\ map rollout_of entries
       = map (fun item =>
                match snd item with
                | JObject t => dict_get t "rollout_percentage" (JNumber 0)
                | _ => JNull
                end) items.
Proof.
  induction items as [|[variant transforms] items IH]; intros Hall.
  - now exists [].
  - cbn [forallb snd] in Hall. apply andb_true_iff in Hall as [Hd Hall].
    destruct (IH Hall) as (entries & Hrun & Hkeys & Hrollouts).
    destruct transforms; try discriminate.
    cbn [variant_names_of variant_name]. rewrite Hrun.
    eexists. split; [reflexivity |]. cbn [map fst snd]. now rewrite Hkeys, Hrollouts.
Qed.

Lemma variant_names_of_error (items : list (string * json)) :
  forallb (fun item => is_dict (snd item)) items = false ->
  variant_names_of items = AttributeError.
Proof.
  induction items as [|[variant transforms] items IH]; intros Hall; [discriminate |].
  cbn [forallb snd] in Hall. cbn [variant_names_of].
  destruct transforms; try reflexivity.
  cbn [is_dict andb] in Hall. cbn [variant_name]. now rewrite (IH Hall).
Qed.

(** [get_variant_names] raises exactly when the variants are a dict one of
    whose values is no dict (a variant given as null, a number, a string or a
    list): then [.get] fails with AttributeError.  In every other case it
    returns [{"variants": entries}] with one entry per variant, in the order
    of the dict, each holding the variant's name as its key and the
    variant's rollout_percentage, 0 when the variant has none; when the
    variants are missing, null or no dict there are no entries. *)
Theorem get_variant_names_total_on_dicts (validated_data : list (string * json)) :
  let items := variants_of validated_data in
  (get_variant_names validated_data = AttributeError
   <-> forallb (fun item => is_dict (snd item)) items = false)
  /\ (forallb (fun item => is_dict (snd item)) items = true ->
      exists entries,
        get_variant_names validated_data = Ok (JObject [("variants", JArray entries)])
        /\ map key_of entries = map (fun item => JString (fst item)) items
        /\ map rollout_of entries
           = map (fun item =>
                    match snd item with
                    | JObject t => dict_get t "rollout_percentage" (JNumber 0)
                    | _ => JNull
                    end) items).
Proof.
  cbv zeta. unfold get_variant_names, variants_of.
  destruct (dict_get validated_data "variants" JNull) as [| | | | |items];
    try (split; [split; discriminate | intros _; now exists []]).
  destruct (forallb (fun item => is_dict (snd item)) items) eqn:Hall.
  - destruct (variant_names_of_ok items Hall) as (entries & -> & Hkeys & Hrollouts).
    split; [split; discriminate |]. intros _. now exists entries.
  - rewrite (variant_names_of_error items Hall). split; [split; reflexivity | discriminate].
Qed.

(** A body with two variants, one without a rollout percentage; and a body
    whose second variant is null. *)
Example get_variant_names_of_two :
  get_variant_names
    [("name", JString "checkout");
     ("variants",
      JObject [("control", JObject [("rollout_percentage", JNumber 70)]);
               ("test", JObject [("transforms", JArray [])])])]
  = Ok (JObject
          [("variants",
            JArray [JObject [("key", JString "control"); ("rollout_percentage", JNumber 70)];
                    JObject [("key", JString "test"); ("rollout_percentage", JNumber 0)]])]).
Proof. reflexivity. Qed.

Example get_variant_names_of_null_variant :
  get_variant_names
    [("variants",
      JObject [("control", JObject [("rollout_percentage", JNumber 70)]);
               ("test", JNull)])]
  = AttributeError.
Proof. reflexivity. Qed.

End WebExperimentFacts.
